(** * Vulkan WSI layer: swapchain entrypoints and surface queries

    A shallow embedding of
      - [layer/swapchain_api.cpp]   (the swapchain entrypoints of the layer),
      - [wsi/surface_properties.hpp] (the helpers shared by the surface backends),
      - the Wayland and X11 [surface_properties.cpp] backends,
    and the properties of them that the design document states.

    Conventions.  A [VkResult], a [VkPresentModeKHR], a [VkFormat] and every
    other C enum is the integer the header gives it, in [Z].  A [uint32_t] is
    a [Z] and its conversions from wider types are written [wrap32].  A
    caller's array is a [list], written by index with stdpp's insert; a
    nullable pointer to one is an [option].  A [pNext] chain is the list of
    the structures linked from it.  Calls that leave the layer (the ICD, the
    swapchain objects, the allocator) are operations on an abstract [World]
    and every one of them is appended to a log of [call]s. *)

From Stdlib Require Import ZArith Lia Bool.
From stdpp Require Import base list strings gmap.

Local Open Scope Z_scope.

(* ===================================================================== *)
(** * Vulkan types and constants *)
(* ===================================================================== *)

Module Vk.

Definition VkResult := Z.
Definition VK_SUCCESS : VkResult := 0.
Definition VK_NOT_READY : VkResult := 1.
Definition VK_INCOMPLETE : VkResult := 5.
Definition VK_ERROR_OUT_OF_HOST_MEMORY : VkResult := -1.
Definition VK_ERROR_INITIALIZATION_FAILED : VkResult := -3.
Definition VK_ERROR_DEVICE_LOST : VkResult := -4.
Definition VK_ERROR_FORMAT_NOT_SUPPORTED : VkResult := -11.
Definition VK_ERROR_SURFACE_LOST_KHR : VkResult := -1000000000.
Definition VK_ERROR_OUT_OF_DATE_KHR : VkResult := -1000001004.

Definition VkBool32 := Z.
Definition VK_TRUE : VkBool32 := 1.
Definition VK_FALSE : VkBool32 := 0.

Definition VkPresentModeKHR := Z.
Definition VK_PRESENT_MODE_IMMEDIATE_KHR : VkPresentModeKHR := 0.
Definition VK_PRESENT_MODE_MAILBOX_KHR : VkPresentModeKHR := 1.
Definition VK_PRESENT_MODE_FIFO_KHR : VkPresentModeKHR := 2.
Definition VK_PRESENT_MODE_FIFO_RELAXED_KHR : VkPresentModeKHR := 3.
Definition VK_PRESENT_MODE_SHARED_DEMAND_REFRESH_KHR : VkPresentModeKHR := 1000111000.
Definition VK_PRESENT_MODE_SHARED_CONTINUOUS_REFRESH_KHR : VkPresentModeKHR := 1000111001.

Definition VkFormat := Z.
Definition VK_FORMAT_UNDEFINED : VkFormat := 0.
Definition VK_FORMAT_R5G6B5_UNORM_PACK16 : VkFormat := 4.
Definition VK_FORMAT_R8G8B8A8_UNORM : VkFormat := 37.
Definition VK_FORMAT_R8G8B8A8_SRGB : VkFormat := 43.
Definition VK_FORMAT_B8G8R8A8_UNORM : VkFormat := 44.
Definition VK_FORMAT_B8G8R8A8_SRGB : VkFormat := 50.

Definition VkColorSpaceKHR := Z.
Definition VK_COLORSPACE_SRGB_NONLINEAR_KHR : VkColorSpaceKHR := 0.

(** Handles are opaque 64-bit values; [VK_NULL_HANDLE] is 0. *)
Definition handle := Z.
Definition VK_NULL_HANDLE : handle := 0.
Definition VkSwapchainKHR := handle.
Definition VkSurfaceKHR := handle.
Definition VkSemaphore := handle.
Definition VkFence := handle.
Definition VkQueue := handle.
Definition VkDevice := handle.
Definition VkPhysicalDevice := handle.
Definition VkImage := handle.
Definition VkDeviceMemory := handle.

(** [uint32_t]: the conversion from a wider integer. *)
Definition wrap32 (z : Z) : Z := z mod 2 ^ 32.

Record VkSurfaceFormatKHR := {
  format : VkFormat;
  colorSpace : VkColorSpaceKHR
}.

Record VkExtent2D := { width : Z; height : Z }.

End Vk.
Import Vk.

(* ===================================================================== *)
(** * util/macros.hpp and plain loops *)
(* ===================================================================== *)

(** Modelled from the spec: the macros [TRY], [TRY_LOG] and [TRY_LOG_CALL] of
    [util/macros.hpp], which is not among the sources.  Each evaluates a
    [VkResult] expression and makes the enclosing function return that result
    at once when it is not [VK_SUCCESS] (the logging variants log first).  The
    design document relies on this for the batch-wait step: when it fails "no
    per-swapchain present step is attempted".  See [TRY] below.

    A loop body that can return from the function computes in [flow R A]:
    [Return r] carries what the function returns, [Next a] the state with
    which the loop goes on. *)
Inductive flow (R A : Type) : Type :=
| Return (r : R)
| Next (a : A).
Arguments Return {R A} r.
Arguments Next {R A} a.

(** [TRY try_result returning rest]: when [try_result] is not [VK_SUCCESS] the
    function returns it, [returning] giving what the caller then sees (the
    result together with the outputs and the state as they are at that
    point); otherwise the function goes on with [rest]. *)
Definition TRY {R : Type} (try_result : VkResult) (returning : VkResult → R) (rest : R) : R :=
  if try_result =? VK_SUCCESS then rest else returning try_result.

(** [for (uint32_t i = from; i < from + n; ++i) body], no exit from the body. *)
Fixpoint for_loop {St : Type} (n : nat) (from : nat) (body : nat → St → St) (s : St) : St :=
  match n with
  | O => s
  | S n' => for_loop n' (S from) body (body from s)
  end.

(** The same loop when the body may return from the function. *)
Fixpoint for_loop_flow {R St : Type} (n : nat) (from : nat)
    (body : nat → St → flow R St) (s : St) : flow R St :=
  match n with
  | O => Next s
  | S n' =>
      match body from s with
      | Return r => Return r
      | Next s' => for_loop_flow n' (S from) body s'
      end
  end.

(* ===================================================================== *)
(** * pNext chains *)
(* ===================================================================== *)

Module Chain.

(** The structures the layer looks for in a [pNext] chain, each with the
    members the layer reads.  [OtherStructure] is any structure of another
    type. *)
Inductive chain_struct :=
| SurfacePresentModeEXT (presentMode : VkPresentModeKHR)
| PresentIdKHR (swapchainCount : Z) (pPresentIds : option (list Z))
| SwapchainPresentFenceInfoEXT (swapchainCount : Z) (pFences : list VkFence)
| SwapchainPresentModeInfoEXT (swapchainCount : Z) (pPresentModes : list VkPresentModeKHR)
| BindImageMemorySwapchainInfoKHR (swapchain : VkSwapchainKHR) (imageIndex : Z)
| BindMemoryStatusKHR (pResult : nat)
| OtherStructure (sType : Z).

Definition VK_STRUCTURE_TYPE_BIND_IMAGE_MEMORY_SWAPCHAIN_INFO_KHR : Z := 1000060009.
Definition VK_STRUCTURE_TYPE_SURFACE_PRESENT_MODE_EXT : Z := 1000274000.
Definition VK_STRUCTURE_TYPE_SWAPCHAIN_PRESENT_FENCE_INFO_EXT : Z := 1000275001.
Definition VK_STRUCTURE_TYPE_SWAPCHAIN_PRESENT_MODE_INFO_EXT : Z := 1000275003.
Definition VK_STRUCTURE_TYPE_PRESENT_ID_KHR : Z := 1000294000.
Definition VK_STRUCTURE_TYPE_BIND_MEMORY_STATUS_KHR : Z := 1000545002.

Definition sType_of (s : chain_struct) : Z :=
  match s with
  | SurfacePresentModeEXT _ => VK_STRUCTURE_TYPE_SURFACE_PRESENT_MODE_EXT
  | PresentIdKHR _ _ => VK_STRUCTURE_TYPE_PRESENT_ID_KHR
  | SwapchainPresentFenceInfoEXT _ _ => VK_STRUCTURE_TYPE_SWAPCHAIN_PRESENT_FENCE_INFO_EXT
  | SwapchainPresentModeInfoEXT _ _ => VK_STRUCTURE_TYPE_SWAPCHAIN_PRESENT_MODE_INFO_EXT
  | BindImageMemorySwapchainInfoKHR _ _ => VK_STRUCTURE_TYPE_BIND_IMAGE_MEMORY_SWAPCHAIN_INFO_KHR
  | BindMemoryStatusKHR _ => VK_STRUCTURE_TYPE_BIND_MEMORY_STATUS_KHR
  | OtherStructure t => t
  end.

(** Modelled from the spec: [util::find_extension] of [util/helpers.hpp],
    which is not among the sources.  It walks the chain and returns the
    first structure whose [sType] is the one asked for, null when the chain
    carries none. *)
Fixpoint find_extension (sType : Z) (chain : list chain_struct) : option chain_struct :=
  match chain with
  | [] => None
  | s :: rest => if sType_of s =? sType then Some s else find_extension sType rest
  end.

End Chain.
Import Chain.

(* ===================================================================== *)
(** * wsi/surface_properties.hpp *)
(* ===================================================================== *)

Module SurfaceProperties.

(** [class surface_format_properties]: the surface format and the image
    compression properties found for it. *)
Record VkImageCompressionPropertiesEXT := {
  imageCompressionFlags : Z;
  imageCompressionFixedRateFlags : Z
}.

Definition VK_IMAGE_COMPRESSION_DEFAULT_EXT : Z := 0.
Definition VK_IMAGE_COMPRESSION_FIXED_RATE_NONE_EXT : Z := 0.

Record surface_format_properties := {
  m_surface_format : VkSurfaceFormatKHR;
  m_compression : VkImageCompressionPropertiesEXT
}.

(** [surface_format_properties(VkFormat format)] *)
Definition make_surface_format_properties (f : VkFormat) : surface_format_properties :=
  {| m_surface_format := {| format := f; colorSpace := VK_COLORSPACE_SRGB_NONLINEAR_KHR |};
     m_compression := {| imageCompressionFlags := VK_IMAGE_COMPRESSION_DEFAULT_EXT;
                         imageCompressionFixedRateFlags := VK_IMAGE_COMPRESSION_FIXED_RATE_NONE_EXT |} |}.

(** [VkSurfaceFormat2KHR]: the format and the output structure the caller
    may have chained to it. *)
Record VkSurfaceFormat2KHR := {
  surfaceFormat : VkSurfaceFormatKHR;
  compressionProperties : option VkImageCompressionPropertiesEXT
}.

(** What one call of an enumeration entrypoint leaves behind: the result
    code, the value of the count, and the caller's array(s). *)
Record enumeration (A : Type) := {
  enum_result : VkResult;
  enum_count : Z;
  enum_out : A
}.
Arguments enum_result {A} _.
Arguments enum_count {A} _.
Arguments enum_out {A} _.

(** ** get_surface_present_modes_common *)

Definition get_surface_present_modes_common
    (present_mode_count : Z) (present_modes : option (list VkPresentModeKHR))
    (modes : list VkPresentModeKHR) : enumeration (option (list VkPresentModeKHR)) :=
  match present_modes with
  | None =>
      {| enum_result := VK_SUCCESS;
         enum_count := wrap32 (Z.of_nat (length modes));
         enum_out := None |}
  | Some buf =>
      let res := if Z.of_nat (length modes) >? present_mode_count
                 then VK_INCOMPLETE else VK_SUCCESS in
      let count := Z.min present_mode_count (wrap32 (Z.of_nat (length modes))) in
      {| enum_result := res;
         enum_count := count;
         enum_out :=
           Some (for_loop (Z.to_nat count) 0
                   (λ i (b : list VkPresentModeKHR), <[i := modes !!! i]> b) buf) |}
  end.

(** ** surface_properties_formats_helper *)

(** The two caller arrays of the helper. *)
Record format_arrays := {
  surface_formats : option (list VkSurfaceFormatKHR);
  extended_surface_formats : option (list VkSurfaceFormat2KHR)
}.

Section FormatsHelper.

(** [surface_format_properties::fill_format_properties] is defined in
    [surface_properties.cpp], outside the sources: it is a parameter. *)
Variable fill_format_properties :
  surface_format_properties → VkSurfaceFormat2KHR → VkSurfaceFormat2KHR.

(** The body of the copy loop at position [format_count]. *)
Definition write_format (props : surface_format_properties) (format_count : Z)
    (out : format_arrays) : format_arrays :=
  let i := Z.to_nat format_count in
  match extended_surface_formats out with
  | None =>
      {| surface_formats :=
           (λ b : list VkSurfaceFormatKHR, <[i := m_surface_format props]> b)
             <$> surface_formats out;
         extended_surface_formats := None |}
  | Some ext =>
      {| surface_formats := surface_formats out;
         extended_surface_formats :=
           Some (alter (fill_format_properties props) i ext) |}
  end.

(** [for (auto it = begin; it != end; ++it)] with its [break]. *)
Fixpoint formats_loop (its : list surface_format_properties) (surface_formats_count : Z)
    (format_count : Z) (out : format_arrays) : format_arrays :=
  match its with
  | [] => out
  | props :: rest =>
      if format_count >=? surface_formats_count then out
      else formats_loop rest surface_formats_count (wrap32 (format_count + 1))
             (write_format props format_count out)
  end.

Definition surface_properties_formats_helper
    (its : list surface_format_properties) (surface_formats_count : Z)
    (out : format_arrays) : enumeration format_arrays :=
  let supported_formats_count := wrap32 (Z.of_nat (length its)) in
  match surface_formats out, extended_surface_formats out with
  | None, None =>
      {| enum_result := VK_SUCCESS;
         enum_count := supported_formats_count;
         enum_out := out |}
  | _, _ =>
      let res := if supported_formats_count >? surface_formats_count
                 then VK_INCOMPLETE else VK_SUCCESS in
      let count := Z.min surface_formats_count supported_formats_count in
      {| enum_result := res;
         enum_count := count;
         enum_out := formats_loop its count 0 out |}
  end.

End FormatsHelper.

(** ** check_surface_present_mode_query_is_supported *)

(** [std::find(modes.begin(), modes.end(), present_mode) != modes.end()] *)
Fixpoint std_find_mode (modes : list VkPresentModeKHR) (present_mode : VkPresentModeKHR) : bool :=
  match modes with
  | [] => false
  | m :: rest => if m =? present_mode then true else std_find_mode rest present_mode
  end.

Definition check_surface_present_mode_query_is_supported
    (surface_info : list chain_struct) (modes : list VkPresentModeKHR) : VkResult :=
  match find_extension VK_STRUCTURE_TYPE_SURFACE_PRESENT_MODE_EXT surface_info with
  | Some (SurfacePresentModeEXT present_mode) =>
      if std_find_mode modes present_mode
      then VK_SUCCESS
      else VK_ERROR_OUT_OF_HOST_MEMORY
  | _ => VK_SUCCESS
  end.

(** ** Present-mode compatibility *)

(** [struct present_mode_compatibility], as the backends initialise it: a
    mode, the number of modes compatible with it, and the array that holds
    them.  The array is longer than the initialiser lists in the backends;
    the members an initialiser leaves out are zero. *)
Record present_mode_compatibility := {
  present_mode : VkPresentModeKHR;
  present_mode_count : Z;
  compatible_present_modes : list VkPresentModeKHR
}.

(** Modelled from the spec: [compatible_present_modes<SIZE>::is_compatible_present_modes]
    of [wsi/compatible_present_modes.hpp], which is not among the sources.
    "Present-mode compatibility is derived from a static table": mode [b] is
    compatible with mode [a] when the table has an entry for [a] and [b] is
    among the first [present_mode_count] modes that entry declares. *)
Definition entry_declares (e : present_mode_compatibility) (a b : VkPresentModeKHR) : bool :=
  (present_mode e =? a)
  && std_find_mode (take (Z.to_nat (present_mode_count e)) (compatible_present_modes e)) b.

Definition is_compatible_present_modes (table : list present_mode_compatibility)
    (present_mode_a present_mode_b : VkPresentModeKHR) : bool :=
  existsb (λ e, entry_declares e present_mode_a present_mode_b) table.

(** ** Surface capabilities *)

Record VkSurfaceCapabilitiesKHR := {
  minImageCount : Z;
  maxImageCount : Z;
  currentExtent : VkExtent2D;
  minImageExtent : VkExtent2D;
  maxImageExtent : VkExtent2D;
  maxImageArrayLayers : Z;
  supportedTransforms : Z;
  currentTransform : Z;
  supportedCompositeAlpha : Z;
  supportedUsageFlags : Z
}.

Record VkSurfacePresentScalingCapabilitiesEXT := {
  supportedPresentScaling : Z;
  supportedPresentGravityX : Z;
  supportedPresentGravityY : Z;
  minScaledImageExtent : VkExtent2D;
  maxScaledImageExtent : VkExtent2D
}.

(** [VkSurfaceCapabilities2KHR] with the output structures of its chain:
    the scaling capabilities and the compatibility list (the modes written
    into [VkSurfacePresentModeCompatibilityEXT]). *)
Record VkSurfaceCapabilities2KHR := {
  surfaceCapabilities : VkSurfaceCapabilitiesKHR;
  scalingCapabilities : option VkSurfacePresentScalingCapabilitiesEXT;
  presentModeCompatibility : option (enumeration (option (list VkPresentModeKHR)))
}.

Definition VK_COMPOSITE_ALPHA_OPAQUE_BIT_KHR : Z := 1.
Definition VK_COMPOSITE_ALPHA_PRE_MULTIPLIED_BIT_KHR : Z := 2.
Definition VK_COMPOSITE_ALPHA_INHERIT_BIT_KHR : Z := 8.
Definition VK_PRESENT_SCALING_ONE_TO_ONE_BIT_EXT : Z := 1.
Definition VK_PRESENT_GRAVITY_MIN_BIT_EXT : Z := 1.

End SurfaceProperties.
Import SurfaceProperties.

(* ===================================================================== *)
(** * What the surface backends call outside the sources *)
(* ===================================================================== *)

Record drm_format_pair := { fourcc : Z; modifier : Z }.

(** [VkPhysicalDeviceImageFormatInfo2KHR] with the two structures the
    Wayland backend chains to it. *)
Record VkPhysicalDeviceImageFormatInfo2 := {
  ifi_format : VkFormat;
  ifi_type : Z;
  ifi_tiling : Z;
  ifi_usage : Z;
  ifi_drmFormatModifier : Z;
  ifi_sharingMode : Z;
  ifi_handleType : Z
}.

Definition VK_IMAGE_TYPE_2D : Z := 1.
Definition VK_IMAGE_TILING_DRM_FORMAT_MODIFIER_EXT : Z := 1000158000.
Definition VK_IMAGE_USAGE_COLOR_ATTACHMENT_BIT : Z := 16.
Definition VK_SHARING_MODE_EXCLUSIVE : Z := 0.
Definition VK_EXTERNAL_MEMORY_HANDLE_TYPE_DMA_BUF_BIT_EXT : Z := 512.

(** Functions of the repository that the backends call and whose definitions
    are not among the sources.  They are parameters of the development; each
    is a function of its arguments (queries of a fixed device and instance).
    The two member functions of [surface_format_properties] are not [const]:
    they return the object as they leave it along with their result. *)
Class WsiExternals := {
  (* wsi/surface_properties.cpp *)
  get_surface_capabilities_common :
    VkPhysicalDevice → VkSurfaceCapabilitiesKHR → VkSurfaceCapabilitiesKHR;
  fill_format_properties :
    surface_format_properties → VkSurfaceFormat2KHR → VkSurfaceFormat2KHR;
  check_device_support :
    VkPhysicalDevice → surface_format_properties → VkPhysicalDeviceImageFormatInfo2 →
    VkResult * surface_format_properties;
  add_device_compression_support :
    VkPhysicalDevice → surface_format_properties → VkPhysicalDeviceImageFormatInfo2 →
    VkResult * surface_format_properties;
  (* wsi/compatible_present_modes.hpp *)
  get_surface_present_mode_compatibility_common :
    list present_mode_compatibility → list chain_struct →
    VkSurfaceCapabilities2KHR → VkSurfaceCapabilities2KHR;
  (* wsi/synchronization.hpp: sync_fd_fence_sync::is_supported *)
  sync_fd_fence_sync_is_supported : VkPhysicalDevice → bool;
  (* layer/private_data.hpp *)
  has_image_compression_support : VkPhysicalDevice → bool;
  (* util/drm/drm_utils.hpp *)
  drm_to_vk_format : Z → VkFormat;
  drm_to_vk_srgb_format : Z → VkFormat;
  (* util/custom_allocator.hpp: whether [try_insert] of a new key gets its memory *)
  try_insert_allocates : gmap Z surface_format_properties → VkFormat → bool
}.

(* ===================================================================== *)
(** * wsi/wayland/surface_properties.cpp *)
(* ===================================================================== *)

Module Wayland.

(** [class surface_properties] of the backend.  [specific_surface] stands
    for the surface object through the one thing the backend asks it: the
    list returned by [get_formats()]. *)
Record surface_properties := {
  specific_surface : list drm_format_pair;
  supported_formats : gmap Z surface_format_properties;
  m_supported_modes : list VkPresentModeKHR;
  m_compatible_present_modes : list present_mode_compatibility
}.

(** The table built by [populate_present_mode_compatibilities].  [capacity]
    is the length of the array member; the initialisers give its first
    element and leave the others zero. *)
Definition compatible_present_modes_list (capacity : nat) : list present_mode_compatibility :=
  [ {| present_mode := VK_PRESENT_MODE_FIFO_KHR; present_mode_count := 1;
       compatible_present_modes := VK_PRESENT_MODE_FIFO_KHR :: replicate (pred capacity) 0 |};
    {| present_mode := VK_PRESENT_MODE_MAILBOX_KHR; present_mode_count := 1;
       compatible_present_modes := VK_PRESENT_MODE_MAILBOX_KHR :: replicate (pred capacity) 0 |} ].

Definition populate_present_mode_compatibilities (capacity : nat) (sp : surface_properties)
    : surface_properties :=
  {| specific_surface := specific_surface sp;
     supported_formats := supported_formats sp;
     m_supported_modes := m_supported_modes sp;
     m_compatible_present_modes := compatible_present_modes_list capacity |}.

(** The constructor [surface_properties(wsi_surface, allocator)]. *)
Definition make_surface_properties (capacity : nat) (wsi_surface : list drm_format_pair)
    : surface_properties :=
  populate_present_mode_compatibilities capacity
    {| specific_surface := wsi_surface;
       supported_formats := ∅;
       m_supported_modes := [VK_PRESENT_MODE_FIFO_KHR; VK_PRESENT_MODE_MAILBOX_KHR];
       m_compatible_present_modes := [] |}.

Definition is_compatible_present_modes (sp : surface_properties)
    (present_mode_a present_mode_b : VkPresentModeKHR) : bool :=
  SurfaceProperties.is_compatible_present_modes (m_compatible_present_modes sp)
    present_mode_a present_mode_b.

Section WithExternals.
Context `{WsiExternals}.

(** [get_surface_capabilities], the [VkSurfaceCapabilitiesKHR] overload. *)
Definition get_surface_capabilities (physical_device : VkPhysicalDevice)
    (pSurfaceCapabilities : VkSurfaceCapabilitiesKHR) : VkResult * VkSurfaceCapabilitiesKHR :=
  let c := get_surface_capabilities_common physical_device pSurfaceCapabilities in
  (VK_SUCCESS,
   {| minImageCount := 2;
      maxImageCount := maxImageCount c;
      currentExtent := currentExtent c;
      minImageExtent := minImageExtent c;
      maxImageExtent := maxImageExtent c;
      maxImageArrayLayers := maxImageArrayLayers c;
      supportedTransforms := supportedTransforms c;
      currentTransform := currentTransform c;
      supportedCompositeAlpha :=
        Z.lor (Z.lor VK_COMPOSITE_ALPHA_OPAQUE_BIT_KHR VK_COMPOSITE_ALPHA_PRE_MULTIPLIED_BIT_KHR)
              VK_COMPOSITE_ALPHA_INHERIT_BIT_KHR;
      supportedUsageFlags := supportedUsageFlags c |}).

Definition get_surface_present_scaling_and_gravity
    (scaling_capabilities : VkSurfacePresentScalingCapabilitiesEXT)
    : VkSurfacePresentScalingCapabilitiesEXT :=
  {| supportedPresentScaling := VK_PRESENT_SCALING_ONE_TO_ONE_BIT_EXT;
     supportedPresentGravityX := VK_PRESENT_GRAVITY_MIN_BIT_EXT;
     supportedPresentGravityY := VK_PRESENT_GRAVITY_MIN_BIT_EXT;
     minScaledImageExtent := minScaledImageExtent scaling_capabilities;
     maxScaledImageExtent := maxScaledImageExtent scaling_capabilities |}.

(** [get_surface_capabilities], the [VkSurfaceCapabilities2KHR] overload:
    the result and the caller's structure as the call leaves it. *)
Definition get_surface_capabilities2 (sp : surface_properties)
    (physical_device : VkPhysicalDevice) (pSurfaceInfo : list chain_struct)
    (pSurfaceCapabilities : VkSurfaceCapabilities2KHR)
    : VkResult * VkSurfaceCapabilities2KHR :=
  TRY (check_surface_present_mode_query_is_supported pSurfaceInfo (m_supported_modes sp))
    (λ try_result, (try_result, pSurfaceCapabilities)) $
    let caps1 :=
      {| surfaceCapabilities :=
           snd (get_surface_capabilities physical_device
                  (surfaceCapabilities pSurfaceCapabilities));
         scalingCapabilities := scalingCapabilities pSurfaceCapabilities;
         presentModeCompatibility := presentModeCompatibility pSurfaceCapabilities |} in
    let caps2 :=
      get_surface_present_mode_compatibility_common
        (m_compatible_present_modes sp) pSurfaceInfo caps1 in
    (VK_SUCCESS,
     {| surfaceCapabilities := surfaceCapabilities caps2;
        scalingCapabilities :=
          (λ sc,
             let sc' := get_surface_present_scaling_and_gravity sc in
             {| supportedPresentScaling := supportedPresentScaling sc';
                supportedPresentGravityX := supportedPresentGravityX sc';
                supportedPresentGravityY := supportedPresentGravityY sc';
                minScaledImageExtent := minImageExtent (surfaceCapabilities caps2);
                maxScaledImageExtent := maxImageExtent (surfaceCapabilities caps2) |})
          <$> scalingCapabilities caps2;
        presentModeCompatibility := presentModeCompatibility caps2 |}).

(** *** The memoised format map *)

Definition surface_format_properties_add_modifier_support
    (phys_dev : VkPhysicalDevice) (format_props : surface_format_properties)
    (drm_format : drm_format_pair) (add_compression : bool)
    : VkResult * surface_format_properties :=
  let image_info :=
    {| ifi_format := format (m_surface_format format_props);
       ifi_type := VK_IMAGE_TYPE_2D;
       ifi_tiling := VK_IMAGE_TILING_DRM_FORMAT_MODIFIER_EXT;
       ifi_usage := VK_IMAGE_USAGE_COLOR_ATTACHMENT_BIT;
       ifi_drmFormatModifier := modifier drm_format;
       ifi_sharingMode := VK_SHARING_MODE_EXCLUSIVE;
       ifi_handleType := VK_EXTERNAL_MEMORY_HANDLE_TYPE_DMA_BUF_BIT_EXT |} in
  if add_compression
  then add_device_compression_support phys_dev format_props image_info
  else check_device_support phys_dev format_props image_info.

Definition surface_format_properties_map_add (phys_dev : VkPhysicalDevice)
    (format_map : gmap Z surface_format_properties) (fmt : VkFormat)
    (drm_format : drm_format_pair) : VkResult * gmap Z surface_format_properties :=
  let format_props := make_surface_format_properties fmt in
  let '(res, format_props) :=
    surface_format_properties_add_modifier_support phys_dev format_props drm_format false in
  if res =? VK_SUCCESS then
    if try_insert_allocates format_map fmt
    then (res, <[fmt := format_props]> format_map)
    else (VK_ERROR_OUT_OF_HOST_MEMORY, format_map)
  else if res =? VK_ERROR_FORMAT_NOT_SUPPORTED then (VK_SUCCESS, format_map)
  else (res, format_map).

(** One step of the two loops below: the map with which the loop goes on,
    or the result with which the function returns. *)
Definition add_if_new (phys_dev : VkPhysicalDevice) (vk_format : VkFormat)
    (drm_format : drm_format_pair) (format_map : gmap Z surface_format_properties)
    : VkResult * gmap Z surface_format_properties :=
  if negb (vk_format =? VK_FORMAT_UNDEFINED) && bool_decide (format_map !! vk_format = None)
  then surface_format_properties_map_add phys_dev format_map vk_format drm_format
  else (VK_SUCCESS, format_map).

Fixpoint surface_format_properties_map_init (phys_dev : VkPhysicalDevice)
    (format_map : gmap Z surface_format_properties) (drm_format_list : list drm_format_pair)
    : VkResult * gmap Z surface_format_properties :=
  match drm_format_list with
  | [] => (VK_SUCCESS, format_map)
  | drm_format :: rest =>
      let '(r1, m1) :=
        add_if_new phys_dev (drm_to_vk_format (fourcc drm_format)) drm_format format_map in
      TRY r1 (λ r, (r, m1)) $
      let '(r2, m2) :=
        add_if_new phys_dev (drm_to_vk_srgb_format (fourcc drm_format)) drm_format m1 in
      TRY r2 (λ r, (r, m2)) $
      surface_format_properties_map_init phys_dev m2 rest
  end.

Definition add_compression_if_present (phys_dev : VkPhysicalDevice) (vk_format : VkFormat)
    (drm_format : drm_format_pair) (format_map : gmap Z surface_format_properties)
    : VkResult * gmap Z surface_format_properties :=
  if negb (vk_format =? VK_FORMAT_UNDEFINED) then
    match format_map !! vk_format with
    | Some entry =>
        let '(res, entry') :=
          surface_format_properties_add_modifier_support phys_dev entry drm_format true in
        (res, <[vk_format := entry']> format_map)
    | None => (VK_SUCCESS, format_map)
    end
  else (VK_SUCCESS, format_map).

Fixpoint surface_format_properties_map_add_compression (phys_dev : VkPhysicalDevice)
    (format_map : gmap Z surface_format_properties) (drm_format_list : list drm_format_pair)
    : VkResult * gmap Z surface_format_properties :=
  match drm_format_list with
  | [] => (VK_SUCCESS, format_map)
  | drm_format :: rest =>
      let '(r1, m1) :=
        add_compression_if_present phys_dev (drm_to_vk_format (fourcc drm_format))
          drm_format format_map in
      TRY r1 (λ r, (r, m1)) $
      let '(r2, m2) :=
        add_compression_if_present phys_dev (drm_to_vk_srgb_format (fourcc drm_format))
          drm_format m1 in
      TRY r2 (λ r, (r, m2)) $
      surface_format_properties_map_add_compression phys_dev m2 rest
  end.

Definition with_supported_formats (sp : surface_properties)
    (m : gmap Z surface_format_properties) : surface_properties :=
  {| specific_surface := specific_surface sp;
     supported_formats := m;
     m_supported_modes := m_supported_modes sp;
     m_compatible_present_modes := m_compatible_present_modes sp |}.

(** [supported_formats.begin() .. supported_formats.end()].  The container
    is a hash map, and the order in which it is iterated is its own; here
    the entries come in the order of their keys.  The statements about the
    format queries speak of results, counts and sets of formats, none of
    which depends on that order. *)
Definition format_range (m : gmap Z surface_format_properties) : list surface_format_properties :=
  (map_to_list m).*2.

(** A return through [TRY_LOG_CALL] leaves the count and the arrays as the
    caller passed them. *)
Definition get_surface_formats (sp : surface_properties) (physical_device : VkPhysicalDevice)
    (surfaceFormatCount : Z) (out : format_arrays)
    : enumeration format_arrays * surface_properties :=
  let early (r : VkResult) (m : gmap Z surface_format_properties) :=
    ({| enum_result := r; enum_count := surfaceFormatCount; enum_out := out |},
     with_supported_formats sp m) in
  let finish (m : gmap Z surface_format_properties) :=
    (surface_properties_formats_helper fill_format_properties (format_range m)
       surfaceFormatCount out,
     with_supported_formats sp m) in
  if (size (supported_formats sp) =? 0)%nat then
    let '(r1, m1) :=
      surface_format_properties_map_init physical_device (supported_formats sp)
        (specific_surface sp) in
    TRY r1 (λ r, early r m1) $
    if has_image_compression_support physical_device then
      let '(r2, m2) :=
        surface_format_properties_map_add_compression physical_device m1
          (specific_surface sp) in
      TRY r2 (λ r, early r m2) $ finish m2
    else finish m1
  else finish (supported_formats sp).

Definition get_surface_present_modes (sp : surface_properties)
    (physical_device : VkPhysicalDevice) (surface : VkSurfaceKHR)
    (pPresentModeCount : Z) (pPresentModes : option (list VkPresentModeKHR))
    : enumeration (option (list VkPresentModeKHR)) * surface_properties :=
  (get_surface_present_modes_common pPresentModeCount pPresentModes (m_supported_modes sp), sp).

End WithExternals.

(** *** Presentation support *)

Record required_properties := { dmabuf : bool; explicit_sync : bool }.

Definition ZWP_LINUX_DMABUF_V1_MODIFIER_SINCE_VERSION : Z := 3.
Definition zwp_linux_dmabuf_v1_interface_name : string := "zwp_linux_dmabuf_v1".
Definition zwp_linux_explicit_synchronization_v1_interface_name : string :=
  "zwp_linux_explicit_synchronization_v1".

(** The registry listener; [data] is the structure it updates. *)
Definition check_required_protocols (data : required_properties) (name : Z)
    (interface : string) (version : Z) : required_properties :=
  if String.eqb interface zwp_linux_dmabuf_v1_interface_name
     && (version >=? ZWP_LINUX_DMABUF_V1_MODIFIER_SINCE_VERSION)
  then {| dmabuf := true; explicit_sync := explicit_sync data |}
  else if String.eqb interface zwp_linux_explicit_synchronization_v1_interface_name
  then {| dmabuf := dmabuf data; explicit_sync := true |}
  else data.

(** The compositor as [check_wl_protocols] meets it: whether each libwayland
    call succeeds, and the globals the registry announces in the round trip. *)
Record wl_display := {
  create_queue_ok : bool;
  make_proxy_ok : bool;
  get_registry_ok : bool;
  add_listener_res : Z;
  roundtrip_res : Z;
  globals : list (Z * string * Z)
}.

Definition check_wl_protocols (display : wl_display) : bool :=
  let supported := {| dmabuf := false; explicit_sync := false |} in
  if negb (create_queue_ok display) then false
  else if negb (make_proxy_ok display) then false
  else if negb (get_registry_ok display) then false
  else if add_listener_res display <? 0 then false
  else
    let supported :=
      fold_left (λ data '(name, interface, version),
                   check_required_protocols data name interface version)
                (globals display) supported in
    if roundtrip_res display <? 0 then false
    else dmabuf supported.

Definition GetPhysicalDeviceWaylandPresentationSupportKHR `{WsiExternals}
    (physical_device : VkPhysicalDevice) (queue_index : Z) (display : wl_display) : VkBool32 :=
  let dev_supports_sync := sync_fd_fence_sync_is_supported physical_device in
  if negb dev_supports_sync then VK_FALSE
  else if negb (check_wl_protocols display) then VK_FALSE
  else VK_TRUE.

End Wayland.

(* ===================================================================== *)
(** * wsi/x11/surface_properties.cpp *)
(* ===================================================================== *)

Module X11.

(** The surface object, through [get_size_and_depth]. *)
Record surface := { surface_width : Z; surface_height : Z; surface_depth : Z }.

Record surface_properties := {
  specific_surface : surface;
  m_supported_modes : list VkPresentModeKHR;
  m_compatible_present_modes : list present_mode_compatibility
}.

Definition compatible_present_modes_list (capacity : nat) : list present_mode_compatibility :=
  [ {| present_mode := VK_PRESENT_MODE_FIFO_KHR; present_mode_count := 1;
       compatible_present_modes := VK_PRESENT_MODE_FIFO_KHR :: replicate (pred capacity) 0 |};
    {| present_mode := VK_PRESENT_MODE_MAILBOX_KHR; present_mode_count := 1;
       compatible_present_modes := VK_PRESENT_MODE_MAILBOX_KHR :: replicate (pred capacity) 0 |} ].

Definition populate_present_mode_compatibilities (capacity : nat) (sp : surface_properties)
    : surface_properties :=
  {| specific_surface := specific_surface sp;
     m_supported_modes := m_supported_modes sp;
     m_compatible_present_modes := compatible_present_modes_list capacity |}.

Definition make_surface_properties (capacity : nat) (wsi_surface : surface) : surface_properties :=
  populate_present_mode_compatibilities capacity
    {| specific_surface := wsi_surface;
       m_supported_modes := [VK_PRESENT_MODE_FIFO_KHR; VK_PRESENT_MODE_MAILBOX_KHR];
       m_compatible_present_modes := [] |}.

Definition is_compatible_present_modes (sp : surface_properties)
    (present_mode_a present_mode_b : VkPresentModeKHR) : bool :=
  SurfaceProperties.is_compatible_present_modes (m_compatible_present_modes sp)
    present_mode_a present_mode_b.

(** The global [support_formats]. *)
Definition support_formats : list VkFormat :=
  [ VK_FORMAT_R8G8B8A8_UNORM; VK_FORMAT_B8G8R8A8_SRGB; VK_FORMAT_B8G8R8A8_UNORM;
    VK_FORMAT_R8G8B8A8_SRGB; VK_FORMAT_R5G6B5_UNORM_PACK16 ].

(** The local vector [formats]: every defined format is inserted at
    [formats.begin()]. *)
Definition build_formats (fmts : list VkFormat) : list surface_format_properties :=
  fold_left (λ formats fmt,
               if negb (fmt =? VK_FORMAT_UNDEFINED)
               then make_surface_format_properties fmt :: formats
               else formats)
            fmts [].

Section WithExternals.
Context `{WsiExternals}.

Definition get_surface_capabilities (sp : surface_properties)
    (physical_device : VkPhysicalDevice) (surface_capabilities : VkSurfaceCapabilitiesKHR)
    : VkResult * VkSurfaceCapabilitiesKHR :=
  let c := get_surface_capabilities_common physical_device surface_capabilities in
  (VK_SUCCESS,
   {| minImageCount := 4;
      maxImageCount := maxImageCount c;
      currentExtent := {| width := surface_width (specific_surface sp);
                          height := surface_height (specific_surface sp) |};
      minImageExtent := minImageExtent c;
      maxImageExtent := maxImageExtent c;
      maxImageArrayLayers := maxImageArrayLayers c;
      supportedTransforms := supportedTransforms c;
      currentTransform := currentTransform c;
      supportedCompositeAlpha :=
        Z.lor (Z.lor VK_COMPOSITE_ALPHA_OPAQUE_BIT_KHR VK_COMPOSITE_ALPHA_PRE_MULTIPLIED_BIT_KHR)
              VK_COMPOSITE_ALPHA_INHERIT_BIT_KHR;
      supportedUsageFlags := supportedUsageFlags c |}).

Definition get_surface_present_scaling_and_gravity
    (scaling_capabilities : VkSurfacePresentScalingCapabilitiesEXT)
    : VkSurfacePresentScalingCapabilitiesEXT :=
  {| supportedPresentScaling := 0;
     supportedPresentGravityX := 0;
     supportedPresentGravityY := 0;
     minScaledImageExtent := minScaledImageExtent scaling_capabilities;
     maxScaledImageExtent := maxScaledImageExtent scaling_capabilities |}.

Definition get_surface_capabilities2 (sp : surface_properties)
    (physical_device : VkPhysicalDevice) (pSurfaceInfo : list chain_struct)
    (pSurfaceCapabilities : VkSurfaceCapabilities2KHR)
    : VkResult * VkSurfaceCapabilities2KHR :=
  TRY (check_surface_present_mode_query_is_supported pSurfaceInfo (m_supported_modes sp))
    (λ try_result, (try_result, pSurfaceCapabilities)) $
    let caps1 :=
      {| surfaceCapabilities :=
           snd (get_surface_capabilities sp physical_device
                  (surfaceCapabilities pSurfaceCapabilities));
         scalingCapabilities := scalingCapabilities pSurfaceCapabilities;
         presentModeCompatibility := presentModeCompatibility pSurfaceCapabilities |} in
    let caps2 :=
      get_surface_present_mode_compatibility_common
        (m_compatible_present_modes sp) pSurfaceInfo caps1 in
    (VK_SUCCESS,
     {| surfaceCapabilities := surfaceCapabilities caps2;
        scalingCapabilities :=
          (λ sc,
             let sc' := get_surface_present_scaling_and_gravity sc in
             {| supportedPresentScaling := supportedPresentScaling sc';
                supportedPresentGravityX := supportedPresentGravityX sc';
                supportedPresentGravityY := supportedPresentGravityY sc';
                minScaledImageExtent := minImageExtent (surfaceCapabilities caps2);
                maxScaledImageExtent := maxImageExtent (surfaceCapabilities caps2) |})
          <$> scalingCapabilities caps2;
        presentModeCompatibility := presentModeCompatibility caps2 |}).

Definition get_surface_formats (sp : surface_properties) (physical_device : VkPhysicalDevice)
    (surface_format_count : Z) (out : format_arrays)
    : enumeration format_arrays * surface_properties :=
  let formats := build_formats support_formats in
  (surface_properties_formats_helper fill_format_properties formats surface_format_count out,
   sp).

Definition get_surface_present_modes (sp : surface_properties)
    (physical_device : VkPhysicalDevice) (surface : VkSurfaceKHR)
    (present_mode_count : Z) (present_modes : option (list VkPresentModeKHR))
    : enumeration (option (list VkPresentModeKHR)) * surface_properties :=
  (get_surface_present_modes_common present_mode_count present_modes (m_supported_modes sp),
   sp).

End WithExternals.

(** *** Presentation support *)

Record xcb_visualtype_t := { visual_id : Z; _class : Z }.
Record xcb_depth_t := { depth : Z; visuals : list xcb_visualtype_t }.
Record xcb_screen_t := { allowed_depths : list xcb_depth_t }.
(** The connection, through [xcb_setup_roots_iterator(xcb_get_setup(conn))]. *)
Record xcb_connection_t := { roots : list xcb_screen_t }.

Definition XCB_VISUAL_CLASS_TRUE_COLOR : Z := 4.
Definition XCB_VISUAL_CLASS_DIRECT_COLOR : Z := 5.

Definition visual_supported (visual : option xcb_visualtype_t) : bool :=
  match visual with
  | None => false
  | Some v => (_class v =? XCB_VISUAL_CLASS_TRUE_COLOR) || (_class v =? XCB_VISUAL_CLASS_DIRECT_COLOR)
  end.

Fixpoint visuals_find (vs : list xcb_visualtype_t) (id : Z) : option xcb_visualtype_t :=
  match vs with
  | [] => None
  | v :: rest => if visual_id v =? id then Some v else visuals_find rest id
  end.

(** The visual and the depth it was found under (what the function stores
    through its [depth] argument when that is not null). *)
Fixpoint screen_get_visualtype_depths (ds : list xcb_depth_t) (id : Z)
    : option (xcb_visualtype_t * Z) :=
  match ds with
  | [] => None
  | d :: rest =>
      match visuals_find (visuals d) id with
      | Some v => Some (v, depth d)
      | None => screen_get_visualtype_depths rest id
      end
  end.

Definition screen_get_visualtype (screen : xcb_screen_t) (id : Z)
    : option (xcb_visualtype_t * Z) :=
  screen_get_visualtype_depths (allowed_depths screen) id.

Fixpoint connection_get_visualtype_screens (screens : list xcb_screen_t) (id : Z)
    : option xcb_visualtype_t :=
  match screens with
  | [] => None
  | screen :: rest =>
      match screen_get_visualtype screen id with
      | Some (visual, _) => Some visual
      | None => connection_get_visualtype_screens rest id
      end
  end.

Definition connection_get_visualtype (conn : xcb_connection_t) (id : Z)
    : option xcb_visualtype_t :=
  connection_get_visualtype_screens (roots conn) id.

Definition GetPhysicalDeviceXcbPresentationSupportKHR `{WsiExternals}
    (physicalDevice : VkPhysicalDevice) (queueFamilyIndex : Z)
    (connection : xcb_connection_t) (visual : Z) : VkBool32 :=
  let dev_supports_sync := sync_fd_fence_sync_is_supported physicalDevice in
  if negb dev_supports_sync then VK_FALSE
  else if negb (visual_supported (connection_get_visualtype connection visual)) then 0
  else VK_TRUE.

(** [XGetXCBConnection(dpy)] is the connection behind the display. *)
Definition GetPhysicalDeviceXlibPresentationSupportKHR `{WsiExternals}
    (physicalDevice : VkPhysicalDevice) (queueFamilyIndex : Z)
    (dpy : xcb_connection_t) (visualID : Z) : VkBool32 :=
  GetPhysicalDeviceXcbPresentationSupportKHR physicalDevice queueFamilyIndex dpy visualID.

End X11.

(* ===================================================================== *)
(** * layer/swapchain_api.cpp *)
(* ===================================================================== *)

Module Layer.

(** ** Structures of the entrypoints *)

Record VkSwapchainCreateInfoKHR := {
  surface : VkSurfaceKHR;
  minImageCount : Z;
  imageFormat : VkFormat;
  imageColorSpace : VkColorSpaceKHR;
  imageExtent : VkExtent2D;
  imageArrayLayers : Z;
  imageUsage : Z;
  imageSharingMode : Z;
  preTransform : Z;
  compositeAlpha : Z;
  presentMode : VkPresentModeKHR;
  clipped : VkBool32;
  oldSwapchain : VkSwapchainKHR
}.

Record VkPresentInfoKHR := {
  pNext : list chain_struct;
  waitSemaphoreCount : Z;
  pWaitSemaphores : list VkSemaphore;
  swapchainCount : Z;
  pSwapchains : list VkSwapchainKHR;
  pImageIndices : list Z;
  pResults : option (list VkResult)
}.

Record VkBindImageMemoryInfo := {
  bind_pNext : list chain_struct;
  image : VkImage;
  memory : VkDeviceMemory;
  memoryOffset : Z
}.

Record VkFrameBoundaryEXT := { frameID : Z }.

(** [wsi::queue_submit_semaphores]: its four members in the order of the
    aggregate initialiser in [submit_wait_request]. *)
Record queue_submit_semaphores := {
  app_semaphores : list VkSemaphore;
  app_semaphores_count : Z;
  swapchain_semaphores : list VkSemaphore;
  swapchain_semaphores_count : Z
}.

Record pending_present_request := { image_index : Z; present_id : Z }.

(** [wsi::swapchain_presentation_parameters] *)
Record swapchain_presentation_parameters := {
  present_fence : VkFence;
  switch_presentation_mode : bool;
  present_mode : VkPresentModeKHR;
  pending_present : pending_present_request;
  use_image_present_semaphore : bool;
  handle_present_frame_boundary_event : bool
}.

(** ** The calls that leave the file

    One constructor per function called outside the file, with its
    arguments and what it returned; [call_submit_wait_request] marks the
    entry into the static helper of that name. *)

Inductive call :=
| call_disp_CreateSwapchainKHR (ci : VkSwapchainCreateInfoKHR) (res : VkResult)
| call_allocate_surface_swapchain (surf : VkSurfaceKHR) (sc : option VkSwapchainKHR)
| call_init (sc : VkSwapchainKHR) (device : VkDevice) (ci : VkSwapchainCreateInfoKHR)
    (res : VkResult)
| call_add_layer_swapchain (sc : VkSwapchainKHR) (res : VkResult)
| call_destroy_swapchain_object (sc : VkSwapchainKHR)
| call_disp_QueuePresentKHR (queue : VkQueue) (res : VkResult)
| call_submit_wait_request (queue : VkQueue)
| call_sync_queue_submit (queue : VkQueue) (fence : VkFence)
    (semaphores : queue_submit_semaphores) (submission_pnext : option VkFrameBoundaryEXT)
    (res : VkResult)
| call_queue_present (sc : VkSwapchainKHR) (queue : VkQueue)
    (params : swapchain_presentation_parameters) (res : VkResult)
| call_disp_BindImageMemory2KHR (device : VkDevice) (info : VkBindImageMemoryInfo)
    (res : VkResult)
| call_is_bind_allowed (sc : VkSwapchainKHR) (imageIndex : Z) (res : VkResult)
| call_bind_swapchain_image (sc : VkSwapchainKHR) (info : VkBindImageMemoryInfo)
    (res : VkResult).

(** Everything outside the file: the private data of the device, the
    dispatch table of the ICD, the swapchain objects and the synchronisation
    helpers.  [World] is the state they share; an operation that can change
    it returns the new one. *)
Class LayerExternals (World : Type) := {
  (* layer::device_private_data *)
  should_layer_create_swapchain : World → VkSurfaceKHR → bool;
  can_icds_create_swapchain : World → VkSurfaceKHR → bool;
  add_layer_swapchain : World → VkSwapchainKHR → VkResult * World;
  layer_owns_swapchain : World → VkSwapchainKHR → bool;
  layer_owns_all_swapchains : World → list VkSwapchainKHR → bool;
  is_maintenance_6_enabled : World → bool;
  (* device_data.disp *)
  disp_CreateSwapchainKHR :
    World → VkSwapchainCreateInfoKHR → VkSwapchainKHR → VkResult * VkSwapchainKHR * World;
  disp_QueuePresentKHR :
    World → VkQueue → VkPresentInfoKHR → VkResult * option (list VkResult) * World;
  disp_BindImageMemory2KHR : World → VkDevice → VkBindImageMemoryInfo → VkResult * World;
  (* wsi/wsi_factory.hpp *)
  allocate_surface_swapchain : World → VkSurfaceKHR → option VkSwapchainKHR * World;
  destroy_swapchain_object : World → VkSwapchainKHR → World;
  (* util::vector::try_resize *)
  try_resize : World → Z → bool;
  (* wsi/synchronization.hpp, wsi/extensions/frame_boundary.hpp *)
  sync_queue_submit :
    World → VkQueue → VkFence → queue_submit_semaphores → option VkFrameBoundaryEXT →
    VkResult * World;
  create_frame_boundary : VkPresentInfoKHR → option VkFrameBoundaryEXT;
  (* wsi::swapchain_base *)
  init : World → VkSwapchainKHR → VkDevice → VkSwapchainCreateInfoKHR → VkResult * World;
  get_image_present_semaphore : World → VkSwapchainKHR → Z → VkSemaphore;
  queue_present :
    World → VkSwapchainKHR → VkQueue → VkPresentInfoKHR → swapchain_presentation_parameters →
    VkResult * World;
  is_bind_allowed : World → VkSwapchainKHR → Z → VkResult;
  bind_swapchain_image :
    World → VkSwapchainKHR → VkDevice → VkBindImageMemoryInfo → VkResult * World;
  (* [swapchain_presentation_parameters present_params{}] *)
  present_params_init : swapchain_presentation_parameters
}.

Section WithWorld.
Context {World : Type} `{LayerExternals World}.

Record state := { world : World; calls : list call }.

Definition logged (w : World) (c : call) (s : state) : state :=
  {| world := w; calls := calls s ++ [c] |}.

(** ** wsi_layer_vkCreateSwapchainKHR *)

(** The destructor of the [util::unique_ptr] that holds the swapchain
    object, run when the function returns without releasing it. *)
Definition destroyed (sc : VkSwapchainKHR) (s : state) : state :=
  logged (destroy_swapchain_object (world s) sc) (call_destroy_swapchain_object sc) s.

(** The result, the value of [*pSwapchain], and the state. *)
Definition wsi_layer_vkCreateSwapchainKHR (device : VkDevice)
    (pSwapchainCreateInfo : VkSwapchainCreateInfoKHR) (pSwapchain : VkSwapchainKHR)
    (s : state) : VkResult * VkSwapchainKHR * state :=
  let surf := surface pSwapchainCreateInfo in
  if negb (should_layer_create_swapchain (world s) surf) then
    if negb (can_icds_create_swapchain (world s) surf)
    then (VK_ERROR_INITIALIZATION_FAILED, pSwapchain, s)
    else
      let '(res, handle, w) :=
        disp_CreateSwapchainKHR (world s) pSwapchainCreateInfo pSwapchain in
      (res, handle, logged w (call_disp_CreateSwapchainKHR pSwapchainCreateInfo res) s)
  else
    let '(sc, w) := allocate_surface_swapchain (world s) surf in
    let s := logged w (call_allocate_surface_swapchain surf sc) s in
    match sc with
    | None => (VK_ERROR_OUT_OF_HOST_MEMORY, pSwapchain, s)
    | Some sc =>
        let my_create_info :=
          {| surface := surface pSwapchainCreateInfo;
             minImageCount := minImageCount pSwapchainCreateInfo;
             imageFormat := imageFormat pSwapchainCreateInfo;
             imageColorSpace := imageColorSpace pSwapchainCreateInfo;
             imageExtent := imageExtent pSwapchainCreateInfo;
             imageArrayLayers := imageArrayLayers pSwapchainCreateInfo;
             imageUsage := imageUsage pSwapchainCreateInfo;
             imageSharingMode := imageSharingMode pSwapchainCreateInfo;
             preTransform := preTransform pSwapchainCreateInfo;
             compositeAlpha := compositeAlpha pSwapchainCreateInfo;
             presentMode := VK_PRESENT_MODE_FIFO_KHR;
             clipped := clipped pSwapchainCreateInfo;
             oldSwapchain := oldSwapchain pSwapchainCreateInfo |} in
        let '(r_init, w) := init (world s) sc device my_create_info in
        let s := logged w (call_init sc device my_create_info r_init) s in
        TRY r_init (λ try_result, (try_result, pSwapchain, destroyed sc s)) $
        let '(r_add, w) := add_layer_swapchain (world s) sc in
        let s := logged w (call_add_layer_swapchain sc r_add) s in
        TRY r_add (λ try_result, (try_result, pSwapchain, destroyed sc s)) $
        (VK_SUCCESS, sc, s)
    end.

(** ** submit_wait_request *)

(** The result, the value of [frame_boundary_event_handled], the state. *)
Definition submit_wait_request (queue : VkQueue) (present_info : VkPresentInfoKHR)
    (frame_boundary_event_handled : bool) (s : state) : VkResult * bool * state :=
  let s := logged (world s) (call_submit_wait_request queue) s in
  if negb (try_resize (world s) (swapchainCount present_info))
  then (VK_ERROR_OUT_OF_HOST_MEMORY, frame_boundary_event_handled, s)
  else
    let n := Z.to_nat (swapchainCount present_info) in
    let swapchain_sems :=
      for_loop n 0
        (λ i (v : list VkSemaphore),
           <[i := get_image_present_semaphore (world s)
                    (pSwapchains present_info !!! i) (pImageIndices present_info !!! i)]> v)
        (replicate n VK_NULL_HANDLE) in
    let semaphores :=
      {| app_semaphores := pWaitSemaphores present_info;
         app_semaphores_count := waitSemaphoreCount present_info;
         swapchain_semaphores := swapchain_sems;
         swapchain_semaphores_count := wrap32 (Z.of_nat (length swapchain_sems)) |} in
    let submission_pnext := create_frame_boundary present_info in
    let frame_boundary_event_handled := bool_decide (submission_pnext ≠ None) in
    let '(r, w) :=
      sync_queue_submit (world s) queue VK_NULL_HANDLE semaphores submission_pnext in
    let s := logged w (call_sync_queue_submit queue VK_NULL_HANDLE semaphores submission_pnext r) s in
    TRY r (λ try_result, (try_result, frame_boundary_event_handled, s)) $
    (VK_SUCCESS, frame_boundary_event_handled, s).

(** ** wsi_layer_vkQueuePresentKHR *)

(** The variables the present loop updates: [ret], the caller's
    [pResults] array, and the state. *)
Record present_loop_state := {
  pl_ret : VkResult;
  pl_results : option (list VkResult);
  pl_state : state
}.

Definition present_ids_of (chain : list chain_struct) : option (Z * option (list Z)) :=
  match find_extension VK_STRUCTURE_TYPE_PRESENT_ID_KHR chain with
  | Some (PresentIdKHR count ids) => Some (count, ids)
  | _ => None
  end.

Definition present_fence_info_of (chain : list chain_struct) : option (list VkFence) :=
  match find_extension VK_STRUCTURE_TYPE_SWAPCHAIN_PRESENT_FENCE_INFO_EXT chain with
  | Some (SwapchainPresentFenceInfoEXT _ fences) => Some fences
  | _ => None
  end.

Definition swapchain_present_mode_info_of (chain : list chain_struct)
    : option (list VkPresentModeKHR) :=
  match find_extension VK_STRUCTURE_TYPE_SWAPCHAIN_PRESENT_MODE_INFO_EXT chain with
  | Some (SwapchainPresentModeInfoEXT _ modes) => Some modes
  | _ => None
  end.

Definition present_body (queue : VkQueue) (pPresentInfo : VkPresentInfoKHR)
    (use_image_present_sem frame_boundary_event_handled : bool)
    (i : nat) (l : present_loop_state) : present_loop_state :=
  let swapc := pSwapchains pPresentInfo !!! i in
  let present_id :=
    match present_ids_of (pNext pPresentInfo) with
    | Some (count, Some ids) =>
        if count =? swapchainCount pPresentInfo then ids !!! i else 0
    | _ => 0
    end in
  let present_fence :=
    match present_fence_info_of (pNext pPresentInfo) with
    | None => VK_NULL_HANDLE
    | Some fences => fences !!! i
    end in
  let mode_info := swapchain_present_mode_info_of (pNext pPresentInfo) in
  let present_params :=
    {| present_fence := present_fence;
       switch_presentation_mode :=
         match mode_info with
         | Some _ => true
         | None => switch_presentation_mode present_params_init
         end;
       present_mode :=
         match mode_info with
         | Some modes => modes !!! i
         | None => present_mode present_params_init
         end;
       pending_present :=
         {| image_index := pImageIndices pPresentInfo !!! i; present_id := present_id |};
       use_image_present_semaphore := use_image_present_sem;
       handle_present_frame_boundary_event := frame_boundary_event_handled |} in
  let '(res, w) :=
    queue_present (world (pl_state l)) swapc queue pPresentInfo present_params in
  {| pl_ret :=
       if negb (res =? VK_SUCCESS) && (pl_ret l =? VK_SUCCESS) then res else pl_ret l;
     pl_results := (λ r : list VkResult, <[i := res]> r) <$> pl_results l;
     pl_state := logged w (call_queue_present swapc queue present_params res) (pl_state l) |}.

(** The result, the caller's [pResults] array, and the state. *)
Definition wsi_layer_vkQueuePresentKHR (queue : VkQueue) (pPresentInfo : VkPresentInfoKHR)
    (s : state) : VkResult * option (list VkResult) * state :=
  let n := Z.to_nat (swapchainCount pPresentInfo) in
  if negb (layer_owns_all_swapchains (world s) (take n (pSwapchains pPresentInfo))) then
    let '(res, results, w) := disp_QueuePresentKHR (world s) queue pPresentInfo in
    (res, results, logged w (call_disp_QueuePresentKHR queue res) s)
  else
    let '(try_result, frame_boundary_event_handled, s, use_image_present_sem) :=
      if swapchainCount pPresentInfo >? 1 then
        let '(r, handled, s) := submit_wait_request queue pPresentInfo true s in
        (r, handled, s, true)
      else (VK_SUCCESS, true, s, false) in
    TRY try_result (λ try_result, (try_result, pResults pPresentInfo, s)) $
    let l :=
      for_loop n 0
        (present_body queue pPresentInfo use_image_present_sem frame_boundary_event_handled)
        {| pl_ret := VK_SUCCESS; pl_results := pResults pPresentInfo; pl_state := s |} in
    (pl_ret l, pl_results l, pl_state l).

(** ** wsi_layer_vkBindImageMemory2 *)

(** The variables the bind loop updates: [endpoint_result], the memory
    the [pResult] pointers of the status structures point into, and the
    state. *)
Record bind_loop_state := {
  bl_endpoint_result : VkResult;
  bl_status : gmap nat VkResult;
  bl_state : state
}.

Definition bind_sc_info_of (chain : list chain_struct) : option (VkSwapchainKHR * Z) :=
  match find_extension VK_STRUCTURE_TYPE_BIND_IMAGE_MEMORY_SWAPCHAIN_INFO_KHR chain with
  | Some (BindImageMemorySwapchainInfoKHR sc idx) => Some (sc, idx)
  | _ => None
  end.

Definition bind_status_of (chain : list chain_struct) : option nat :=
  match find_extension VK_STRUCTURE_TYPE_BIND_MEMORY_STATUS_KHR chain with
  | Some (BindMemoryStatusKHR p) => Some p
  | _ => None
  end.

(** The part of the loop body after [result] has been computed. *)
Definition bind_record (maintenance_6 : bool) (info : VkBindImageMemoryInfo)
    (result : VkResult) (s : state) (l : bind_loop_state) : bind_loop_state :=
  {| bl_endpoint_result :=
       if negb (result =? VK_SUCCESS) then result else bl_endpoint_result l;
     bl_status :=
       if maintenance_6 then
         match bind_status_of (bind_pNext info) with
         | Some p => <[p := result]> (bl_status l)
         | None => bl_status l
         end
       else bl_status l;
     bl_state := s |}.

(** The first branch of the loop body: the binding is the ICD's. *)
Definition bind_through_icd (device : VkDevice) (maintenance_6 : bool)
    (info : VkBindImageMemoryInfo) (l : bind_loop_state) : bind_loop_state :=
  let s := bl_state l in
  let '(result, w) := disp_BindImageMemory2KHR (world s) device info in
  bind_record maintenance_6 info result
    (logged w (call_disp_BindImageMemory2KHR device info result) s) l.

(** The loop body at index [i] (an index beyond the caller's array stands
    for a read the caller must not cause; the body then does nothing). *)
Definition bind_body (device : VkDevice) (maintenance_6 : bool)
    (pBindInfos : list VkBindImageMemoryInfo) (i : nat) (l : bind_loop_state)
    : flow bind_loop_state bind_loop_state :=
  match pBindInfos !! i with
  | None => Next l
  | Some info =>
      let s := bl_state l in
      match bind_sc_info_of (bind_pNext info) with
      | None => Next (bind_through_icd device maintenance_6 info l)
      | Some (sc, imageIndex) =>
          if (sc =? VK_NULL_HANDLE) || negb (layer_owns_swapchain (world s) sc)
          then Next (bind_through_icd device maintenance_6 info l)
          else
            let try_result := is_bind_allowed (world s) sc imageIndex in
            let s := logged (world s) (call_is_bind_allowed sc imageIndex try_result) s in
            TRY try_result
              (λ try_result, Return {| bl_endpoint_result := try_result;
                                       bl_status := bl_status l;
                                       bl_state := s |}) $
            let '(result, w) := bind_swapchain_image (world s) sc device info in
            Next (bind_record maintenance_6 info result
                    (logged w (call_bind_swapchain_image sc info result) s) l)
      end
  end.

(** The result, the status memory, and the state. *)
Definition wsi_layer_vkBindImageMemory2 (device : VkDevice) (bindInfoCount : Z)
    (pBindInfos : list VkBindImageMemoryInfo) (status : gmap nat VkResult) (s : state)
    : VkResult * gmap nat VkResult * state :=
  let maintenance_6 := is_maintenance_6_enabled (world s) in
  let l :=
    match for_loop_flow (Z.to_nat bindInfoCount) 0 (bind_body device maintenance_6 pBindInfos)
            {| bl_endpoint_result := VK_SUCCESS; bl_status := status; bl_state := s |} with
    | Return l => l
    | Next l => l
    end in
  (bl_endpoint_result l, bl_status l, bl_state l).

End WithWorld.

End Layer.

(* ===================================================================== *)
(** * Concrete devices, surfaces and calls *)
(* ===================================================================== *)

Module Examples.

Definition DRM_FORMAT_XRGB8888 : Z := 875713112.

(** A device on which every format query succeeds; only the physical
    device with handle 1 can export and import fence descriptors. *)
Definition wsi_externals : WsiExternals :=
  {| get_surface_capabilities_common := λ _ c, c;
     fill_format_properties :=
       λ p f, {| surfaceFormat := m_surface_format p;
                 compressionProperties := (λ _, m_compression p) <$> compressionProperties f |};
     check_device_support := λ _ p _, (VK_SUCCESS, p);
     add_device_compression_support := λ _ p _, (VK_SUCCESS, p);
     get_surface_present_mode_compatibility_common := λ _ _ c, c;
     sync_fd_fence_sync_is_supported := λ pd, pd =? 1;
     has_image_compression_support := λ _, false;
     drm_to_vk_format :=
       λ f, if f =? DRM_FORMAT_XRGB8888 then VK_FORMAT_B8G8R8A8_UNORM else VK_FORMAT_UNDEFINED;
     drm_to_vk_srgb_format :=
       λ f, if f =? DRM_FORMAT_XRGB8888 then VK_FORMAT_B8G8R8A8_SRGB else VK_FORMAT_UNDEFINED;
     try_insert_allocates := λ _ _, true |}.

Definition wayland_props : Wayland.surface_properties :=
  Wayland.make_surface_properties 4 [ {| fourcc := DRM_FORMAT_XRGB8888; modifier := 0 |} ].

Definition x11_props : X11.surface_properties :=
  X11.make_surface_properties 4
    {| X11.surface_width := 640; X11.surface_height := 480; X11.surface_depth := 24 |}.

Definition no_extent : VkExtent2D := {| width := 0; height := 0 |}.

Definition blank_caps : VkSurfaceCapabilities2KHR :=
  {| surfaceCapabilities :=
       {| minImageCount := 0; maxImageCount := 0; currentExtent := no_extent;
          minImageExtent := no_extent; maxImageExtent := no_extent;
          maxImageArrayLayers := 0; supportedTransforms := 0; currentTransform := 0;
          supportedCompositeAlpha := 0; supportedUsageFlags := 0 |};
     scalingCapabilities := None;
     presentModeCompatibility := None |}.

Definition blank_format : VkSurfaceFormatKHR := {| format := 0; colorSpace := 0 |}.
Definition blank_format2 : VkSurfaceFormat2KHR :=
  {| surfaceFormat := blank_format; compressionProperties := None |}.

(** A compositor that announces linux-dmabuf version 4. *)
Definition display : Wayland.wl_display :=
  {| Wayland.create_queue_ok := true; Wayland.make_proxy_ok := true;
     Wayland.get_registry_ok := true; Wayland.add_listener_res := 0;
     Wayland.roundtrip_res := 1;
     Wayland.globals := [ (1, "wl_compositor", 5); (2, "zwp_linux_dmabuf_v1", 4) ] |}.

(** An X server with one screen and one true-colour visual, number 33. *)
Definition connection : X11.xcb_connection_t :=
  {| X11.roots :=
       [ {| X11.allowed_depths :=
              [ {| X11.depth := 24;
                   X11.visuals := [ {| X11.visual_id := 33; X11._class := 4 |} ] |} ] |} ] |}.

End Examples.

(** A world for the entrypoints of the layer.  The layer owns the swapchains
    with handles 10 and above; presenting swapchain 11 fails with
    [VK_ERROR_SURFACE_LOST_KHR]; binding is allowed on the images listed in
    [tw_acquired]; the ICD refuses to bind null memory; the allocator and the
    synchronisation submission answer as the world says. *)
Module LayerExamples.
Import Layer.

Record test_world := {
  tw_alloc_ok : bool;
  tw_sync_result : VkResult;
  tw_acquired : list (VkSwapchainKHR * Z);
  tw_presented : list (VkSwapchainKHR * Z);
  tw_bound : list VkImage
}.

Definition presented (w : test_world) (sc : VkSwapchainKHR) (idx : Z) : test_world :=
  {| tw_alloc_ok := tw_alloc_ok w; tw_sync_result := tw_sync_result w;
     tw_acquired := tw_acquired w; tw_presented := tw_presented w ++ [(sc, idx)];
     tw_bound := tw_bound w |}.

Definition bound (w : test_world) (img : VkImage) : test_world :=
  {| tw_alloc_ok := tw_alloc_ok w; tw_sync_result := tw_sync_result w;
     tw_acquired := tw_acquired w; tw_presented := tw_presented w;
     tw_bound := tw_bound w ++ [img] |}.

Definition VK_ERROR_OUT_OF_DEVICE_MEMORY : VkResult := -2.

Definition externals : LayerExternals test_world :=
  {| should_layer_create_swapchain := λ _ surf, 100 <=? surf;
     can_icds_create_swapchain := λ _ _, true;
     add_layer_swapchain := λ w _, (VK_SUCCESS, w);
     layer_owns_swapchain := λ _ sc, 10 <=? sc;
     layer_owns_all_swapchains := λ _ scs, forallb (λ sc, 10 <=? sc) scs;
     is_maintenance_6_enabled := λ _, true;
     disp_CreateSwapchainKHR := λ w _ _, (VK_SUCCESS, 1, w);
     disp_QueuePresentKHR := λ w _ pi, (VK_SUCCESS, pResults pi, w);
     disp_BindImageMemory2KHR :=
       λ w _ info, if memory info =? VK_NULL_HANDLE
                   then (VK_ERROR_OUT_OF_DEVICE_MEMORY, w)
                   else (VK_SUCCESS, bound w (image info));
     allocate_surface_swapchain := λ w _, (Some 10, w);
     destroy_swapchain_object := λ w _, w;
     try_resize := λ w _, tw_alloc_ok w;
     sync_queue_submit := λ w _ _ _ _, (tw_sync_result w, w);
     create_frame_boundary := λ _, None;
     init := λ w _ _ _, (VK_SUCCESS, w);
     get_image_present_semaphore := λ _ sc idx, 1000 * sc + idx;
     queue_present :=
       λ w sc _ _ params,
         if sc =? 11 then (VK_ERROR_SURFACE_LOST_KHR, w)
         else (VK_SUCCESS, presented w sc (image_index (pending_present params)));
     is_bind_allowed :=
       λ w sc idx,
         if existsb (λ '(sc', idx'), (sc' =? sc) && (idx' =? idx)) (tw_acquired w)
         then VK_SUCCESS else VK_ERROR_OUT_OF_HOST_MEMORY;
     bind_swapchain_image := λ w _ _ info, (VK_SUCCESS, bound w (image info));
     present_params_init :=
       {| present_fence := VK_NULL_HANDLE; switch_presentation_mode := false;
          present_mode := 0;
          pending_present := {| image_index := 0; present_id := 0 |};
          use_image_present_semaphore := false;
          handle_present_frame_boundary_event := false |} |}.

Definition a_world (alloc_ok : bool) (sync_result : VkResult) : test_world :=
  {| tw_alloc_ok := alloc_ok; tw_sync_result := sync_result;
     tw_acquired := [(10, 0); (12, 0)]; tw_presented := []; tw_bound := [] |}.

Definition start (w : test_world) : state (World := test_world) :=
  {| world := w; calls := [] |}.

(** A present of image 0 of each of the swapchains [scs], asking for the
    per-swapchain results in an array that holds 7 everywhere. *)
Definition present_of (scs : list VkSwapchainKHR) : VkPresentInfoKHR :=
  {| pNext := []; waitSemaphoreCount := 1; pWaitSemaphores := [5];
     swapchainCount := Z.of_nat (length scs); pSwapchains := scs;
     pImageIndices := replicate (length scs) 0;
     pResults := Some (replicate (length scs) 7) |}.

Definition create_info (mode : VkPresentModeKHR) : VkSwapchainCreateInfoKHR :=
  {| surface := 100; minImageCount := 3; imageFormat := VK_FORMAT_B8G8R8A8_UNORM;
     imageColorSpace := VK_COLORSPACE_SRGB_NONLINEAR_KHR;
     imageExtent := {| width := 640; height := 480 |};
     imageArrayLayers := 1; imageUsage := 16; imageSharingMode := 0; preTransform := 1;
     compositeAlpha := 1; presentMode := mode; clipped := VK_TRUE;
     oldSwapchain := VK_NULL_HANDLE |}.

(** Three bindings, each with a status structure: image 0 of swapchain 10
    (acquired), image 1 of swapchain 10 (never acquired), image 0 of
    swapchain 12 (acquired).  Their [pResult] pointers are 0, 1 and 2. *)
Definition bind_of (sc : VkSwapchainKHR) (idx : Z) (img : VkImage) (status : nat)
    : VkBindImageMemoryInfo :=
  {| bind_pNext := [BindImageMemorySwapchainInfoKHR sc idx; BindMemoryStatusKHR status];
     image := img; memory := VK_NULL_HANDLE; memoryOffset := 0 |}.

Definition three_binds : list VkBindImageMemoryInfo :=
  [ bind_of 10 0 21 0; bind_of 10 1 22 1; bind_of 12 0 23 2 ].

(** The same with the unacquired image last. *)
Definition three_binds_bad_last : list VkBindImageMemoryInfo :=
  [ bind_of 10 0 21 0; bind_of 12 0 23 2; bind_of 10 1 22 1 ].

End LayerExamples.

(* ===================================================================== *)
(** * Vocabulary of the statements *)
(* ===================================================================== *)

(** [overwrite f k entries buf]: the array [buf] after its first [k] elements
    have been written from [entries], element [i] becoming
    [f (entries[i]) (buf[i])]; nothing else changes. *)
Fixpoint overwrite {A B : Type} (f : A → B → B) (k : nat) (entries : list A) (buf : list B)
    : list B :=
  match k, entries, buf with
  | S k', e :: es, b :: bs => f e b :: overwrite f k' es bs
  | _, _, _ => buf
  end.

(** The results of the [queue_present] calls of a log, in order, each with
    the swapchain it was made on. *)
Fixpoint queue_present_calls (l : list Layer.call) : list (VkSwapchainKHR * VkResult) :=
  match l with
  | [] => []
  | Layer.call_queue_present sc _ _ res :: rest => (sc, res) :: queue_present_calls rest
  | _ :: rest => queue_present_calls rest
  end.

(** The first result of a list that is not [VK_SUCCESS]; [VK_SUCCESS] when
    there is none. *)
Fixpoint first_failure (rs : list VkResult) : VkResult :=
  match rs with
  | [] => VK_SUCCESS
  | r :: rest => if r =? VK_SUCCESS then first_failure rest else r
  end.


(** The number of times a log enters [submit_wait_request]. *)
Fixpoint wait_request_count (l : list Layer.call) : nat :=
  match l with
  | [] => O
  | Layer.call_submit_wait_request _ :: rest => S (wait_request_count rest)
  | _ :: rest => wait_request_count rest
  end.

(** The semaphore sets of the [sync_queue_submit] calls of a log, in order. *)
Fixpoint sync_submissions (l : list Layer.call) : list Layer.queue_submit_semaphores :=
  match l with
  | [] => []
  | Layer.call_sync_queue_submit _ _ sems _ _ :: rest => sems :: sync_submissions rest
  | _ :: rest => sync_submissions rest
  end.

(** The [init] calls of a log: the swapchain object and the create info it
    was given. *)
Fixpoint init_calls (l : list Layer.call)
    : list (VkSwapchainKHR * Layer.VkSwapchainCreateInfoKHR) :=
  match l with
  | [] => []
  | Layer.call_init sc _ ci _ :: rest => (sc, ci) :: init_calls rest
  | _ :: rest => init_calls rest
  end.


Section LayerVocabulary.
Import Layer.
Context {World : Type} `{LayerExternals World}.

(** The semaphore set [submit_wait_request] submits for a well-formed
    present: the application's wait semaphores, and the image-present
    semaphore of each swapchain of the batch for its image. *)
Definition batch_wait_semaphores (w : World) (pi : VkPresentInfoKHR) : queue_submit_semaphores :=
  {| app_semaphores := pWaitSemaphores pi;
     app_semaphores_count := waitSemaphoreCount pi;
     swapchain_semaphores :=
       zip_with (get_image_present_semaphore w) (pSwapchains pi) (pImageIndices pi);
     swapchain_semaphores_count := swapchainCount pi |}.

(** The result of the batch-wait step of a present: that of
    [submit_wait_request] when the batch has more than one swapchain,
    [VK_SUCCESS] when the step is skipped. *)
Definition wait_result (queue : VkQueue) (pi : VkPresentInfoKHR) (s : state) : VkResult :=
  if swapchainCount pi >? 1 then (submit_wait_request queue pi true s).1.1 else VK_SUCCESS.
End LayerVocabulary.

(** A create info with another present mode. *)
Definition with_present_mode (mode : VkPresentModeKHR) (ci : Layer.VkSwapchainCreateInfoKHR)
    : Layer.VkSwapchainCreateInfoKHR :=
  {| Layer.surface := Layer.surface ci;
     Layer.minImageCount := Layer.minImageCount ci;
     Layer.imageFormat := Layer.imageFormat ci;
     Layer.imageColorSpace := Layer.imageColorSpace ci;
     Layer.imageExtent := Layer.imageExtent ci;
     Layer.imageArrayLayers := Layer.imageArrayLayers ci;
     Layer.imageUsage := Layer.imageUsage ci;
     Layer.imageSharingMode := Layer.imageSharingMode ci;
     Layer.preTransform := Layer.preTransform ci;
     Layer.compositeAlpha := Layer.compositeAlpha ci;
     Layer.presentMode := mode;
     Layer.clipped := Layer.clipped ci;
     Layer.oldSwapchain := Layer.oldSwapchain ci |}.

(** The bindings a log attempted, through the swapchain or through the ICD,
    each with its result. *)
Fixpoint bind_attempts (l : list Layer.call) : list (Layer.VkBindImageMemoryInfo * VkResult) :=
  match l with
  | [] => []
  | Layer.call_disp_BindImageMemory2KHR _ info res :: rest => (info, res) :: bind_attempts rest
  | Layer.call_bind_swapchain_image _ info res :: rest => (info, res) :: bind_attempts rest
  | _ :: rest => bind_attempts rest
  end.

(** The last result of a list that is not [VK_SUCCESS], starting from [r0]. *)
Definition last_failure (r0 : VkResult) (rs : list VkResult) : VkResult :=
  fold_left (λ acc r, if r =? VK_SUCCESS then acc else r) rs r0.

(** Storing the result of a binding through its [VkBindMemoryStatusKHR]. *)
Definition record_status (maintenance_6 : bool) (status : gmap nat VkResult)
    (entry : Layer.VkBindImageMemoryInfo * VkResult) : gmap nat VkResult :=
  if maintenance_6 then
    match Layer.bind_status_of (Layer.bind_pNext entry.1) with
    | Some p => <[p := entry.2]> status
    | None => status
    end
  else status.
(* ===================================================================== *)
(** * layer/swapchain_api.cpp: the other entrypoints *)
(* ===================================================================== *)

Module Entrypoints.
Import Layer.

Record VkOffset2D := { x : Z; y : Z }.
Record VkRect2D := { offset : VkOffset2D; extent : VkExtent2D }.

(** [wsi::surface_properties] is an abstract class; the two backends among
    the sources are its implementations, and a call through a pointer to it
    dispatches on which one the object is. *)
Inductive surface_properties :=
| wayland_surface_properties (sp : Wayland.surface_properties)
| x11_surface_properties (sp : X11.surface_properties).

Definition get_surface_capabilities `{WsiExternals} (props : surface_properties)
    (physical_device : VkPhysicalDevice) (caps : VkSurfaceCapabilitiesKHR)
    : VkResult * VkSurfaceCapabilitiesKHR :=
  match props with
  | wayland_surface_properties _ => Wayland.get_surface_capabilities physical_device caps
  | x11_surface_properties sp => X11.get_surface_capabilities sp physical_device caps
  end.

(** [VkSurfaceCapabilitiesKHR surface_caps = {}] *)
Definition zero_surface_capabilities : VkSurfaceCapabilitiesKHR :=
  {| SurfaceProperties.minImageCount := 0; maxImageCount := 0;
     currentExtent := {| width := 0; height := 0 |};
     minImageExtent := {| width := 0; height := 0 |};
     maxImageExtent := {| width := 0; height := 0 |};
     maxImageArrayLayers := 0; supportedTransforms := 0; currentTransform := 0;
     supportedCompositeAlpha := 0; supportedUsageFlags := 0 |}.

(** What the entrypoints below ask of the instance: whether the layer
    handles a surface, the properties object of a surface
    ([wsi::get_surface_properties]), and the ICD's own entrypoints. *)
Class InstanceExternals := {
  should_layer_handle_surface : VkPhysicalDevice → VkSurfaceKHR → bool;
  get_surface_properties : VkSurfaceKHR → surface_properties;
  disp_GetPhysicalDevicePresentRectanglesKHR :
    VkPhysicalDevice → VkSurfaceKHR → Z → option (list VkRect2D) →
    VkResult * Z * option (list VkRect2D);
  disp_GetDeviceGroupSurfacePresentModesKHR : VkDevice → VkSurfaceKHR → Z → VkResult * Z
}.

(** ** wsi_layer_vkGetPhysicalDevicePresentRectanglesKHR *)

(** The result, the value of [*pRectCount], and the caller's array. *)
Definition wsi_layer_vkGetPhysicalDevicePresentRectanglesKHR `{WsiExternals} `{InstanceExternals}
    (physicalDevice : VkPhysicalDevice) (surf : VkSurfaceKHR)
    (pRectCount : Z) (pRects : option (list VkRect2D))
    : VkResult * Z * option (list VkRect2D) :=
  if negb (should_layer_handle_surface physicalDevice surf) then
    disp_GetPhysicalDevicePresentRectanglesKHR physicalDevice surf pRectCount pRects
  else
    let props := get_surface_properties surf in
    match pRects with
    | None => (VK_SUCCESS, 1, None)
    | Some rects =>
        if 0 =? pRectCount then (VK_INCOMPLETE, pRectCount, Some rects)
        else
          let '(result, surface_caps) :=
            get_surface_capabilities props physicalDevice zero_surface_capabilities in
          if negb (result =? VK_SUCCESS) then (result, 1, Some rects)
          else
            (result, 1,
             Some (<[0%nat := {| offset := {| x := 0; y := 0 |};
                                 extent := currentExtent surface_caps |}]> rects))
    end.

(** ** wsi_layer_vkGetDeviceGroupPresentCapabilitiesKHR *)

Definition VK_MAX_DEVICE_GROUP_SIZE_KHR : nat := 32.
Definition VK_DEVICE_GROUP_PRESENT_MODE_LOCAL_BIT_KHR : Z := 1.

Record VkDeviceGroupPresentCapabilitiesKHR := {
  presentMask : list Z;
  modes : Z
}.

Definition wsi_layer_vkGetDeviceGroupPresentCapabilitiesKHR (device : VkDevice)
    (pDeviceGroupPresentCapabilities : VkDeviceGroupPresentCapabilitiesKHR)
    : VkResult * VkDeviceGroupPresentCapabilitiesKHR :=
  let mask := <[0%nat := 1]> (presentMask pDeviceGroupPresentCapabilities) in
  let mask :=
    for_loop (VK_MAX_DEVICE_GROUP_SIZE_KHR - 1) 1 (λ i (m : list Z), <[i := 0]> m) mask in
  (VK_SUCCESS,
   {| presentMask := mask; modes := VK_DEVICE_GROUP_PRESENT_MODE_LOCAL_BIT_KHR |}).

(** ** wsi_layer_vkGetDeviceGroupSurfacePresentModesKHR *)

(** The result and the value of [*pModes]. *)
Definition wsi_layer_vkGetDeviceGroupSurfacePresentModesKHR `{InstanceExternals}
    (device : VkDevice) (physical_device : VkPhysicalDevice) (surf : VkSurfaceKHR) (pModes : Z)
    : VkResult * Z :=
  if negb (should_layer_handle_surface physical_device surf)
  then disp_GetDeviceGroupSurfacePresentModesKHR device surf pModes
  else (VK_SUCCESS, VK_DEVICE_GROUP_PRESENT_MODE_LOCAL_BIT_KHR).

(** ** The entrypoints that forward to the swapchain object *)

Record VkAcquireNextImageInfoKHR := {
  acq_swapchain : VkSwapchainKHR;
  acq_timeout : Z;
  acq_semaphore : VkSemaphore;
  acq_fence : VkFence;
  acq_deviceMask : Z
}.

(** The member functions of [wsi::swapchain_base] and the ICD entrypoints
    these wrappers choose between.  An acquire returns its result, the value
    of [*pImageIndex] and the new world; an image query its result, the count
    and the caller's array. *)
Class SwapchainExternals (World : Type) := {
  acquire_next_image :
    World → VkSwapchainKHR → Z → VkSemaphore → VkFence → Z → VkResult * Z * World;
  get_swapchain_images :
    World → VkSwapchainKHR → Z → option (list VkImage) → VkResult * Z * option (list VkImage);
  get_swapchain_status : World → VkSwapchainKHR → VkResult;
  remove_layer_swapchain : World → VkSwapchainKHR → World;
  destroy_surface_swapchain : World → VkSwapchainKHR → World;
  disp_AcquireNextImageKHR :
    World → VkSwapchainKHR → Z → VkSemaphore → VkFence → Z → VkResult * Z * World;
  disp_AcquireNextImage2KHR : World → VkAcquireNextImageInfoKHR → Z → VkResult * Z * World;
  disp_GetSwapchainImagesKHR :
    World → VkSwapchainKHR → Z → option (list VkImage) → VkResult * Z * option (list VkImage);
  disp_GetSwapchainStatusKHR : World → VkSwapchainKHR → VkResult;
  disp_DestroySwapchainKHR : World → VkSwapchainKHR → World
}.

Section WithWorld.
Context {World : Type} `{LayerExternals World} `{SwapchainExternals World}.

Definition wsi_layer_vkDestroySwapchainKHR (w : World) (swapc : VkSwapchainKHR) : World :=
  if negb (layer_owns_swapchain w swapc) then disp_DestroySwapchainKHR w swapc
  else destroy_surface_swapchain (remove_layer_swapchain w swapc) swapc.

Definition wsi_layer_vkGetSwapchainImagesKHR (w : World) (swapc : VkSwapchainKHR)
    (pSwapchainImageCount : Z) (pSwapchainImages : option (list VkImage))
    : VkResult * Z * option (list VkImage) :=
  if negb (layer_owns_swapchain w swapc)
  then disp_GetSwapchainImagesKHR w swapc pSwapchainImageCount pSwapchainImages
  else get_swapchain_images w swapc pSwapchainImageCount pSwapchainImages.

Definition wsi_layer_vkAcquireNextImageKHR (w : World) (swapc : VkSwapchainKHR) (timeout : Z)
    (semaphore : VkSemaphore) (fence : VkFence) (pImageIndex : Z) : VkResult * Z * World :=
  if negb (layer_owns_swapchain w swapc)
  then disp_AcquireNextImageKHR w swapc timeout semaphore fence pImageIndex
  else acquire_next_image w swapc timeout semaphore fence pImageIndex.

Definition wsi_layer_vkAcquireNextImage2KHR (w : World)
    (pAcquireInfo : VkAcquireNextImageInfoKHR) (pImageIndex : Z) : VkResult * Z * World :=
  if negb (layer_owns_swapchain w (acq_swapchain pAcquireInfo))
  then disp_AcquireNextImage2KHR w pAcquireInfo pImageIndex
  else acquire_next_image w (acq_swapchain pAcquireInfo) (acq_timeout pAcquireInfo)
         (acq_semaphore pAcquireInfo) (acq_fence pAcquireInfo) pImageIndex.

Definition wsi_layer_vkGetSwapchainStatusKHR (w : World) (swapchain : VkSwapchainKHR)
    : VkResult :=
  if negb (layer_owns_swapchain w swapchain)
  then disp_GetSwapchainStatusKHR w swapchain
  else get_swapchain_status w swapchain.

End WithWorld.

End Entrypoints.

(* ===================================================================== *)
(** * More concrete devices *)
(* ===================================================================== *)

Module MoreExamples.

Definition DRM_FORMAT_RGB565 : Z := 909199186.

(** A device like the one of [Examples.wsi_externals], except that the ICD
    answers [VK_ERROR_DEVICE_LOST] when asked about sRGB BGRA, and knows the
    16-bit format too. *)
Definition flaky_externals : WsiExternals :=
  {| get_surface_capabilities_common := λ _ c, c;
     fill_format_properties :=
       λ p f, {| surfaceFormat := m_surface_format p;
                 compressionProperties := (λ _, m_compression p) <$> compressionProperties f |};
     check_device_support :=
       λ _ p info, (if ifi_format info =? VK_FORMAT_B8G8R8A8_SRGB
                    then VK_ERROR_DEVICE_LOST else VK_SUCCESS, p);
     add_device_compression_support := λ _ p _, (VK_SUCCESS, p);
     get_surface_present_mode_compatibility_common := λ _ _ c, c;
     sync_fd_fence_sync_is_supported := λ _, true;
     has_image_compression_support := λ _, true;
     drm_to_vk_format :=
       λ f, if f =? Examples.DRM_FORMAT_XRGB8888 then VK_FORMAT_B8G8R8A8_UNORM
            else if f =? DRM_FORMAT_RGB565 then VK_FORMAT_R5G6B5_UNORM_PACK16
            else VK_FORMAT_UNDEFINED;
     drm_to_vk_srgb_format :=
       λ f, if f =? Examples.DRM_FORMAT_XRGB8888 then VK_FORMAT_B8G8R8A8_SRGB
            else VK_FORMAT_UNDEFINED;
     try_insert_allocates := λ _ _, true |}.

Definition two_formats : list drm_format_pair :=
  [ {| fourcc := Examples.DRM_FORMAT_XRGB8888; modifier := 0 |};
    {| fourcc := DRM_FORMAT_RGB565; modifier := 0 |} ].

Definition wayland_props : Wayland.surface_properties :=
  Wayland.make_surface_properties 4 two_formats.

(** An instance in which the layer handles the surfaces numbered 100 and
    above, all of them X11 windows of 640 by 480. *)
Definition instance_externals : Entrypoints.InstanceExternals :=
  {| Entrypoints.should_layer_handle_surface := λ _ surf, 100 <=? surf;
     Entrypoints.get_surface_properties :=
       λ _, Entrypoints.x11_surface_properties Examples.x11_props;
     Entrypoints.disp_GetPhysicalDevicePresentRectanglesKHR :=
       λ _ _ count rects, (VK_SUCCESS, count, rects);
     Entrypoints.disp_GetDeviceGroupSurfacePresentModesKHR := λ _ _ modes, (VK_SUCCESS, modes) |}.

Definition a_rect (n : Z) : Entrypoints.VkRect2D :=
  {| Entrypoints.offset := {| Entrypoints.x := n; Entrypoints.y := n |};
     Entrypoints.extent := {| width := n; height := n |} |}.

(** A compositor that announces an old linux-dmabuf only. *)
Definition old_display : Wayland.wl_display :=
  {| Wayland.create_queue_ok := true; Wayland.make_proxy_ok := true;
     Wayland.get_registry_ok := true; Wayland.add_listener_res := 0;
     Wayland.roundtrip_res := 1;
     Wayland.globals :=
       [ (1, "zwp_linux_dmabuf_v1", 2); (2, "zwp_linux_explicit_synchronization_v1", 2) ] |}.

(** A layer in which every bind is allowed, whose swapchain objects fail to
    initialise and to bind, whose ICD fails to bind too, and whose device
    does not have the maintenance extension enabled. *)
Definition failing_init_externals : Layer.LayerExternals LayerExamples.test_world :=
  {| Layer.should_layer_create_swapchain := λ _ _, true;
     Layer.can_icds_create_swapchain := λ _ _, true;
     Layer.add_layer_swapchain := λ w _, (VK_SUCCESS, w);
     Layer.layer_owns_swapchain := λ _ sc, 10 <=? sc;
     Layer.layer_owns_all_swapchains := λ _ scs, forallb (λ sc, 10 <=? sc) scs;
     Layer.is_maintenance_6_enabled := λ _, false;
     Layer.disp_CreateSwapchainKHR := λ w _ _, (VK_SUCCESS, 1, w);
     Layer.disp_QueuePresentKHR := λ w _ pi, (VK_SUCCESS, Layer.pResults pi, w);
     Layer.disp_BindImageMemory2KHR := λ w _ _, (VK_ERROR_DEVICE_LOST, w);
     Layer.allocate_surface_swapchain := λ w _, (Some 10, w);
     Layer.destroy_swapchain_object := λ w _, w;
     Layer.try_resize := λ w _, LayerExamples.tw_alloc_ok w;
     Layer.sync_queue_submit := λ w _ _ _ _, (LayerExamples.tw_sync_result w, w);
     Layer.create_frame_boundary := λ _, Some {| Layer.frameID := 1 |};
     Layer.init := λ w _ _ _, (VK_ERROR_INITIALIZATION_FAILED, w);
     Layer.get_image_present_semaphore := λ _ sc idx, 1000 * sc + idx;
     Layer.queue_present := λ w _ _ _ _, (VK_SUCCESS, w);
     Layer.is_bind_allowed := λ _ _ _, VK_SUCCESS;
     Layer.bind_swapchain_image := λ w _ _ _, (VK_ERROR_OUT_OF_HOST_MEMORY, w);
     Layer.present_params_init := Layer.present_params_init (LayerExternals := LayerExamples.externals) |}.

(** Swapchain objects that have an image ready whenever the caller is
    willing to wait, and an ICD that has none. *)
Definition swapchain_externals : Entrypoints.SwapchainExternals LayerExamples.test_world :=
  {| Entrypoints.acquire_next_image :=
       λ w _ timeout _ _ idx,
         if timeout =? 0 then (VK_NOT_READY, idx, w) else (VK_SUCCESS, 2, w);
     Entrypoints.get_swapchain_images := λ _ _ count images, (VK_SUCCESS, count, images);
     Entrypoints.get_swapchain_status := λ _ _, VK_SUCCESS;
     Entrypoints.remove_layer_swapchain := λ w _, w;
     Entrypoints.destroy_surface_swapchain := λ w _, w;
     Entrypoints.disp_AcquireNextImageKHR := λ w _ _ _ _ idx, (VK_NOT_READY, idx, w);
     Entrypoints.disp_AcquireNextImage2KHR := λ w _ idx, (VK_NOT_READY, idx, w);
     Entrypoints.disp_GetSwapchainImagesKHR := λ _ _ count images, (VK_SUCCESS, count, images);
     Entrypoints.disp_GetSwapchainStatusKHR := λ _ _, VK_SUCCESS;
     Entrypoints.disp_DestroySwapchainKHR := λ w _, w |}.

(** A binding that is the ICD's: no swapchain in its chain. *)
Definition plain_bind : Layer.VkBindImageMemoryInfo :=
  {| Layer.bind_pNext := [BindMemoryStatusKHR 3]; Layer.image := 30; Layer.memory := 5;
     Layer.memoryOffset := 0 |}.

End MoreExamples.

(* ===================================================================== *)
(** * More vocabulary *)
(* ===================================================================== *)

(** The parameters of the [queue_present] calls of a log, in order. *)
Fixpoint queue_present_params (l : list Layer.call)
    : list Layer.swapchain_presentation_parameters :=
  match l with
  | [] => []
  | Layer.call_queue_present _ _ params _ :: rest => params :: queue_present_params rest
  | _ :: rest => queue_present_params rest
  end.

(** The swapchain objects a log destroys, and those it registers with the
    layer (with the result of the registration). *)
Fixpoint destroy_calls (l : list Layer.call) : list VkSwapchainKHR :=
  match l with
  | [] => []
  | Layer.call_destroy_swapchain_object sc :: rest => sc :: destroy_calls rest
  | _ :: rest => destroy_calls rest
  end.

Fixpoint add_layer_swapchain_calls (l : list Layer.call) : list (VkSwapchainKHR * VkResult) :=
  match l with
  | [] => []
  | Layer.call_add_layer_swapchain sc res :: rest => (sc, res) :: add_layer_swapchain_calls rest
  | _ :: rest => add_layer_swapchain_calls rest
  end.

(** The present id the loop gives swapchain [i]: the one of the
    [VkPresentIdKHR] of the chain when that structure has an id array and
    counts as many swapchains as the present, 0 otherwise. *)
Definition present_id_for (pi : Layer.VkPresentInfoKHR) (i : nat) : Z :=
  match Layer.present_ids_of (Layer.pNext pi) with
  | Some (count, Some ids) => if count =? Layer.swapchainCount pi then ids !!! i else 0
  | _ => 0
  end.

(** The Vulkan formats a list of DRM formats stands for: for each DRM format
    its plain and its sRGB format, the undefined ones left out. *)
Definition defined_formats `{WsiExternals} (l : list drm_format_pair) : list VkFormat :=
  filter (λ f, f ≠ VK_FORMAT_UNDEFINED)
    (l ≫= λ d, [drm_to_vk_format (fourcc d); drm_to_vk_srgb_format (fourcc d)]).

(** Whether a registry global is a linux-dmabuf of a version with modifiers. *)
Definition is_dmabuf_with_modifiers (g : Z * string * Z) : Prop :=
  g.1.2 = Wayland.zwp_linux_dmabuf_v1_interface_name
  ∧ Wayland.ZWP_LINUX_DMABUF_V1_MODIFIER_SINCE_VERSION ≤ g.2.

(** All the visuals of a connection, screen by screen and depth by depth. *)
Definition all_visuals (conn : X11.xcb_connection_t) : list X11.xcb_visualtype_t :=
  X11.roots conn ≫= λ screen, X11.allowed_depths screen ≫= X11.visuals.


(* ===================================================================== *)
(** * What the calls do to the world *)
(* ===================================================================== *)

(** The statements about the entrypoints say what the calls that leave the
    file do to the world, not only what the log records.  The definitions
    below apply these calls themselves, one after the other, each in the
    world the one before left. *)

Section Runs.
Import Layer.
Context {World : Type} `{LayerExternals World}.

(** [queue_present] on each swapchain of a batch with its parameters: the
    results in order, and the world after the last call. *)
Fixpoint present_each (queue : VkQueue) (pi : VkPresentInfoKHR)
    (batch : list (VkSwapchainKHR * swapchain_presentation_parameters)) (w : World)
    : list VkResult * World :=
  match batch with
  | [] => ([], w)
  | (sc, params) :: rest =>
      let '(r, w1) := queue_present w sc queue pi params in
      let '(rs, w2) := present_each queue pi rest w1 in
      (r :: rs, w2)
  end.

(** The world the batch-wait step of a present leaves: that of
    [submit_wait_request] when the batch has more than one swapchain, the
    world as it is when the step is skipped. *)
Definition wait_world (queue : VkQueue) (pi : VkPresentInfoKHR) (s : state) : World :=
  if swapchainCount pi >? 1 then world (submit_wait_request queue pi true s).2 else world s.

(** Whether an entry of a batch bind is one for the swapchain: it names a
    swapchain that is not null and that the layer owns. *)
Definition bind_is_for_swapchain (w : World) (info : VkBindImageMemoryInfo)
    : option (VkSwapchainKHR * Z) :=
  match bind_sc_info_of (bind_pNext info) with
  | Some (sc, idx) =>
      if negb (sc =? VK_NULL_HANDLE) && layer_owns_swapchain w sc then Some (sc, idx) else None
  | None => None
  end.

(** Whether the swapchain refuses an entry in a world. *)
Definition bind_refused (w : World) (info : VkBindImageMemoryInfo) : bool :=
  match bind_is_for_swapchain w info with
  | Some (sc, idx) => negb (is_bind_allowed w sc idx =? VK_SUCCESS)
  | None => false
  end.

(** The binding itself: by the swapchain, or by the ICD. *)
Definition bind_one (device : VkDevice) (w : World) (info : VkBindImageMemoryInfo)
    : VkResult * World :=
  match bind_is_for_swapchain w info with
  | Some (sc, _) => bind_swapchain_image w sc device info
  | None => disp_BindImageMemory2KHR w device info
  end.

(** The bindings of a list of entries, one after the other. *)
Fixpoint bind_each (device : VkDevice) (infos : list VkBindImageMemoryInfo) (w : World)
    : list VkResult * World :=
  match infos with
  | [] => ([], w)
  | info :: rest =>
      let '(r, w1) := bind_one device w info in
      let '(rs, w2) := bind_each device rest w1 in
      (r :: rs, w2)
  end.

End Runs.

(** A DRM format [d] stands for the Vulkan format [k], and the device
    supports [k] with the modifier of [d]. *)
Definition supported_through `{WsiExternals} (phys_dev : VkPhysicalDevice) (k : VkFormat)
    (d : drm_format_pair) : Prop :=
  k ≠ VK_FORMAT_UNDEFINED
  ∧ (k = drm_to_vk_format (fourcc d) ∨ k = drm_to_vk_srgb_format (fourcc d))
  ∧ (Wayland.surface_format_properties_add_modifier_support phys_dev
       (make_surface_format_properties k) d false).1 = VK_SUCCESS.

(** ** Worlds that remember *)

Module Recording.
Import Layer.

(** A world that remembers what was done to the swapchain objects: the
    present mode each was initialised with, which were registered with the
    layer, and which were destroyed.  Initialisation answers
    [ow_init_result], registration [ow_add_result]. *)
Record object_world := {
  ow_init_result : VkResult;
  ow_add_result : VkResult;
  ow_initialised : list (VkSwapchainKHR * VkPresentModeKHR);
  ow_registered : list VkSwapchainKHR;
  ow_destroyed : list VkSwapchainKHR
}.

Definition externals : LayerExternals object_world :=
  {| should_layer_create_swapchain := λ _ surf, 100 <=? surf;
     can_icds_create_swapchain := λ _ _, true;
     add_layer_swapchain :=
       λ w sc, (ow_add_result w,
                {| ow_init_result := ow_init_result w; ow_add_result := ow_add_result w;
                   ow_initialised := ow_initialised w;
                   ow_registered := ow_registered w ++ [sc];
                   ow_destroyed := ow_destroyed w |});
     layer_owns_swapchain := λ w sc, bool_decide (sc ∈ ow_registered w);
     layer_owns_all_swapchains :=
       λ w scs, forallb (λ sc, bool_decide (sc ∈ ow_registered w)) scs;
     is_maintenance_6_enabled := λ _, true;
     disp_CreateSwapchainKHR := λ w _ _, (VK_SUCCESS, 1, w);
     disp_QueuePresentKHR := λ w _ pi, (VK_SUCCESS, pResults pi, w);
     disp_BindImageMemory2KHR := λ w _ _, (VK_SUCCESS, w);
     allocate_surface_swapchain := λ w _, (Some 10, w);
     destroy_swapchain_object :=
       λ w sc, {| ow_init_result := ow_init_result w; ow_add_result := ow_add_result w;
                  ow_initialised := ow_initialised w;
                  ow_registered := ow_registered w;
                  ow_destroyed := ow_destroyed w ++ [sc] |};
     try_resize := λ _ _, true;
     sync_queue_submit := λ w _ _ _ _, (VK_SUCCESS, w);
     create_frame_boundary := λ _, None;
     init :=
       λ w sc _ ci, (ow_init_result w,
                     {| ow_init_result := ow_init_result w; ow_add_result := ow_add_result w;
                        ow_initialised := ow_initialised w ++ [(sc, presentMode ci)];
                        ow_registered := ow_registered w;
                        ow_destroyed := ow_destroyed w |});
     get_image_present_semaphore := λ _ sc idx, 1000 * sc + idx;
     queue_present := λ w _ _ _ _, (VK_SUCCESS, w);
     is_bind_allowed := λ _ _ _, VK_SUCCESS;
     bind_swapchain_image := λ w _ _ _, (VK_SUCCESS, w);
     present_params_init := present_params_init (LayerExternals := LayerExamples.externals) |}.

Definition a_world (init_result add_result : VkResult) : object_world :=
  {| ow_init_result := init_result; ow_add_result := add_result;
     ow_initialised := []; ow_registered := []; ow_destroyed := [] |}.

(** A world that remembers the parameters of every present; its presents
    have no frame boundary. *)
Record present_world := {
  pw_presented : list (VkSwapchainKHR * swapchain_presentation_parameters)
}.

Definition present_externals : LayerExternals present_world :=
  {| should_layer_create_swapchain := λ _ _, true;
     can_icds_create_swapchain := λ _ _, true;
     add_layer_swapchain := λ w _, (VK_SUCCESS, w);
     layer_owns_swapchain := λ _ sc, 10 <=? sc;
     layer_owns_all_swapchains := λ _ scs, forallb (λ sc, 10 <=? sc) scs;
     is_maintenance_6_enabled := λ _, true;
     disp_CreateSwapchainKHR := λ w _ _, (VK_SUCCESS, 1, w);
     disp_QueuePresentKHR := λ w _ pi, (VK_SUCCESS, pResults pi, w);
     disp_BindImageMemory2KHR := λ w _ _, (VK_SUCCESS, w);
     allocate_surface_swapchain := λ w _, (Some 10, w);
     destroy_swapchain_object := λ w _, w;
     try_resize := λ _ _, true;
     sync_queue_submit := λ w _ _ _ _, (VK_SUCCESS, w);
     create_frame_boundary := λ _, None;
     init := λ w _ _ _, (VK_SUCCESS, w);
     get_image_present_semaphore := λ _ sc idx, 1000 * sc + idx;
     queue_present :=
       λ w sc _ _ params, (VK_SUCCESS, {| pw_presented := pw_presented w ++ [(sc, params)] |});
     is_bind_allowed := λ _ _ _, VK_SUCCESS;
     bind_swapchain_image := λ w _ _ _, (VK_SUCCESS, w);
     present_params_init := present_params_init (LayerExternals := LayerExamples.externals) |}.

Definition nothing_presented : state (World := present_world) :=
  {| world := {| pw_presented := [] |}; calls := [] |}.

(** The parameters the presents of a world were given. *)
Definition received (w : present_world) : list swapchain_presentation_parameters :=
  (pw_presented w).*2.

(** Two swapchains presented with a [VkPresentIdKHR] that counts three. *)
Definition two_presents : VkPresentInfoKHR :=
  {| pNext := [PresentIdKHR 3 (Some [41; 42; 43])];
     waitSemaphoreCount := 0; pWaitSemaphores := [];
     swapchainCount := 2; pSwapchains := [10; 12];
     pImageIndices := [4; 5]; pResults := None |}.

(** A device like the one of [Examples.wsi_externals], except that it does
    not support sRGB BGRA, and knows the 16-bit format too. *)
Definition picky_externals : WsiExternals :=
  {| get_surface_capabilities_common := λ _ c, c;
     fill_format_properties :=
       λ p f, {| surfaceFormat := m_surface_format p;
                 compressionProperties := (λ _, m_compression p) <$> compressionProperties f |};
     check_device_support :=
       λ _ p info, (if ifi_format info =? VK_FORMAT_B8G8R8A8_SRGB
                    then VK_ERROR_FORMAT_NOT_SUPPORTED else VK_SUCCESS, p);
     add_device_compression_support := λ _ p _, (VK_SUCCESS, p);
     get_surface_present_mode_compatibility_common := λ _ _ c, c;
     sync_fd_fence_sync_is_supported := λ _, true;
     has_image_compression_support := λ _, false;
     drm_to_vk_format := drm_to_vk_format (WsiExternals := MoreExamples.flaky_externals);
     drm_to_vk_srgb_format := drm_to_vk_srgb_format (WsiExternals := MoreExamples.flaky_externals);
     try_insert_allocates := λ _ _, true |}.

(** Three bindings none of which is refused: image 0 of swapchain 10, a
    binding of the ICD's with null memory (which the ICD of
    [LayerExamples.externals] fails), and image 0 of swapchain 12. *)
Definition null_plain_bind : VkBindImageMemoryInfo :=
  {| bind_pNext := [BindMemoryStatusKHR 1]; image := 30; memory := VK_NULL_HANDLE;
     memoryOffset := 0 |}.

Definition allowed_binds : list VkBindImageMemoryInfo :=
  [ LayerExamples.bind_of 10 0 21 0; null_plain_bind; LayerExamples.bind_of 12 0 23 2 ].

End Recording.
(* ===================================================================== *)
(** * Enumeration of present modes and formats *)
(* ===================================================================== *)

Section Overwrite.
Context {A B : Type}.
Implicit Types (f : A → B → B) (entries : list A) (buf : list B).

Lemma overwrite_length f k entries buf : length (overwrite f k entries buf) = length buf.
Proof.
  revert entries buf; induction k as [|k IH]; intros [|e es] [|b bs]; simpl; auto.
Qed.

(** Nothing at or beyond position [k] is touched. *)
Lemma overwrite_drop f k entries buf : drop k (overwrite f k entries buf) = drop k buf.
Proof.
  revert entries buf; induction k as [|k IH]; intros [|e es] [|b bs]; simpl; auto.
Qed.

Lemma overwrite_lookup_ge f k entries buf (j : nat) :
  (k ≤ j)%nat → overwrite f k entries buf !! j = buf !! j.
Proof.
  revert entries buf j; induction k as [|k IH]; intros [|e es] [|b bs] j Hj; simpl; auto.
  destruct j as [|j]; [lia|]. simpl. apply IH. lia.
Qed.

(** The first [k] positions hold the first [k] entries. *)
Lemma overwrite_lookup_lt f k entries buf (j : nat) e b :
  (j < k)%nat → entries !! j = Some e → buf !! j = Some b →
  overwrite f k entries buf !! j = Some (f e b).
Proof.
  revert entries buf j; induction k as [|k IH]; intros [|e' es] [|b' bs] j Hj He Hb;
    simpl in *; try lia; try discriminate.
  destruct j as [|j]; simpl in *; [congruence|]. apply IH; auto; lia.
Qed.

Lemma overwrite_all f k entries buf :
  (length entries ≤ k)%nat →
  overwrite f k entries buf = overwrite f (length entries) entries buf.
Proof.
  revert entries buf; induction k as [|k IH]; intros [|e es] [|b bs] Hk; simpl in *;
    auto; try lia.
  f_equal. apply IH. lia.
Qed.
End Overwrite.

(** When the written value does not depend on the old one, the array is the
    first [k] entries followed by what it held from position [k] on. *)
Lemma overwrite_const {A : Type} (k : nat) (entries buf : list A) :
  (k ≤ length entries)%nat → (k ≤ length buf)%nat →
  overwrite (λ e _, e) k entries buf = take k entries ++ drop k buf.
Proof.
  revert entries buf; induction k as [|k IH]; intros [|e es] [|b bs] He Hb; simpl in *;
    auto; try lia.
  f_equal. apply IH; lia.
Qed.

Lemma overwrite_map {A B : Type} (g : A → B) (k : nat) (entries : list A) (buf : list B) :
  (k ≤ length entries)%nat → (k ≤ length buf)%nat →
  overwrite (λ e _, g e) k entries buf = (g <$> take k entries) ++ drop k buf.
Proof.
  revert entries buf; induction k as [|k IH]; intros [|e es] [|b bs] He Hb; simpl in *;
    auto; try lia.
  f_equal. apply IH; lia.
Qed.

Lemma wrap32_small (z : Z) : 0 ≤ z < 2 ^ 32 → wrap32 z = z.
Proof. intros Hz. unfold wrap32. apply Z.mod_small. exact Hz. Qed.

(** The copy loop of [get_surface_present_modes_common], started at position
    [length pre] of an array whose first part [pre] is already written. *)
Lemma present_modes_loop (modes : list VkPresentModeKHR) (n : nat) :
  ∀ (pre buf : list VkPresentModeKHR),
    (length pre + n ≤ length modes)%nat → (n ≤ length buf)%nat →
    for_loop n (length pre) (λ i (b : list VkPresentModeKHR), <[i := modes !!! i]> b) (pre ++ buf)
    = pre ++ overwrite (λ e _, e) n (drop (length pre) modes) buf.
Proof.
  induction n as [|n IH]; intros pre buf Hm Hb; simpl.
  - destruct (drop (length pre) modes); reflexivity.
  - destruct buf as [|b bs]; simpl in Hb; [lia|].
    destruct (lookup_lt_is_Some_2 modes (length pre)) as [x Hx]; [lia|].
    rewrite (drop_S _ _ _ Hx). simpl.
    rewrite (list_lookup_total_correct _ _ _ Hx).
    rewrite insert_app_r_alt by lia. rewrite Nat.sub_diag. simpl.
    specialize (IH (pre ++ [x]) bs).
    rewrite length_app in IH. simpl in IH.
    replace (length pre + 1)%nat with (S (length pre)) in IH by lia.
    rewrite <- app_assoc in IH. simpl in IH.
    rewrite IH by lia. rewrite <- app_assoc. reflexivity.
Qed.

Section FormatsLoop.
Variable fill : surface_format_properties → VkSurfaceFormat2KHR → VkSurfaceFormat2KHR.

(** The loop of the helper writing the plain array. *)
Lemma formats_loop_plain (count : Z) (its : list surface_format_properties) :
  ∀ (fc : Z) (pre buf : list VkSurfaceFormatKHR),
    0 ≤ fc ≤ count → count < 2 ^ 32 → length pre = Z.to_nat fc →
    (Z.to_nat (count - fc) ≤ length buf)%nat →
    formats_loop fill its count fc
      {| surface_formats := Some (pre ++ buf); extended_surface_formats := None |}
    = {| surface_formats :=
           Some (pre ++ overwrite (λ p _, m_surface_format p) (Z.to_nat (count - fc)) its buf);
         extended_surface_formats := None |}.
Proof.
  induction its as [|props rest IH]; intros fc pre buf Hfc Hc Hpre Hb; simpl.
  - destruct (Z.to_nat (count - fc)); reflexivity.
  - destruct (Z.geb_spec fc count) as [Hge|Hlt].
    + replace (count - fc) with 0 by lia. reflexivity.
    + destruct buf as [|b bs].
      { simpl in Hb. lia. }
      rewrite wrap32_small by lia.
      unfold write_format. simpl.
      rewrite <- Hpre. rewrite insert_app_r_alt by lia. rewrite Nat.sub_diag. simpl.
      replace (Z.to_nat (count - fc)) with (S (Z.to_nat (count - (fc + 1)))) by lia.
      simpl.
      specialize (IH (fc + 1) (pre ++ [m_surface_format props]) bs).
      rewrite <- app_assoc in IH. simpl in IH.
      rewrite IH; try lia.
      * rewrite <- app_assoc. reflexivity.
      * rewrite length_app. simpl. lia.
      * simpl in Hb. lia.
Qed.

(** The loop of the helper writing the extended array; the plain array, if
    the caller gave one too, is left alone. *)
Lemma formats_loop_extended (count : Z) (its : list surface_format_properties)
    (sf : option (list VkSurfaceFormatKHR)) :
  ∀ (fc : Z) (pre buf : list VkSurfaceFormat2KHR),
    0 ≤ fc ≤ count → count < 2 ^ 32 → length pre = Z.to_nat fc →
    (Z.to_nat (count - fc) ≤ length buf)%nat →
    formats_loop fill its count fc
      {| surface_formats := sf; extended_surface_formats := Some (pre ++ buf) |}
    = {| surface_formats := sf;
         extended_surface_formats :=
           Some (pre ++ overwrite fill (Z.to_nat (count - fc)) its buf) |}.
Proof.
  induction its as [|props rest IH]; intros fc pre buf Hfc Hc Hpre Hb; simpl.
  - destruct (Z.to_nat (count - fc)); reflexivity.
  - destruct (Z.geb_spec fc count) as [Hge|Hlt].
    + replace (count - fc) with 0 by lia. reflexivity.
    + destruct buf as [|b bs].
      { simpl in Hb. lia. }
      rewrite wrap32_small by lia.
      unfold write_format. simpl.
      rewrite <- Hpre. rewrite alter_app_r_alt by lia. rewrite Nat.sub_diag. simpl.
      replace (Z.to_nat (count - fc)) with (S (Z.to_nat (count - (fc + 1)))) by lia.
      simpl.
      specialize (IH (fc + 1) (pre ++ [fill props b]) bs).
      rewrite <- app_assoc in IH. simpl in IH.
      rewrite IH; try lia.
      * rewrite <- app_assoc. reflexivity.
      * rewrite length_app. simpl. lia.
      * simpl in Hb. lia.
Qed.
End FormatsLoop.

Lemma gtb_true (n m : Z) : m < n → (n >? m) = true.
Proof. intros. rewrite Z.gtb_ltb. apply Z.ltb_lt. lia. Qed.

Lemma gtb_false (n m : Z) : n ≤ m → (n >? m) = false.
Proof. intros. rewrite Z.gtb_ltb. apply Z.ltb_ge. lia. Qed.

Lemma formats_written_plain fill (count : Z) (its : list surface_format_properties)
    (buf : list VkSurfaceFormatKHR) :
  0 ≤ count < 2 ^ 32 → count ≤ Z.of_nat (length buf) →
  formats_loop fill its count 0
    {| surface_formats := Some buf; extended_surface_formats := None |}
  = {| surface_formats := Some (overwrite (λ p _, m_surface_format p) (Z.to_nat count) its buf);
       extended_surface_formats := None |}.
Proof.
  intros Hc Hb.
  pose proof (formats_loop_plain fill count its 0 [] buf) as Hloop.
  simpl in Hloop. rewrite Z.sub_0_r in Hloop. apply Hloop; lia.
Qed.

Lemma formats_written_extended fill (count : Z) (its : list surface_format_properties)
    (sf : option (list VkSurfaceFormatKHR)) (buf : list VkSurfaceFormat2KHR) :
  0 ≤ count < 2 ^ 32 → count ≤ Z.of_nat (length buf) →
  formats_loop fill its count 0
    {| surface_formats := sf; extended_surface_formats := Some buf |}
  = {| surface_formats := sf;
       extended_surface_formats := Some (overwrite fill (Z.to_nat count) its buf) |}.
Proof.
  intros Hc Hb.
  pose proof (formats_loop_extended fill count its sf 0 [] buf) as Hloop.
  simpl in Hloop. rewrite Z.sub_0_r in Hloop. apply Hloop; lia.
Qed.

Lemma present_modes_written (modes buf : list VkPresentModeKHR) (k : nat) :
  (k ≤ length modes)%nat → (k ≤ length buf)%nat →
  for_loop k 0 (λ i (b : list VkPresentModeKHR), <[i := modes !!! i]> b) buf
  = take k modes ++ drop k buf.
Proof.
  intros Hm Hb.
  pose proof (present_modes_loop modes k [] buf) as Hloop. simpl in Hloop.
  rewrite Hloop by lia. apply overwrite_const; lia.
Qed.

(** C10.  Enumeration of present modes ([get_surface_present_modes_common])
    and of formats ([surface_properties_formats_helper]), for a caller whose
    arrays hold at least [capacity] elements.
    - With a null array the count becomes the number of supported entries and
      the result is [VK_SUCCESS].
    - With an array and a capacity below the number of supported entries, the
      first [capacity] entries are written, the count stays [capacity] and the
      result is [VK_INCOMPLETE].
    - Otherwise every supported entry is written, the count becomes their
      number and the result is [VK_SUCCESS].
    In each case the array is unchanged from position [capacity] on.  For the
    extended format array the written element is [fill] of the entry applied
    to the element already there, and a plain array passed along with it is
    not written. *)
Theorem enumeration_contract
    (fill : surface_format_properties → VkSurfaceFormat2KHR → VkSurfaceFormat2KHR)
    (modes : list VkPresentModeKHR) (its : list surface_format_properties)
    (capacity : Z)
    (pm : list VkPresentModeKHR) (sf : list VkSurfaceFormatKHR)
    (ext : list VkSurfaceFormat2KHR) (sf_opt : option (list VkSurfaceFormatKHR)) :
  0 ≤ capacity < 2 ^ 32 →
  Z.of_nat (length modes) < 2 ^ 32 →
  Z.of_nat (length its) < 2 ^ 32 →
  capacity ≤ Z.of_nat (length pm) →
  capacity ≤ Z.of_nat (length sf) →
  capacity ≤ Z.of_nat (length ext) →
  let n_modes := Z.of_nat (length modes) in
  let n_formats := Z.of_nat (length its) in
  let cap := Z.to_nat capacity in
  (* null arrays *)
  get_surface_present_modes_common capacity None modes
    = {| enum_result := VK_SUCCESS; enum_count := n_modes; enum_out := None |}
  ∧ surface_properties_formats_helper fill its capacity
      {| surface_formats := None; extended_surface_formats := None |}
    = {| enum_result := VK_SUCCESS; enum_count := n_formats;
         enum_out := {| surface_formats := None; extended_surface_formats := None |} |}
  (* present modes *)
  ∧ get_surface_present_modes_common capacity (Some pm) modes
    = (if capacity <? n_modes
       then {| enum_result := VK_INCOMPLETE; enum_count := capacity;
               enum_out := Some (take cap modes ++ drop cap pm) |}
       else {| enum_result := VK_SUCCESS; enum_count := n_modes;
               enum_out := Some (modes ++ drop (length modes) pm) |})
  (* formats, plain array *)
  ∧ surface_properties_formats_helper fill its capacity
      {| surface_formats := Some sf; extended_surface_formats := None |}
    = (if capacity <? n_formats
       then {| enum_result := VK_INCOMPLETE; enum_count := capacity;
               enum_out :=
                 {| surface_formats := Some ((m_surface_format <$> take cap its) ++ drop cap sf);
                    extended_surface_formats := None |} |}
       else {| enum_result := VK_SUCCESS; enum_count := n_formats;
               enum_out :=
                 {| surface_formats := Some ((m_surface_format <$> its) ++ drop (length its) sf);
                    extended_surface_formats := None |} |})
  (* formats, extended array *)
  ∧ surface_properties_formats_helper fill its capacity
      {| surface_formats := sf_opt; extended_surface_formats := Some ext |}
    = (if capacity <? n_formats
       then {| enum_result := VK_INCOMPLETE; enum_count := capacity;
               enum_out :=
                 {| surface_formats := sf_opt;
                    extended_surface_formats := Some (overwrite fill cap its ext) |} |}
       else {| enum_result := VK_SUCCESS; enum_count := n_formats;
               enum_out :=
                 {| surface_formats := sf_opt;
                    extended_surface_formats := Some (overwrite fill (length its) its ext) |} |})
  (* never beyond the capacity *)
  ∧ (∀ pm', enum_out (get_surface_present_modes_common capacity (Some pm) modes) = Some pm' →
            length pm' = length pm ∧ drop cap pm' = drop cap pm)
  ∧ (∀ out', enum_out (surface_properties_formats_helper fill its capacity
                        {| surface_formats := Some sf; extended_surface_formats := None |}) = out' →
             ∃ sf', surface_formats out' = Some sf'
                    ∧ length sf' = length sf ∧ drop cap sf' = drop cap sf)
  ∧ (∀ out', enum_out (surface_properties_formats_helper fill its capacity
                        {| surface_formats := sf_opt; extended_surface_formats := Some ext |}) = out' →
             ∃ ext', extended_surface_formats out' = Some ext'
                     ∧ length ext' = length ext ∧ drop cap ext' = drop cap ext).
Proof.
  intros Hcap Hmodes Hits Hpm Hsf Hext n_modes n_formats cap.
  assert (Epm : get_surface_present_modes_common capacity (Some pm) modes
    = (if capacity <? n_modes
       then {| enum_result := VK_INCOMPLETE; enum_count := capacity;
               enum_out := Some (take cap modes ++ drop cap pm) |}
       else {| enum_result := VK_SUCCESS; enum_count := n_modes;
               enum_out := Some (modes ++ drop (length modes) pm) |})).
  { unfold get_surface_present_modes_common.
    rewrite wrap32_small by (subst n_modes; lia).
    fold n_modes. destruct (Z.ltb_spec capacity n_modes) as [Hlt|Hge].
    - replace (n_modes >? capacity) with true by (symmetry; apply gtb_true; lia).
      rewrite Z.min_l by lia. fold cap.
      rewrite present_modes_written by (subst cap n_modes; lia). reflexivity.
    - replace (n_modes >? capacity) with false
        by (symmetry; apply gtb_false; lia).
      rewrite Z.min_r by lia. subst n_modes. rewrite Nat2Z.id.
      rewrite present_modes_written by lia.
      rewrite take_ge by lia. reflexivity. }
  assert (Esf : surface_properties_formats_helper fill its capacity
      {| surface_formats := Some sf; extended_surface_formats := None |}
    = (if capacity <? n_formats
       then {| enum_result := VK_INCOMPLETE; enum_count := capacity;
               enum_out :=
                 {| surface_formats := Some ((m_surface_format <$> take cap its) ++ drop cap sf);
                    extended_surface_formats := None |} |}
       else {| enum_result := VK_SUCCESS; enum_count := n_formats;
               enum_out :=
                 {| surface_formats := Some ((m_surface_format <$> its) ++ drop (length its) sf);
                    extended_surface_formats := None |} |})).
  { unfold surface_properties_formats_helper. simpl.
    rewrite wrap32_small by (subst n_formats; lia).
    fold n_formats. destruct (Z.ltb_spec capacity n_formats) as [Hlt|Hge].
    - replace (n_formats >? capacity) with true by (symmetry; apply gtb_true; lia).
      rewrite Z.min_l by lia.
      rewrite formats_written_plain by lia. fold cap.
      rewrite overwrite_map by (subst cap n_formats; lia). reflexivity.
    - replace (n_formats >? capacity) with false
        by (symmetry; apply gtb_false; lia).
      rewrite Z.min_r by lia.
      rewrite formats_written_plain by (subst n_formats; lia).
      subst n_formats. rewrite Nat2Z.id.
      rewrite overwrite_map by lia. rewrite take_ge by lia. reflexivity. }
  assert (Eext : surface_properties_formats_helper fill its capacity
      {| surface_formats := sf_opt; extended_surface_formats := Some ext |}
    = (if capacity <? n_formats
       then {| enum_result := VK_INCOMPLETE; enum_count := capacity;
               enum_out :=
                 {| surface_formats := sf_opt;
                    extended_surface_formats := Some (overwrite fill cap its ext) |} |}
       else {| enum_result := VK_SUCCESS; enum_count := n_formats;
               enum_out :=
                 {| surface_formats := sf_opt;
                    extended_surface_formats := Some (overwrite fill (length its) its ext) |} |})).
  { unfold surface_properties_formats_helper. simpl.
    rewrite wrap32_small by (subst n_formats; lia).
    fold n_formats.
    assert (Hloop : ∀ count, 0 ≤ count < 2 ^ 32 → count ≤ Z.of_nat (length ext) →
              formats_loop fill its count 0
                {| surface_formats := sf_opt; extended_surface_formats := Some ext |}
              = {| surface_formats := sf_opt;
                   extended_surface_formats := Some (overwrite fill (Z.to_nat count) its ext) |}).
    { intros count Hc Hle. apply formats_written_extended; lia. }
    destruct (Z.ltb_spec capacity n_formats) as [Hlt|Hge].
    - replace (n_formats >? capacity) with true by (symmetry; apply gtb_true; lia).
      rewrite Z.min_l by lia.
      destruct sf_opt; rewrite Hloop by lia; reflexivity.
    - replace (n_formats >? capacity) with false
        by (symmetry; apply gtb_false; lia).
      rewrite Z.min_r by lia.
      destruct sf_opt; rewrite Hloop by (subst n_formats; lia);
        subst n_formats; rewrite Nat2Z.id; reflexivity. }
  split; [|split; [|split; [|split; [|split; [|split; [|split]]]]]].
  - unfold get_surface_present_modes_common.
    rewrite wrap32_small by (subst n_modes; lia). reflexivity.
  - unfold surface_properties_formats_helper. simpl.
    rewrite wrap32_small by (subst n_formats; lia). reflexivity.
  - exact Epm.
  - exact Esf.
  - exact Eext.
  - intros pm' Hout. rewrite Epm in Hout.
    destruct (Z.ltb_spec capacity n_modes) as [Hlt|Hge]; simpl in Hout;
      injection Hout as <-; subst n_modes cap.
    + split.
      * rewrite length_app, length_take, length_drop. lia.
      * rewrite drop_app_length'; [reflexivity|]. rewrite length_take. lia.
    + split.
      * rewrite length_app, length_drop. lia.
      * rewrite drop_app_ge by lia. rewrite drop_drop. f_equal. lia.
  - intros out' Hout. rewrite Esf in Hout.
    destruct (Z.ltb_spec capacity n_formats) as [Hlt|Hge]; simpl in Hout;
      subst out' n_formats cap; simpl; eexists; (split; [reflexivity|]).
    + split.
      * rewrite length_app, length_fmap, length_take, length_drop. lia.
      * rewrite drop_app_length'; [reflexivity|]. rewrite length_fmap, length_take. lia.
    + split.
      * rewrite length_app, length_fmap, length_drop. lia.
      * rewrite drop_app_ge by (rewrite length_fmap; lia).
        rewrite drop_drop, length_fmap. f_equal. lia.
  - intros out' Hout. rewrite Eext in Hout.
    destruct (Z.ltb_spec capacity n_formats) as [Hlt|Hge]; simpl in Hout;
      subst out' n_formats cap; simpl; eexists; (split; [reflexivity|]).
    + split; [apply overwrite_length | apply overwrite_drop].
    + split; [apply overwrite_length|].
      rewrite <- (overwrite_all fill (Z.to_nat capacity)) by lia. apply overwrite_drop.
Qed.

(* ===================================================================== *)
(** * Present-mode queries of a surface *)
(* ===================================================================== *)

Lemma std_find_mode_elem_of (modes : list VkPresentModeKHR) (m : VkPresentModeKHR) :
  std_find_mode modes m = true ↔ m ∈ modes.
Proof.
  induction modes as [|x rest IH]; simpl.
  - split; [discriminate | intros Hin; inversion Hin].
  - destruct (Z.eqb_spec x m) as [->|Hne].
    + split; [intros _; left | reflexivity].
    + rewrite IH. split; [intros Hin; right; exact Hin|].
      intros Hin. inversion Hin; subst; [congruence | assumption].
Qed.

Lemma std_find_mode_not_elem_of (modes : list VkPresentModeKHR) (m : VkPresentModeKHR) :
  std_find_mode modes m = false ↔ m ∉ modes.
Proof.
  rewrite <- std_find_mode_elem_of. destruct (std_find_mode modes m); split; congruence.
Qed.

(** C6.  A capability query whose info chain carries a
    [VkSurfacePresentModeEXT] naming a mode outside the supported-modes array
    fails the check with [VK_ERROR_OUT_OF_HOST_MEMORY], and both backends then
    return that code with the caller's capability structure exactly as it was
    passed in: nothing has been computed into it.  When the named mode is in
    the array, or the chain carries no such structure, the check returns
    [VK_SUCCESS]. *)
Theorem present_mode_query_check `{WsiExternals}
    (surface_info : list chain_struct) (modes : list VkPresentModeKHR)
    (wsp : Wayland.surface_properties) (xsp : X11.surface_properties)
    (physical_device : VkPhysicalDevice) (caps : VkSurfaceCapabilities2KHR) :
  let carried := find_extension VK_STRUCTURE_TYPE_SURFACE_PRESENT_MODE_EXT surface_info in
  (∀ m, carried = Some (SurfacePresentModeEXT m) → m ∉ modes →
        check_surface_present_mode_query_is_supported surface_info modes
        = VK_ERROR_OUT_OF_HOST_MEMORY)
  ∧ (∀ m, carried = Some (SurfacePresentModeEXT m) → m ∈ modes →
          check_surface_present_mode_query_is_supported surface_info modes = VK_SUCCESS)
  ∧ (carried = None →
     check_surface_present_mode_query_is_supported surface_info modes = VK_SUCCESS)
  ∧ (∀ m, carried = Some (SurfacePresentModeEXT m) → m ∉ Wayland.m_supported_modes wsp →
          Wayland.get_surface_capabilities2 wsp physical_device surface_info caps
          = (VK_ERROR_OUT_OF_HOST_MEMORY, caps))
  ∧ (∀ m, carried = Some (SurfacePresentModeEXT m) → m ∉ X11.m_supported_modes xsp →
          X11.get_surface_capabilities2 xsp physical_device surface_info caps
          = (VK_ERROR_OUT_OF_HOST_MEMORY, caps)).
Proof.
  intros carried.
  assert (Hreject : ∀ ms m, carried = Some (SurfacePresentModeEXT m) → m ∉ ms →
            check_surface_present_mode_query_is_supported surface_info ms
            = VK_ERROR_OUT_OF_HOST_MEMORY).
  { intros ms m Hc Hm. unfold check_surface_present_mode_query_is_supported.
    fold carried. rewrite Hc.
    apply std_find_mode_not_elem_of in Hm. rewrite Hm. reflexivity. }
  repeat split.
  - intros m Hc Hm. eapply Hreject; eassumption.
  - intros m Hc Hm. unfold check_surface_present_mode_query_is_supported.
    fold carried. rewrite Hc.
    apply std_find_mode_elem_of in Hm. rewrite Hm. reflexivity.
  - intros Hc. unfold check_surface_present_mode_query_is_supported.
    fold carried. rewrite Hc. reflexivity.
  - intros m Hc Hm. unfold Wayland.get_surface_capabilities2.
    rewrite (Hreject _ m Hc Hm). reflexivity.
  - intros m Hc Hm. unfold X11.get_surface_capabilities2.
    rewrite (Hreject _ m Hc Hm). reflexivity.
Qed.

Lemma present_mode_query_check_witness :
  (VK_PRESENT_MODE_IMMEDIATE_KHR ∉ Wayland.m_supported_modes Examples.wayland_props)
  ∧ (Wayland.get_surface_capabilities2 (H := Examples.wsi_externals) Examples.wayland_props 1
       [OtherStructure 1000119000; SurfacePresentModeEXT VK_PRESENT_MODE_IMMEDIATE_KHR]
       Examples.blank_caps
     = (VK_ERROR_OUT_OF_HOST_MEMORY, Examples.blank_caps)).
Proof.
  assert (Hnot : VK_PRESENT_MODE_IMMEDIATE_KHR ∉ Wayland.m_supported_modes Examples.wayland_props).
  { apply std_find_mode_not_elem_of. reflexivity. }
  split; [exact Hnot|].
  pose proof (present_mode_query_check (H := Examples.wsi_externals)
                [OtherStructure 1000119000; SurfacePresentModeEXT VK_PRESENT_MODE_IMMEDIATE_KHR]
                [] Examples.wayland_props Examples.x11_props 1 Examples.blank_caps) as Hq.
  destruct Hq as (_ & _ & _ & Hw & _).
  apply (Hw VK_PRESENT_MODE_IMMEDIATE_KHR); [reflexivity | exact Hnot].
Defined.

(** C7.  On both backends [is_compatible_present_modes a b] holds exactly
    when [a] and [b] are the same mode and that mode is one of the two the
    table declares, FIFO and MAILBOX; two distinct modes are never reported
    compatible.  [capacity] is the length of the array member of the table
    entries, whatever it is. *)
Theorem compatible_only_with_itself (capacity : nat)
    (wl_surface : list drm_format_pair) (x_surface : X11.surface)
    (a b : VkPresentModeKHR) :
  (Wayland.is_compatible_present_modes (Wayland.make_surface_properties capacity wl_surface) a b
   = true
   ↔ a = b ∧ (a = VK_PRESENT_MODE_FIFO_KHR ∨ a = VK_PRESENT_MODE_MAILBOX_KHR))
  ∧ (X11.is_compatible_present_modes (X11.make_surface_properties capacity x_surface) a b
     = true
     ↔ a = b ∧ (a = VK_PRESENT_MODE_FIFO_KHR ∨ a = VK_PRESENT_MODE_MAILBOX_KHR)).
Proof.
  assert (Htable : is_compatible_present_modes (Wayland.compatible_present_modes_list capacity) a b
                   = true
                   ↔ a = b ∧ (a = VK_PRESENT_MODE_FIFO_KHR ∨ a = VK_PRESENT_MODE_MAILBOX_KHR)).
  { unfold is_compatible_present_modes, Wayland.compatible_present_modes_list, entry_declares.
    cbn [existsb SurfaceProperties.present_mode present_mode_count compatible_present_modes].
    change (Z.to_nat 1) with 1%nat. cbn [take std_find_mode].
    unfold VK_PRESENT_MODE_FIFO_KHR, VK_PRESENT_MODE_MAILBOX_KHR.
    destruct (Z.eqb_spec 2 a) as [Ha2|Ha2]; destruct (Z.eqb_spec 2 b) as [Hb2|Hb2];
      destruct (Z.eqb_spec 1 a) as [Ha1|Ha1]; destruct (Z.eqb_spec 1 b) as [Hb1|Hb1];
      cbn; split; intros; try discriminate; try lia; auto. }
  split; exact Htable.
Qed.

(** C8.  A device without fence-descriptor synchronisation has no
    presentation support on Wayland, XCB or Xlib, whatever the display; so an
    answer of [VK_TRUE] implies that the synchronisation check passed. *)
Theorem presentation_support_requires_fence_sync `{WsiExternals}
    (physical_device : VkPhysicalDevice) (queue_index : Z)
    (display : Wayland.wl_display) (connection : X11.xcb_connection_t) (visual : Z) :
  (sync_fd_fence_sync_is_supported physical_device = false →
   Wayland.GetPhysicalDeviceWaylandPresentationSupportKHR physical_device queue_index display
   = VK_FALSE
   ∧ X11.GetPhysicalDeviceXcbPresentationSupportKHR physical_device queue_index connection visual
     = VK_FALSE
   ∧ X11.GetPhysicalDeviceXlibPresentationSupportKHR physical_device queue_index connection visual
     = VK_FALSE)
  ∧ (Wayland.GetPhysicalDeviceWaylandPresentationSupportKHR physical_device queue_index display
     = VK_TRUE → sync_fd_fence_sync_is_supported physical_device = true)
  ∧ (X11.GetPhysicalDeviceXcbPresentationSupportKHR physical_device queue_index connection visual
     = VK_TRUE → sync_fd_fence_sync_is_supported physical_device = true)
  ∧ (X11.GetPhysicalDeviceXlibPresentationSupportKHR physical_device queue_index connection visual
     = VK_TRUE → sync_fd_fence_sync_is_supported physical_device = true).
Proof.
  unfold X11.GetPhysicalDeviceXlibPresentationSupportKHR,
    X11.GetPhysicalDeviceXcbPresentationSupportKHR,
    Wayland.GetPhysicalDeviceWaylandPresentationSupportKHR.
  destruct (sync_fd_fence_sync_is_supported physical_device); simpl.
  - repeat split; auto; discriminate.
  - repeat split; auto; discriminate.
Qed.

Lemma presentation_support_requires_fence_sync_witness :
  (sync_fd_fence_sync_is_supported (WsiExternals := Examples.wsi_externals) 2 = false
   ∧ Wayland.GetPhysicalDeviceWaylandPresentationSupportKHR (H := Examples.wsi_externals)
       2 0 Examples.display = VK_FALSE)
  ∧ (Wayland.GetPhysicalDeviceWaylandPresentationSupportKHR (H := Examples.wsi_externals)
       1 0 Examples.display = VK_TRUE
     ∧ sync_fd_fence_sync_is_supported (WsiExternals := Examples.wsi_externals) 1 = true)
  ∧ (X11.GetPhysicalDeviceXcbPresentationSupportKHR (H := Examples.wsi_externals)
       1 0 Examples.connection 33 = VK_TRUE
     ∧ sync_fd_fence_sync_is_supported (WsiExternals := Examples.wsi_externals) 1 = true).
Proof.
  split; [|split].
  - split; [reflexivity|].
    apply (presentation_support_requires_fence_sync (H := Examples.wsi_externals)
             2 0 Examples.display Examples.connection 33).
    reflexivity.
  - split; [reflexivity|].
    apply (presentation_support_requires_fence_sync (H := Examples.wsi_externals)
             1 0 Examples.display Examples.connection 33).
    reflexivity.
  - split; [reflexivity|].
    apply (presentation_support_requires_fence_sync (H := Examples.wsi_externals)
             1 0 Examples.display Examples.connection 33).
    reflexivity.
Defined.

(* ===================================================================== *)
(** * Repeated queries *)
(* ===================================================================== *)

Lemma with_supported_formats_same (sp : Wayland.surface_properties) :
  Wayland.with_supported_formats sp (Wayland.supported_formats sp) = sp.
Proof. destruct sp; reflexivity. Qed.

(** Once the format map holds an entry, a format query on Wayland neither
    rebuilds nor changes it: the answer is the helper's on the stored map. *)
Lemma wayland_formats_memoized `{WsiExternals} (sp : Wayland.surface_properties)
    (physical_device : VkPhysicalDevice) (count : Z) (out : format_arrays) :
  Wayland.supported_formats sp ≠ ∅ →
  Wayland.get_surface_formats sp physical_device count out
  = (surface_properties_formats_helper fill_format_properties
       (Wayland.format_range (Wayland.supported_formats sp)) count out,
     sp).
Proof.
  intros Hne. unfold Wayland.get_surface_formats.
  destruct (Nat.eqb_spec (size (Wayland.supported_formats sp)) 0) as [Hz|Hnz].
  - apply map_size_empty_iff in Hz. contradiction.
  - rewrite with_supported_formats_same. reflexivity.
Qed.

(** C9.  Asking twice gives the same answer.  For the present modes of a
    surface, on both backends, and for the formats of an X11 surface, a query
    leaves the surface properties as they were and a second query with the
    same arguments returns the same result code, count and list.  For the
    formats of a Wayland surface the same holds as soon as the memoised map
    holds an entry, in particular for any two queries that follow a query
    which populated it. *)
Theorem queries_idempotent `{WsiExternals}
    (wsp : Wayland.surface_properties) (xsp : X11.surface_properties)
    (physical_device : VkPhysicalDevice) (surface : VkSurfaceKHR)
    (mode_count : Z) (modes_out : option (list VkPresentModeKHR))
    (format_count : Z) (formats_out : format_arrays) :
  (let q1 := Wayland.get_surface_present_modes wsp physical_device surface mode_count modes_out in
   let q2 := Wayland.get_surface_present_modes q1.2 physical_device surface mode_count modes_out in
   q2.1 = q1.1 ∧ q1.2 = wsp ∧ q2.2 = wsp)
  ∧ (let q1 := X11.get_surface_present_modes xsp physical_device surface mode_count modes_out in
     let q2 := X11.get_surface_present_modes q1.2 physical_device surface mode_count modes_out in
     q2.1 = q1.1 ∧ q1.2 = xsp ∧ q2.2 = xsp)
  ∧ (let q1 := X11.get_surface_formats xsp physical_device format_count formats_out in
     let q2 := X11.get_surface_formats q1.2 physical_device format_count formats_out in
     q2.1 = q1.1 ∧ q1.2 = xsp ∧ q2.2 = xsp)
  ∧ (Wayland.supported_formats wsp ≠ ∅ →
     let q1 := Wayland.get_surface_formats wsp physical_device format_count formats_out in
     let q2 := Wayland.get_surface_formats q1.2 physical_device format_count formats_out in
     q2.1 = q1.1 ∧ q1.2 = wsp ∧ q2.2 = wsp)
  ∧ (∀ (first_count : Z) (first_out : format_arrays),
       let q0 := Wayland.get_surface_formats wsp physical_device first_count first_out in
       Wayland.supported_formats q0.2 ≠ ∅ →
       let q1 := Wayland.get_surface_formats q0.2 physical_device format_count formats_out in
       let q2 := Wayland.get_surface_formats q1.2 physical_device format_count formats_out in
       q2.1 = q1.1 ∧ q1.2 = q0.2 ∧ q2.2 = q0.2).
Proof.
  assert (Hmemo : ∀ sp, Wayland.supported_formats sp ≠ ∅ →
            let q1 := Wayland.get_surface_formats sp physical_device format_count formats_out in
            let q2 := Wayland.get_surface_formats q1.2 physical_device format_count formats_out in
            q2.1 = q1.1 ∧ q1.2 = sp ∧ q2.2 = sp).
  { intros sp Hne q1 q2. subst q2 q1.
    rewrite (wayland_formats_memoized sp) by exact Hne. simpl.
    rewrite (wayland_formats_memoized sp) by exact Hne. simpl. auto. }
  split; [|split; [|split; [|split]]].
  - simpl. auto.
  - simpl. auto.
  - simpl. auto.
  - apply Hmemo.
  - intros first_count first_out q0 Hne. apply Hmemo. exact Hne.
Qed.

Lemma queries_idempotent_witness :
  let first :=
    Wayland.get_surface_formats (H := Examples.wsi_externals) Examples.wayland_props 1 0
      {| surface_formats := None; extended_surface_formats := None |} in
  let out := {| surface_formats := Some (replicate 2 Examples.blank_format);
                extended_surface_formats := None |} in
  Wayland.supported_formats first.2 ≠ ∅
  ∧ enum_count first.1 = 2
  ∧ (Wayland.get_surface_formats (H := Examples.wsi_externals)
       (Wayland.get_surface_formats (H := Examples.wsi_externals) first.2 1 2 out).2 1 2 out).1
    = (Wayland.get_surface_formats (H := Examples.wsi_externals) first.2 1 2 out).1.
Proof.
  intros first out.
  assert (Hne : Wayland.supported_formats first.2 ≠ ∅).
  { intros Hempty. apply (f_equal size) in Hempty. vm_compute in Hempty. discriminate. }
  split; [exact Hne|]. split; [vm_compute; reflexivity|].
  pose proof (queries_idempotent (H := Examples.wsi_externals)
                Examples.wayland_props Examples.x11_props 1 0 0 None 2 out) as Hq.
  destruct Hq as (_ & _ & _ & _ & Hafter).
  specialize (Hafter 0 {| surface_formats := None; extended_surface_formats := None |} Hne).
  exact (proj1 Hafter).
Defined.

Lemma enumeration_contract_witness :
  let modes := [VK_PRESENT_MODE_FIFO_KHR; VK_PRESENT_MODE_MAILBOX_KHR] in
  let its := X11.build_formats X11.support_formats in
  (0 ≤ 1 < 2 ^ 32)
  ∧ (Z.of_nat (length modes) < 2 ^ 32)
  ∧ (Z.of_nat (length its) < 2 ^ 32)
  ∧ (1 ≤ Z.of_nat (length [7; 7]))
  ∧ get_surface_present_modes_common 1 (Some [7; 7]) modes
    = {| enum_result := VK_INCOMPLETE; enum_count := 1;
         enum_out := Some [VK_PRESENT_MODE_FIFO_KHR; 7] |}
  ∧ surface_properties_formats_helper (fill_format_properties (WsiExternals := Examples.wsi_externals))
      its 1
      {| surface_formats := Some [Examples.blank_format; Examples.blank_format];
         extended_surface_formats := None |}
    = {| enum_result := VK_INCOMPLETE; enum_count := 1;
         enum_out :=
           {| surface_formats :=
                Some [ {| format := VK_FORMAT_R5G6B5_UNORM_PACK16;
                          colorSpace := VK_COLORSPACE_SRGB_NONLINEAR_KHR |};
                       Examples.blank_format ];
              extended_surface_formats := None |} |}.
Proof.
  intros modes its.
  assert (H1 : 0 ≤ 1 < 2 ^ 32) by lia.
  assert (H2 : Z.of_nat (length modes) < 2 ^ 32) by (simpl; lia).
  assert (H3 : Z.of_nat (length its) < 2 ^ 32) by (simpl; lia).
  assert (H4 : 1 ≤ Z.of_nat (length [7; 7])) by (simpl; lia).
  assert (H5 : 1 ≤ Z.of_nat (length [Examples.blank_format; Examples.blank_format]))
    by (simpl; lia).
  assert (H6 : 1 ≤ Z.of_nat (length [Examples.blank_format2; Examples.blank_format2]))
    by (simpl; lia).
  pose proof (enumeration_contract
                (fill_format_properties (WsiExternals := Examples.wsi_externals))
                modes its 1 [7; 7] [Examples.blank_format; Examples.blank_format]
                [Examples.blank_format2; Examples.blank_format2] None
                H1 H2 H3 H4 H5 H6) as Hc.
  destruct Hc as (_ & _ & Hpm & Hsf & _).
  split; [exact H1|]. split; [exact H2|]. split; [exact H3|]. split; [exact H4|].
  split; [exact Hpm | exact Hsf].
Defined.

(* ===================================================================== *)
(** * The present entrypoint *)
(* ===================================================================== *)

Lemma queue_present_calls_app (l1 l2 : list Layer.call) :
  queue_present_calls (l1 ++ l2) = queue_present_calls l1 ++ queue_present_calls l2.
Proof.
  induction l1 as [|c l1 IH]; simpl; [reflexivity|].
  destruct c; simpl; rewrite ?IH; reflexivity.
Qed.


Lemma sync_submissions_app (l1 l2 : list Layer.call) :
  sync_submissions (l1 ++ l2) = sync_submissions l1 ++ sync_submissions l2.
Proof.
  induction l1 as [|c l1 IH]; simpl; [reflexivity|].
  destruct c; simpl; rewrite ?IH; reflexivity.
Qed.

Lemma init_calls_app (l1 l2 : list Layer.call) :
  init_calls (l1 ++ l2) = init_calls l1 ++ init_calls l2.
Proof.
  induction l1 as [|c l1 IH]; simpl; [reflexivity|].
  destruct c; simpl; rewrite ?IH; reflexivity.
Qed.


Lemma fmap_lookup_total_seq {A : Type} `{Inhabited A} (l : list A) :
  (λ i, l !!! i) <$> seq 0 (length l) = l.
Proof.
  apply list_eq; intros i. rewrite list_lookup_fmap.
  destruct (decide (i < length l)%nat) as [Hlt|Hge].
  - rewrite lookup_seq_lt by lia. simpl.
    destruct (lookup_lt_is_Some_2 l i Hlt) as [x Hx].
    rewrite (list_lookup_total_correct _ _ _ Hx). rewrite Hx. reflexivity.
  - rewrite lookup_seq_ge by lia. simpl.
    rewrite lookup_ge_None_2 by lia. reflexivity.
Qed.

(** A loop that stores [g i] at position [i] of a vector. *)
Lemma for_loop_fill {A : Type} (g : nat → A) (n : nat) :
  ∀ (pre buf : list A), (n ≤ length buf)%nat →
    for_loop n (length pre) (λ i (v : list A), <[i := g i]> v) (pre ++ buf)
    = pre ++ (g <$> seq (length pre) n) ++ drop n buf.
Proof.
  induction n as [|n IH]; intros pre buf Hb; simpl.
  - rewrite drop_0. reflexivity.
  - destruct buf as [|b bs]; simpl in Hb; [lia|].
    rewrite insert_app_r_alt by lia. rewrite Nat.sub_diag. simpl.
    specialize (IH (pre ++ [g (length pre)]) bs).
    rewrite length_app in IH. simpl in IH.
    replace (length pre + 1)%nat with (S (length pre)) in IH by lia.
    rewrite <- app_assoc in IH. simpl in IH.
    rewrite IH by lia. rewrite <- app_assoc. reflexivity.
Qed.

Lemma first_failure_cons (r : VkResult) (rs : list VkResult) (ret : VkResult) :
  (if (if negb (r =? VK_SUCCESS) && (ret =? VK_SUCCESS) then r else ret) =? VK_SUCCESS
   then first_failure rs
   else if negb (r =? VK_SUCCESS) && (ret =? VK_SUCCESS) then r else ret)
  = (if ret =? VK_SUCCESS then first_failure (r :: rs) else ret).
Proof.
  simpl. destruct (Z.eqb_spec ret VK_SUCCESS) as [->|Hret];
    destruct (Z.eqb_spec r VK_SUCCESS) as [->|Hr]; simpl.
  - reflexivity.
  - destruct (Z.eqb_spec r VK_SUCCESS); [contradiction | reflexivity].
  - destruct (Z.eqb_spec ret VK_SUCCESS); [contradiction | reflexivity].
  - destruct (Z.eqb_spec ret VK_SUCCESS); [contradiction | reflexivity].
Qed.

Section PresentLoop.
Import Layer.
Context {World : Type} `{LayerExternals World}.
Variables (queue : VkQueue) (pPresentInfo : VkPresentInfoKHR).
Variables (use_sem handled : bool).

End PresentLoop.

Lemma fmap_seq_zip_with {A B C : Type} `{Inhabited A} `{Inhabited B}
    (f : A → B → C) (l1 : list A) (l2 : list B) :
  length l1 = length l2 →
  (λ i, f (l1 !!! i) (l2 !!! i)) <$> seq 0 (length l1) = zip_with f l1 l2.
Proof.
  intros Hlen. apply list_eq; intros i.
  rewrite list_lookup_fmap, lookup_zip_with.
  destruct (decide (i < length l1)%nat) as [Hlt|Hge].
  - rewrite lookup_seq_lt by lia. simpl.
    destruct (lookup_lt_is_Some_2 l1 i Hlt) as [x Hx].
    destruct (lookup_lt_is_Some_2 l2 i) as [y Hy]; [lia|].
    rewrite (list_lookup_total_correct _ _ _ Hx), (list_lookup_total_correct _ _ _ Hy).
    rewrite Hx, Hy. reflexivity.
  - rewrite lookup_seq_ge by lia. simpl.
    rewrite (lookup_ge_None_2 l1) by lia. reflexivity.
Qed.

Lemma semaphore_vector {A : Type} (g : nat → A) (n : nat) (x : A) :
  for_loop n 0 (λ i (v : list A), <[i := g i]> v) (replicate n x) = g <$> seq 0 n.
Proof.
  pose proof (for_loop_fill g n [] (replicate n x)) as Hfill. simpl in Hfill.
  rewrite Hfill by (rewrite length_replicate; lia).
  rewrite drop_ge by (rewrite length_replicate; lia).
  apply app_nil_r.
Qed.

Section Present.
Import Layer.
Context {World : Type} `{LayerExternals World}.

Lemma submit_wait_request_log (queue : VkQueue) (pi : VkPresentInfoKHR) (fb : bool) (s : state) :
  0 ≤ swapchainCount pi < 2 ^ 32 →
  length (pSwapchains pi) = Z.to_nat (swapchainCount pi) →
  length (pImageIndices pi) = Z.to_nat (swapchainCount pi) →
  let '(r, _, sw) := submit_wait_request queue pi fb s in
  ∃ added,
    calls sw = calls s ++ call_submit_wait_request queue :: added
    ∧ queue_present_calls added = []
    ∧ wait_request_count added = O
    ∧ (try_resize (world s) (swapchainCount pi) = false →
       r = VK_ERROR_OUT_OF_HOST_MEMORY ∧ added = [] ∧ world sw = world s)
    ∧ (try_resize (world s) (swapchainCount pi) = true →
       sync_submissions added = [batch_wait_semaphores (world s) pi]
       ∧ r = (sync_queue_submit (world s) queue VK_NULL_HANDLE
                (batch_wait_semaphores (world s) pi) (create_frame_boundary pi)).1
       ∧ world sw = (sync_queue_submit (world s) queue VK_NULL_HANDLE
                       (batch_wait_semaphores (world s) pi) (create_frame_boundary pi)).2).
Proof.
  intros Hk Hsc Himg. unfold submit_wait_request, TRY. simpl.
  destruct (try_resize (world s) (swapchainCount pi)) eqn:Halloc; simpl.
  - rewrite semaphore_vector.
    rewrite length_fmap, length_seq.
    rewrite wrap32_small by lia. rewrite Z2Nat.id by lia.
    rewrite <- Hsc. rewrite fmap_seq_zip_with by lia.
    fold (batch_wait_semaphores (world s) pi).
    destruct (sync_queue_submit _ _ _ _ _) as [r w] eqn:Hsub. simpl.
    destruct (Z.eqb_spec r VK_SUCCESS) as [Hr|Hr]; simpl.
    + eexists [_]. rewrite <- app_assoc. simpl.
      split; [reflexivity|]. split; [reflexivity|]. split; [reflexivity|].
      split; [discriminate|]. intros _. rewrite Hr. auto.
    + eexists [_]. rewrite <- app_assoc. simpl.
      split; [reflexivity|]. split; [reflexivity|]. split; [reflexivity|].
      split; [discriminate|]. intros _. auto.
  - exists []. simpl. repeat split; auto; discriminate.
Qed.

(** C3.  For a present the layer handles with more than one swapchain: when
    [submit_wait_request] fails, the entrypoint returns its result, the
    results array is as the caller passed it, and the log holds no
    [queue_present] call beyond those it held before; the state is the one
    the failed submission left.  When the semaphore vector cannot be
    allocated the submission fails with [VK_ERROR_OUT_OF_HOST_MEMORY]
    without reaching [sync_queue_submit]; otherwise it fails exactly when
    [sync_queue_submit] does, with its result. *)
Theorem failed_batch_wait_presents_nothing (queue : VkQueue) (pi : VkPresentInfoKHR) (s : state) :
  layer_owns_all_swapchains (world s)
    (take (Z.to_nat (swapchainCount pi)) (pSwapchains pi)) = true →
  1 < swapchainCount pi < 2 ^ 32 →
  length (pSwapchains pi) = Z.to_nat (swapchainCount pi) →
  length (pImageIndices pi) = Z.to_nat (swapchainCount pi) →
  let wait := submit_wait_request queue pi true s in
  (wait.1.1 ≠ VK_SUCCESS →
     wsi_layer_vkQueuePresentKHR queue pi s = (wait.1.1, pResults pi, wait.2)
     ∧ queue_present_calls (calls wait.2) = queue_present_calls (calls s))
  ∧ (try_resize (world s) (swapchainCount pi) = false →
       wait.1.1 = VK_ERROR_OUT_OF_HOST_MEMORY
       ∧ sync_submissions (calls wait.2) = sync_submissions (calls s))
  ∧ (try_resize (world s) (swapchainCount pi) = true →
       wait.1.1 = (sync_queue_submit (world s) queue VK_NULL_HANDLE
                     (batch_wait_semaphores (world s) pi) (create_frame_boundary pi)).1).
Proof.
  intros Howns Hk Hsc Himg wait.
  pose proof (submit_wait_request_log queue pi true s) as Hlog.
  specialize (Hlog ltac:(lia) Hsc Himg). fold wait in Hlog.
  destruct wait as [[r handled] sw] eqn:Hwait. simpl.
  destruct Hlog as (added & Hcalls & Hqp & Hcount & Hfail & Hok).
  split; [|split].
  - intros Hr. split.
    + unfold wsi_layer_vkQueuePresentKHR, TRY. rewrite Howns. simpl.
      rewrite (gtb_true (swapchainCount pi) 1) by lia.
      fold wait. rewrite Hwait.
      destruct (Z.eqb_spec r VK_SUCCESS) as [Heq|_]; [contradiction|]. reflexivity.
    + rewrite Hcalls, queue_present_calls_app. simpl. rewrite Hqp. apply app_nil_r.
  - intros Halloc. destruct (Hfail Halloc) as (-> & -> & _).
    split; [reflexivity|].
    rewrite Hcalls, sync_submissions_app. simpl. apply app_nil_r.
  - intros Halloc. destruct (Hok Halloc) as (_ & -> & _). reflexivity.
Qed.

End Present.

Section PresentResults.
Import Layer.
Context {World : Type} `{LayerExternals World}.

Lemma submit_wait_request_no_present (queue : VkQueue) (pi : VkPresentInfoKHR)
    (fb : bool) (s : state) :
  queue_present_calls (calls (submit_wait_request queue pi fb s).2)
  = queue_present_calls (calls s).
Proof.
  unfold submit_wait_request, TRY. simpl.
  destruct (try_resize (world s) (swapchainCount pi)); simpl.
  - destruct (sync_queue_submit _ _ _ _ _) as [r w]. simpl.
    destruct (r =? VK_SUCCESS); simpl;
      rewrite !queue_present_calls_app; simpl; rewrite !app_nil_r; reflexivity.
  - rewrite queue_present_calls_app. simpl. apply app_nil_r.
Qed.

End PresentResults.

Lemma queue_present_params_app (l1 l2 : list Layer.call) :
  queue_present_params (l1 ++ l2) = queue_present_params l1 ++ queue_present_params l2.
Proof.
  induction l1 as [|c l1 IH]; simpl; [reflexivity|].
  destruct c; simpl; rewrite ?IH; reflexivity.
Qed.

Lemma present_each_snoc {World : Type} `{Layer.LayerExternals World}
    (queue : VkQueue) (pi : Layer.VkPresentInfoKHR)
    (sc : VkSwapchainKHR) (p : Layer.swapchain_presentation_parameters)
    (batch : list (VkSwapchainKHR * Layer.swapchain_presentation_parameters))
    (w : World) :
  present_each queue pi ((sc, p) :: batch) w
  = ((Layer.queue_present w sc queue pi p).1
       :: (present_each queue pi batch (Layer.queue_present w sc queue pi p).2).1,
     (present_each queue pi batch (Layer.queue_present w sc queue pi p).2).2).
Proof.
  simpl. destruct (Layer.queue_present w sc queue pi p) as [r w1]. simpl.
  destruct (present_each queue pi batch w1) as [rs w2]. reflexivity.
Qed.

Section PresentRun.
Import Layer.
Context {World : Type} `{LayerExternals World}.
Variables (queue : VkQueue) (pi : VkPresentInfoKHR).

Lemma submit_wait_request_no_present_params (fb : bool) (s : state) :
  queue_present_params (calls (submit_wait_request queue pi fb s).2)
  = queue_present_params (calls s).
Proof.
  unfold submit_wait_request, TRY. simpl.
  destruct (try_resize (world s) (swapchainCount pi)); simpl.
  - destruct (sync_queue_submit _ _ _ _ _) as [r w]. simpl.
    destruct (r =? VK_SUCCESS); simpl;
      rewrite !queue_present_params_app; simpl; rewrite !app_nil_r; reflexivity.
  - rewrite queue_present_params_app. simpl. apply app_nil_r.
Qed.

Lemma submit_wait_request_handled (s : state) :
  (submit_wait_request queue pi true s).1.1 = VK_SUCCESS →
  (submit_wait_request queue pi true s).1.2 = bool_decide (create_frame_boundary pi ≠ None).
Proof.
  unfold submit_wait_request, TRY. simpl.
  destruct (try_resize (world s) (swapchainCount pi)); simpl; [|discriminate].
  destruct (sync_queue_submit _ _ _ _ _) as [r w]. simpl.
  destruct (r =? VK_SUCCESS); reflexivity.
Qed.

(** One round of the present loop: [queue_present] itself is applied, in the
    world of the round, to the swapchain of the round and to parameters that
    carry its image index, its present id and the two flags; the round
    keeps the result and the world of that call. *)
Lemma present_body_round (use handled : bool) (i : nat) (l : present_loop_state) :
  ∃ (p : swapchain_presentation_parameters) (r : VkResult) (w : World),
    queue_present (world (pl_state l)) (pSwapchains pi !!! i) queue pi p = (r, w)
    ∧ present_body queue pi use handled i l
      = {| pl_ret :=
             if negb (r =? VK_SUCCESS) && (pl_ret l =? VK_SUCCESS) then r else pl_ret l;
           pl_results := (λ rr : list VkResult, <[i := r]> rr) <$> pl_results l;
           pl_state :=
             logged w (call_queue_present (pSwapchains pi !!! i) queue p r) (pl_state l) |}
    ∧ use_image_present_semaphore p = use
    ∧ handle_present_frame_boundary_event p = handled
    ∧ image_index (pending_present p) = pImageIndices pi !!! i
    ∧ present_id (pending_present p) = present_id_for pi i.
Proof.
  unfold present_body.
  destruct (queue_present _ _ _ _ _) as [r w] eqn:Hqp.
  eexists _, r, w. split; [exact Hqp|]. split; [reflexivity|]. simpl.
  split; [reflexivity|]. split; [reflexivity|]. split; reflexivity.
Qed.

(** What [n] rounds of the present loop, from index [from], do to the world
    and to the variables of the loop. *)
Lemma present_loop_run (use handled : bool) (n : nat) :
  ∀ (from : nat) (l : present_loop_state),
  let l' := for_loop n from (present_body queue pi use handled) l in
  let scs := (λ i, pSwapchains pi !!! i) <$> seq from n in
  ∃ (ps : list swapchain_presentation_parameters) (rs : list VkResult),
    length ps = n ∧ length rs = n
    ∧ present_each queue pi (zip scs ps) (world (pl_state l)) = (rs, world (pl_state l'))
    ∧ queue_present_calls (calls (pl_state l'))
      = queue_present_calls (calls (pl_state l)) ++ zip scs rs
    ∧ queue_present_params (calls (pl_state l'))
      = queue_present_params (calls (pl_state l)) ++ ps
    ∧ pl_ret l' = (if pl_ret l =? VK_SUCCESS then first_failure rs else pl_ret l)
    ∧ (pl_results l = None → pl_results l' = None)
    ∧ (∀ pre buf, pl_results l = Some (pre ++ buf) → length pre = from →
                  (n ≤ length buf)%nat →
                  pl_results l' = Some (pre ++ rs ++ drop n buf))
    ∧ use_image_present_semaphore <$> ps = replicate n use
    ∧ handle_present_frame_boundary_event <$> ps = replicate n handled
    ∧ (λ p, image_index (pending_present p)) <$> ps
      = (λ i, pImageIndices pi !!! i) <$> seq from n
    ∧ (λ p, present_id (pending_present p)) <$> ps = present_id_for pi <$> seq from n.
Proof.
  induction n as [|n IH]; intros from l; cbv zeta in *.
  - exists [], []. simpl. rewrite !app_nil_r.
    split; [reflexivity|]. split; [reflexivity|]. split; [reflexivity|].
    split; [reflexivity|]. split; [reflexivity|]. split.
    { destruct (Z.eqb_spec (pl_ret l) VK_SUCCESS) as [Heq|Hne]; [exact Heq | reflexivity]. }
    split; [auto|]. split.
    { intros pre buf Hres _ _. rewrite drop_0. exact Hres. }
    auto.
  - destruct (present_body_round use handled from l)
      as (p & r & w & Hqp & Hbody & Hpuse & Hphandled & Hpidx & Hpid).
    destruct (IH (S from) (present_body queue pi use handled from l))
      as (ps & rs & Hlps & Hlrs & Hrun & Hq & Hparams & Hret & Hnone & Hsome
          & Huse & Hhandled & Hidx & Hid).
    rewrite Hbody in Hrun, Hq, Hparams, Hret, Hnone, Hsome. simpl in *.
    rewrite Hbody.
    exists (p :: ps), (r :: rs).
    split; [simpl; f_equal; exact Hlps|].
    split; [simpl; f_equal; exact Hlrs|].
    split.
    { change ((λ i, pSwapchains pi !!! i) <$> seq from (S n))
        with (pSwapchains pi !!! from :: ((λ i, pSwapchains pi !!! i) <$> seq (S from) n)).
      change (zip (pSwapchains pi !!! from :: ((λ i, pSwapchains pi !!! i) <$> seq (S from) n))
                (p :: ps))
        with ((pSwapchains pi !!! from, p)
                :: zip ((λ i, pSwapchains pi !!! i) <$> seq (S from) n) ps).
      rewrite present_each_snoc, Hqp. cbn [fst snd].
      unfold fmap in Hrun |- *. rewrite Hrun. reflexivity. }
    split.
    { rewrite Hq, queue_present_calls_app. simpl. rewrite <- app_assoc. reflexivity. }
    split.
    { rewrite Hparams, queue_present_params_app. simpl. rewrite <- app_assoc. reflexivity. }
    split.
    { rewrite Hret. apply first_failure_cons. }
    split.
    { intros Hn. apply Hnone. rewrite Hn. reflexivity. }
    split.
    { intros pre buf Hres Hpre Hb.
      destruct buf as [|b bs]; simpl in Hb; [lia|].
      rewrite (Hsome (pre ++ [r]) bs).
      + rewrite <- app_assoc. reflexivity.
      + rewrite Hres. simpl. f_equal.
        rewrite <- Hpre. rewrite insert_app_r_alt by lia.
        rewrite Nat.sub_diag. simpl. rewrite <- app_assoc. reflexivity.
      + rewrite length_app. simpl. lia.
      + lia. }
    rewrite !fmap_cons, Huse, Hhandled, Hidx, Hid, Hpuse, Hphandled, Hpidx, Hpid.
    simpl. auto.
Qed.

(** The whole of a present the layer handles, when its batch-wait step did
    not fail. *)
Lemma present_run (s : state) :
  layer_owns_all_swapchains (world s)
    (take (Z.to_nat (swapchainCount pi)) (pSwapchains pi)) = true →
  wait_result queue pi s = VK_SUCCESS →
  let n := Z.to_nat (swapchainCount pi) in
  let scs := (λ i, pSwapchains pi !!! i) <$> seq 0 n in
  let out := wsi_layer_vkQueuePresentKHR queue pi s in
  ∃ (ps : list swapchain_presentation_parameters) (rs : list VkResult),
    length ps = n ∧ length rs = n
    ∧ present_each queue pi (zip scs ps) (wait_world queue pi s) = (rs, world out.2)
    ∧ queue_present_calls (calls out.2) = queue_present_calls (calls s) ++ zip scs rs
    ∧ queue_present_params (calls out.2) = queue_present_params (calls s) ++ ps
    ∧ out.1.1 = first_failure rs
    ∧ (pResults pi = None → out.1.2 = None)
    ∧ (∀ buf, pResults pi = Some buf → (n ≤ length buf)%nat →
              out.1.2 = Some (rs ++ drop n buf))
    ∧ use_image_present_semaphore <$> ps = replicate n (swapchainCount pi >? 1)
    ∧ handle_present_frame_boundary_event <$> ps
      = replicate n (if swapchainCount pi >? 1
                     then bool_decide (create_frame_boundary pi ≠ None)
                     else true)
    ∧ (λ p, image_index (pending_present p)) <$> ps
      = (λ i, pImageIndices pi !!! i) <$> seq 0 n
    ∧ (λ p, present_id (pending_present p)) <$> ps = present_id_for pi <$> seq 0 n.
Proof.
  intros Howns Hwait n scs out. subst out scs n.
  unfold wait_result in Hwait. unfold wait_world.
  unfold wsi_layer_vkQueuePresentKHR, TRY. rewrite Howns. simpl.
  destruct (swapchainCount pi >? 1) eqn:Hmany.
  - pose proof (submit_wait_request_no_present queue pi true s) as Hnp.
    pose proof (submit_wait_request_no_present_params true s) as Hnpp.
    pose proof (submit_wait_request_handled s Hwait) as Hhandled.
    destruct (submit_wait_request queue pi true s) as [[r handled] sw] eqn:Hw.
    simpl in Hwait, Hnp, Hnpp, Hhandled. subst r handled. simpl.
    destruct (present_loop_run true (bool_decide (create_frame_boundary pi ≠ None))
                (Z.to_nat (swapchainCount pi)) 0
                {| pl_ret := VK_SUCCESS; pl_results := pResults pi; pl_state := sw |})
      as (ps & rs & Hlps & Hlrs & Hrun & Hq & Hparams & Hret & Hnone & Hsome
          & Huse & Hflag & Hidx & Hid).
    simpl in *. exists ps, rs.
    split; [exact Hlps|]. split; [exact Hlrs|]. split; [exact Hrun|].
    split; [rewrite Hq, Hnp; reflexivity|].
    split; [rewrite Hparams, Hnpp; reflexivity|].
    split; [exact Hret|]. split; [exact Hnone|].
    split; [intros buf Hbuf Hlen; exact (Hsome [] buf Hbuf eq_refl Hlen)|].
    auto.
  - simpl.
    destruct (present_loop_run false true (Z.to_nat (swapchainCount pi)) 0
                {| pl_ret := VK_SUCCESS; pl_results := pResults pi; pl_state := s |})
      as (ps & rs & Hlps & Hlrs & Hrun & Hq & Hparams & Hret & Hnone & Hsome
          & Huse & Hflag & Hidx & Hid).
    simpl in *. exists ps, rs.
    split; [exact Hlps|]. split; [exact Hlrs|]. split; [exact Hrun|].
    split; [exact Hq|]. split; [exact Hparams|].
    split; [exact Hret|]. split; [exact Hnone|].
    split; [intros buf Hbuf Hlen; exact (Hsome [] buf Hbuf eq_refl Hlen)|].
    auto.
Qed.

(** C1, as the code has it.  For a present the layer handles whose
    batch-wait step did not fail (it is skipped for a single swapchain):
    [queue_present] itself is applied once to every swapchain of the batch,
    in the order of the batch, each call in the world the one before left,
    whatever the earlier calls returned, and the world after the present is
    the one the last of these calls left; the log records these calls and no
    other [queue_present]; the caller's results array, when given, holds the
    results of these calls; and the entrypoint returns the first of them that
    is not [VK_SUCCESS], or [VK_SUCCESS]. *)
Theorem present_batch_attempts_every_swapchain (s : state) :
  layer_owns_all_swapchains (world s)
    (take (Z.to_nat (swapchainCount pi)) (pSwapchains pi)) = true →
  length (pSwapchains pi) = Z.to_nat (swapchainCount pi) →
  (∀ buf, pResults pi = Some buf → (Z.to_nat (swapchainCount pi) ≤ length buf)%nat) →
  wait_result queue pi s = VK_SUCCESS →
  let '(ret, results, after) := wsi_layer_vkQueuePresentKHR queue pi s in
  ∃ (ps : list swapchain_presentation_parameters) (rs : list VkResult),
    length ps = Z.to_nat (swapchainCount pi)
    ∧ length rs = Z.to_nat (swapchainCount pi)
    ∧ present_each queue pi (zip (pSwapchains pi) ps) (wait_world queue pi s)
      = (rs, world after)
    ∧ queue_present_calls (calls after)
      = queue_present_calls (calls s) ++ zip (pSwapchains pi) rs
    ∧ results = (λ buf, rs ++ drop (length rs) buf) <$> pResults pi
    ∧ ret = first_failure rs.
Proof.
  intros Howns Hsc Hbuf Hwait.
  destruct (present_run s Howns Hwait)
    as (ps & rs & Hlps & Hlrs & Hrun & Hq & _ & Hret & Hnone & Hsome & _).
  rewrite <- Hsc, fmap_lookup_total_seq in Hrun, Hq.
  destruct (wsi_layer_vkQueuePresentKHR queue pi s) as [[ret results] after].
  simpl in *. exists ps, rs.
  split; [exact Hlps|]. split; [exact Hlrs|].
  split; [exact Hrun|]. split; [exact Hq|]. split; [|exact Hret].
  destruct (pResults pi) as [buf|] eqn:Hres; simpl.
  - rewrite (Hsome buf);
      [rewrite Hlrs; reflexivity
      | first [reflexivity | exact Hres]
      | apply Hbuf; first [reflexivity | exact Hres]].
  - apply Hnone. first [reflexivity | exact Hres].
Qed.

(** X13.  In a present the layer handles and whose batch-wait step did not
    fail, the parameters [queue_present] itself is applied to (and which the
    log records) carry, for each swapchain, the image index of that
    swapchain; the flag to wait on the image-present semaphore exactly when
    the batch has more than one swapchain; and as present id that of the
    [VkPresentIdKHR] of the chain when the structure counts as many
    swapchains as the present, and 0 when the structure is missing, has no
    id array, or counts another number of swapchains. *)
Theorem present_parameters (s : state) :
  layer_owns_all_swapchains (world s)
    (take (Z.to_nat (swapchainCount pi)) (pSwapchains pi)) = true →
  length (pSwapchains pi) = Z.to_nat (swapchainCount pi) →
  length (pImageIndices pi) = Z.to_nat (swapchainCount pi) →
  wait_result queue pi s = VK_SUCCESS →
  ∃ ps : list swapchain_presentation_parameters,
    length ps = Z.to_nat (swapchainCount pi)
    ∧ (present_each queue pi (zip (pSwapchains pi) ps) (wait_world queue pi s)).2
      = world (wsi_layer_vkQueuePresentKHR queue pi s).2
    ∧ first_failure
        (present_each queue pi (zip (pSwapchains pi) ps) (wait_world queue pi s)).1
      = (wsi_layer_vkQueuePresentKHR queue pi s).1.1
    ∧ queue_present_params (calls (wsi_layer_vkQueuePresentKHR queue pi s).2)
      = queue_present_params (calls s) ++ ps
    ∧ (λ p, image_index (pending_present p)) <$> ps = pImageIndices pi
    ∧ use_image_present_semaphore <$> ps
      = replicate (Z.to_nat (swapchainCount pi)) (swapchainCount pi >? 1)
    ∧ (∀ count ids,
         find_extension VK_STRUCTURE_TYPE_PRESENT_ID_KHR (pNext pi)
         = Some (PresentIdKHR count (Some ids)) →
         count = swapchainCount pi → length ids = Z.to_nat (swapchainCount pi) →
         (λ p, present_id (pending_present p)) <$> ps = ids)
    ∧ (∀ count ids,
         find_extension VK_STRUCTURE_TYPE_PRESENT_ID_KHR (pNext pi)
         = Some (PresentIdKHR count ids) →
         count ≠ swapchainCount pi ∨ ids = None →
         (λ p, present_id (pending_present p)) <$> ps
         = replicate (Z.to_nat (swapchainCount pi)) 0)
    ∧ (find_extension VK_STRUCTURE_TYPE_PRESENT_ID_KHR (pNext pi) = None →
       (λ p, present_id (pending_present p)) <$> ps
       = replicate (Z.to_nat (swapchainCount pi)) 0).
Proof.
  intros Howns Hsc Himg Hwait.
  destruct (present_run s Howns Hwait)
    as (ps & rs & Hlps & Hlrs & Hrun & _ & Hparams & Hret & _ & _ & Huse & _ & Hidx & Hid).
  cbv zeta in *.
  set (n := Z.to_nat (swapchainCount pi)) in *.
  rewrite <- Hsc, fmap_lookup_total_seq in Hrun.
  rewrite <- Himg, fmap_lookup_total_seq in Hidx.
  exists ps.
  split; [exact Hlps|].
  split; [rewrite Hrun; reflexivity|].
  split; [rewrite Hrun, Hret; reflexivity|].
  split; [exact Hparams|]. split; [exact Hidx|]. split; [exact Huse|].
  rewrite Hid. unfold present_id_for, present_ids_of.
  assert (Hzero : (λ _ : nat, 0) <$> seq 0 n = replicate n 0).
  { rewrite (const_fmap (λ _ : nat, 0) (seq 0 n) 0) by reflexivity.
    rewrite length_seq. reflexivity. }
  split; [|split].
  - intros count ids Hfind Hcount Hlen. rewrite Hfind.
    rewrite Hcount, Z.eqb_refl. rewrite <- Hlen. apply fmap_lookup_total_seq.
  - intros count ids Hfind [Hcount|Hnone]; rewrite Hfind.
    + destruct ids as [ids|]; [|exact Hzero].
      destruct (Z.eqb_spec count (swapchainCount pi)); [contradiction | exact Hzero].
    + subst ids. exact Hzero.
  - intros Hfind. rewrite Hfind. exact Hzero.
Qed.

(** X20.  In a present the layer handles and whose batch-wait step did not
    fail, the parameters [queue_present] itself is applied to (and which the
    log records) all carry the same frame-boundary flag.  For a batch of
    more than one swapchain the flag says whether the present has a frame
    boundary, the one the batch-wait submission carried; for a single
    swapchain (or none) the flag is always set. *)
Theorem frame_boundary_flag (s : state) :
  layer_owns_all_swapchains (world s)
    (take (Z.to_nat (swapchainCount pi)) (pSwapchains pi)) = true →
  length (pSwapchains pi) = Z.to_nat (swapchainCount pi) →
  wait_result queue pi s = VK_SUCCESS →
  ∃ ps : list swapchain_presentation_parameters,
    length ps = Z.to_nat (swapchainCount pi)
    ∧ (present_each queue pi (zip (pSwapchains pi) ps) (wait_world queue pi s)).2
      = world (wsi_layer_vkQueuePresentKHR queue pi s).2
    ∧ first_failure
        (present_each queue pi (zip (pSwapchains pi) ps) (wait_world queue pi s)).1
      = (wsi_layer_vkQueuePresentKHR queue pi s).1.1
    ∧ queue_present_params (calls (wsi_layer_vkQueuePresentKHR queue pi s).2)
      = queue_present_params (calls s) ++ ps
    ∧ handle_present_frame_boundary_event <$> ps
      = replicate (Z.to_nat (swapchainCount pi))
          (if swapchainCount pi >? 1
           then bool_decide (create_frame_boundary pi ≠ None)
           else true).
Proof.
  intros Howns Hsc Hwait.
  destruct (present_run s Howns Hwait)
    as (ps & rs & Hlps & Hlrs & Hrun & _ & Hparams & Hret & _ & _ & _ & Hflag & _).
  cbv zeta in *.
  rewrite <- Hsc, fmap_lookup_total_seq in Hrun.
  exists ps.
  split; [exact Hlps|].
  split; [rewrite Hrun; reflexivity|].
  split; [rewrite Hrun, Hret; reflexivity|].
  split; [exact Hparams | exact Hflag].
Qed.
End PresentRun.

Import Layer LayerExamples.

(** The present of the design document: three swapchains, the second of
    which fails.  The world has the first and the third presented. *)
Lemma present_batch_attempts_every_swapchain_witness :
  let pi := present_of [10; 11; 12] in
  let s := start (a_world true VK_SUCCESS) in
  (layer_owns_all_swapchains (LayerExternals := externals) (world s)
     (take (Z.to_nat (swapchainCount pi)) (pSwapchains pi)) = true
   ∧ length (pSwapchains pi) = Z.to_nat (swapchainCount pi)
   ∧ wait_result (H := externals) 1 pi s = VK_SUCCESS)
  ∧ (let '(ret, results, after) := wsi_layer_vkQueuePresentKHR (H := externals) 1 pi s in
     ∃ (ps : list swapchain_presentation_parameters) (rs : list VkResult),
       length ps = Z.to_nat (swapchainCount pi)
       ∧ length rs = Z.to_nat (swapchainCount pi)
       ∧ present_each (H := externals) 1 pi (zip (pSwapchains pi) ps)
           (wait_world (H := externals) 1 pi s)
         = (rs, world after)
       ∧ queue_present_calls (calls after)
         = queue_present_calls (calls s) ++ zip (pSwapchains pi) rs
       ∧ results = (λ buf, rs ++ drop (length rs) buf) <$> pResults pi
       ∧ ret = first_failure rs).
Proof.
  intros pi s. split.
  - split; [reflexivity|]. split; reflexivity.
  - apply (present_batch_attempts_every_swapchain (H := externals) 1 pi s).
    + reflexivity.
    + reflexivity.
    + intros buf Hbuf. injection Hbuf as <-. simpl. lia.
    + reflexivity.
Defined.

Example three_swapchains_second_fails_world :
  tw_presented
    (world (wsi_layer_vkQueuePresentKHR (H := externals) 1 (present_of [10; 11; 12])
              (start (a_world true VK_SUCCESS))).2)
  = [(10, 0); (12, 0)].
Proof. reflexivity. Qed.

(** C1 as the design document words it fails for a batch of two swapchains
    when the synchronisation submission of the batch-wait step fails: no
    swapchain is presented, so there are no two per-swapchain results, in the
    log or in the world. *)
Lemma present_batch_counterexample :
  let pi := present_of [10; 12] in
  let s := start (a_world true VK_ERROR_DEVICE_LOST) in
  layer_owns_all_swapchains (LayerExternals := externals) (world s)
    (take (Z.to_nat (swapchainCount pi)) (pSwapchains pi)) = true
  ∧ swapchainCount pi = 2
  ∧ tw_presented (world (wsi_layer_vkQueuePresentKHR (H := externals) 1 pi s).2) = []
  ∧ ¬ (let '(ret, results, after) := wsi_layer_vkQueuePresentKHR (H := externals) 1 pi s in
       ∃ (ps : list swapchain_presentation_parameters) (rs : list VkResult),
         length ps = Z.to_nat (swapchainCount pi)
         ∧ length rs = Z.to_nat (swapchainCount pi)
         ∧ present_each (H := externals) 1 pi (zip (pSwapchains pi) ps)
             (wait_world (H := externals) 1 pi s)
           = (rs, world after)
         ∧ queue_present_calls (calls after)
           = queue_present_calls (calls s) ++ zip (pSwapchains pi) rs
         ∧ results = (λ buf, rs ++ drop (length rs) buf) <$> pResults pi
         ∧ ret = first_failure rs).
Proof.
  intros pi s. split; [reflexivity|]. split; [reflexivity|]. split; [reflexivity|].
  intros Hall.
  assert (Hout : wsi_layer_vkQueuePresentKHR (H := externals) 1 pi s
                 = (VK_ERROR_DEVICE_LOST, pResults pi,
                    (submit_wait_request (H := externals) 1 pi true s).2))
    by reflexivity.
  rewrite Hout in Hall. destruct Hall as (ps & rs & _ & Hlrs & _ & Hcalls & _).
  destruct rs as [|r rs]; [discriminate Hlrs | discriminate Hcalls].
Qed.

(** Two swapchains presented with a [VkPresentIdKHR] that counts three, in
    a world that remembers the parameters of its presents: the ids are not
    used. *)
Lemma present_parameters_witness :
  let pi := Recording.two_presents in
  let s := Recording.nothing_presented in
  let got :=
    Recording.received
      (world (wsi_layer_vkQueuePresentKHR (H := Recording.present_externals) 1 pi s).2) in
  (layer_owns_all_swapchains (LayerExternals := Recording.present_externals) (world s)
     (take (Z.to_nat (swapchainCount pi)) (pSwapchains pi)) = true
   ∧ wait_result (H := Recording.present_externals) 1 pi s = VK_SUCCESS)
  ∧ (λ p, image_index (pending_present p)) <$> got = [4; 5]
  ∧ use_image_present_semaphore <$> got = [true; true]
  ∧ (λ p, present_id (pending_present p)) <$> got = [0; 0].
Proof.
  intros pi s got.
  destruct (present_parameters (H := Recording.present_externals) 1 pi s
              eq_refl eq_refl eq_refl eq_refl)
    as (ps & Hlen & Hworld & _ & _ & Hidx & Huse & _ & Hmismatch & _).
  assert (Egot : got = ps).
  { subst got. rewrite <- Hworld.
    destruct ps as [|p1 [|p2 [|p3 ps]]]; try discriminate Hlen. reflexivity. }
  rewrite Egot.
  split; [split; reflexivity|].
  split; [exact Hidx|]. split; [exact Huse|].
  apply (Hmismatch 3 (Some [41; 42; 43]) eq_refl). left. discriminate.
Defined.

(** A present of two swapchains with no frame boundary, then of one, in a
    world that remembers the parameters of its presents. *)
Lemma frame_boundary_flag_witness :
  let s := Recording.nothing_presented in
  let flags (pi : VkPresentInfoKHR) :=
    handle_present_frame_boundary_event
      <$> Recording.received
            (world (wsi_layer_vkQueuePresentKHR (H := Recording.present_externals) 1 pi s).2) in
  (layer_owns_all_swapchains (LayerExternals := Recording.present_externals) (world s)
     (take (Z.to_nat (swapchainCount (present_of [10; 12]))) (pSwapchains (present_of [10; 12])))
   = true
   ∧ wait_result (H := Recording.present_externals) 1 (present_of [10; 12]) s = VK_SUCCESS)
  ∧ flags (present_of [10; 12]) = [false; false]
  ∧ flags (present_of [10]) = [true].
Proof.
  intros s flags.
  destruct (frame_boundary_flag (H := Recording.present_externals) 1 (present_of [10; 12]) s
              eq_refl eq_refl eq_refl)
    as (ps & Hlen & Hworld & _ & _ & Hflags).
  destruct (frame_boundary_flag (H := Recording.present_externals) 1 (present_of [10]) s
              eq_refl eq_refl eq_refl)
    as (ps1 & Hlen1 & Hworld1 & _ & _ & Hflags1).
  split; [split; reflexivity|]. split.
  - subst flags. cbv beta. rewrite <- Hworld.
    destruct ps as [|p1 [|p2 [|p3 ps]]]; try discriminate Hlen. exact Hflags.
  - subst flags. cbv beta. rewrite <- Hworld1.
    destruct ps1 as [|p1 [|p2 ps1]]; try discriminate Hlen1. exact Hflags1.
Defined.



Example three_swapchains_second_fails :
  (wsi_layer_vkQueuePresentKHR (H := externals) 1 (present_of [10; 11; 12])
     (start (a_world true VK_SUCCESS))).1
  = (VK_ERROR_SURFACE_LOST_KHR, Some [VK_SUCCESS; VK_ERROR_SURFACE_LOST_KHR; VK_SUCCESS]).
Proof. reflexivity. Qed.


Lemma failed_batch_wait_presents_nothing_witness :
  let pi := present_of [10; 12] in
  let s := start (a_world true VK_ERROR_DEVICE_LOST) in
  (1 < swapchainCount pi < 2 ^ 32
   ∧ (submit_wait_request (H := externals) 1 pi true s).1.1 ≠ VK_SUCCESS)
  ∧ (wsi_layer_vkQueuePresentKHR (H := externals) 1 pi s
     = ((submit_wait_request (H := externals) 1 pi true s).1.1, pResults pi,
        (submit_wait_request (H := externals) 1 pi true s).2)
     ∧ queue_present_calls (calls (submit_wait_request (H := externals) 1 pi true s).2)
       = queue_present_calls (calls s)).
Proof.
  intros pi s.
  assert (Hk : 1 < swapchainCount pi < 2 ^ 32) by (simpl; lia).
  assert (Hfail : (submit_wait_request (H := externals) 1 pi true s).1.1 ≠ VK_SUCCESS)
    by (vm_compute; discriminate).
  split; [split; assumption|].
  apply (failed_batch_wait_presents_nothing (H := externals) 1 pi s eq_refl Hk eq_refl eq_refl).
  exact Hfail.
Defined.


(* ===================================================================== *)
(** * Swapchain creation *)
(* ===================================================================== *)

Lemma destroy_calls_app (l1 l2 : list call) :
  destroy_calls (l1 ++ l2) = destroy_calls l1 ++ destroy_calls l2.
Proof.
  induction l1 as [|c l1 IH]; simpl; [reflexivity|].
  destruct c; simpl; rewrite ?IH; reflexivity.
Qed.

Lemma add_layer_swapchain_calls_app (l1 l2 : list call) :
  add_layer_swapchain_calls (l1 ++ l2)
  = add_layer_swapchain_calls l1 ++ add_layer_swapchain_calls l2.
Proof.
  induction l1 as [|c l1 IH]; simpl; [reflexivity|].
  destruct c; simpl; rewrite ?IH; reflexivity.
Qed.

(** C5.  Whatever present mode the application's create info asks for, when
    the layer creates the swapchain [init] itself is applied, on the object
    the layer allocated and in the world the allocation left, to the
    application's create info with the present mode replaced by
    [VK_PRESENT_MODE_FIFO_KHR]: when that call fails the entrypoint returns
    its result, and otherwise it goes on from the world that call left; and
    the outcome is the same for every present mode the application may ask
    for.  The log records this [init] call and no other.  When the call
    succeeds, the handle returned is that of the object so initialised. *)
Theorem swapchain_initialised_with_fifo {World : Type} `{LayerExternals World}
    (device : VkDevice) (ci : VkSwapchainCreateInfoKHR) (pSwapchain : VkSwapchainKHR)
    (s : state) :
  let fifo_ci := with_present_mode VK_PRESENT_MODE_FIFO_KHR ci in
  let '(ret, handle, after) := wsi_layer_vkCreateSwapchainKHR device ci pSwapchain s in
  init_calls (calls after)
  = init_calls (calls s)
    ++ (if should_layer_create_swapchain (world s) (surface ci)
        then match (allocate_surface_swapchain (world s) (surface ci)).1 with
             | Some sc => [(sc, fifo_ci)]
             | None => []
             end
        else [])
  ∧ (should_layer_create_swapchain (world s) (surface ci) = true →
     ret = VK_SUCCESS →
     (allocate_surface_swapchain (world s) (surface ci)).1 = Some handle)
  ∧ (should_layer_create_swapchain (world s) (surface ci) = true →
     ∀ (sc : VkSwapchainKHR) (w1 : World),
       allocate_surface_swapchain (world s) (surface ci) = (Some sc, w1) →
       let initialised := init w1 sc device fifo_ci in
       let registered := add_layer_swapchain initialised.2 sc in
       (initialised.1 ≠ VK_SUCCESS →
        ret = initialised.1
        ∧ world after = destroy_swapchain_object initialised.2 sc)
       ∧ (initialised.1 = VK_SUCCESS →
          ret = registered.1
          ∧ world after
            = (if registered.1 =? VK_SUCCESS then registered.2
               else destroy_swapchain_object registered.2 sc)))
  ∧ (should_layer_create_swapchain (world s) (surface ci) = true →
     ∀ mode : VkPresentModeKHR,
       wsi_layer_vkCreateSwapchainKHR device (with_present_mode mode ci) pSwapchain s
       = (ret, handle, after)).
Proof.
  intros fifo_ci. subst fifo_ci.
  assert (Hmode : should_layer_create_swapchain (world s) (surface ci) = true →
            ∀ mode : VkPresentModeKHR,
              wsi_layer_vkCreateSwapchainKHR device (with_present_mode mode ci) pSwapchain s
              = wsi_layer_vkCreateSwapchainKHR device ci pSwapchain s).
  { intros Hlayer mode. unfold wsi_layer_vkCreateSwapchainKHR. simpl.
    rewrite Hlayer. reflexivity. }
  revert Hmode.
  unfold wsi_layer_vkCreateSwapchainKHR at 2 3. unfold TRY, destroyed.
  destruct (should_layer_create_swapchain (world s) (surface ci)) eqn:Hlayer; simpl.
  - destruct (allocate_surface_swapchain (world s) (surface ci)) as [[sc|] w] eqn:Halloc; simpl.
    + fold (with_present_mode VK_PRESENT_MODE_FIFO_KHR ci).
      destruct (init w sc device (with_present_mode VK_PRESENT_MODE_FIFO_KHR ci))
        as [r_init w1] eqn:Hinit. simpl.
      destruct (Z.eqb_spec r_init VK_SUCCESS) as [Hr|Hr]; simpl.
      * destruct (add_layer_swapchain w1 sc) as [r_add w2] eqn:Hadd. simpl.
        destruct (Z.eqb_spec r_add VK_SUCCESS) as [Ha|Ha]; simpl; intros Hmode.
        -- split; [rewrite !init_calls_app; simpl; rewrite !app_nil_r; reflexivity|].
           split; [auto|]. split; [|exact Hmode].
           intros _ sc' w' Heq. injection Heq as <- <-. rewrite Hinit. simpl.
           rewrite Hadd. simpl. split; [intros Hne; contradiction|]. intros _.
           destruct (Z.eqb_spec r_add VK_SUCCESS) as [_|Hne]; [|contradiction].
           split; [symmetry; exact Ha | reflexivity].
        -- split; [rewrite !init_calls_app; simpl; rewrite !app_nil_r; reflexivity|].
           split; [intros _ Hret; contradiction|]. split; [|exact Hmode].
           intros _ sc' w' Heq. injection Heq as <- <-. rewrite Hinit. simpl.
           rewrite Hadd. simpl. split; [intros Hne; contradiction|]. intros _.
           destruct (Z.eqb_spec r_add VK_SUCCESS) as [Heq|_]; [contradiction|].
           split; reflexivity.
      * intros Hmode.
        split; [rewrite !init_calls_app; simpl; rewrite !app_nil_r; reflexivity|].
        split; [intros _ Hret; contradiction|]. split; [|exact Hmode].
        intros _ sc' w' Heq. injection Heq as <- <-. rewrite Hinit. simpl.
        split; [intros _; split; reflexivity | intros Heq; contradiction].
    + intros Hmode.
      split; [rewrite init_calls_app; simpl; rewrite !app_nil_r; reflexivity|].
      split; [intros _ Hret; discriminate Hret|]. split; [|exact Hmode].
      intros _ sc' w' Heq. discriminate Heq.
  - destruct (can_icds_create_swapchain (world s) (surface ci)); simpl.
    + destruct (disp_CreateSwapchainKHR (world s) ci pSwapchain) as [[r h] w]. simpl.
      intros _.
      split; [rewrite init_calls_app; simpl; rewrite !app_nil_r; reflexivity|].
      split; [discriminate|]. split; discriminate.
    + intros _. split; [rewrite app_nil_r; reflexivity|].
      split; [discriminate|]. split; discriminate.
Qed.

(** An application asking for MAILBOX on a surface the layer handles, in a
    world that remembers the present mode given to [init]. *)
Lemma swapchain_initialised_with_fifo_witness :
  let ci := create_info VK_PRESENT_MODE_MAILBOX_KHR in
  let s : state (World := Recording.object_world) :=
    {| world := Recording.a_world VK_SUCCESS VK_SUCCESS; calls := [] |} in
  let out := wsi_layer_vkCreateSwapchainKHR (H := Recording.externals) 1 ci VK_NULL_HANDLE s in
  (should_layer_create_swapchain (LayerExternals := Recording.externals) (world s) (surface ci)
   = true
   ∧ out.1.1 = VK_SUCCESS)
  ∧ init_calls (calls out.2) = [(10, create_info VK_PRESENT_MODE_FIFO_KHR)]
  ∧ Recording.ow_initialised (world out.2) = [(10, VK_PRESENT_MODE_FIFO_KHR)]
  ∧ (allocate_surface_swapchain (LayerExternals := Recording.externals) (world s) (surface ci)).1
    = Some out.1.2.
Proof.
  intros ci s out.
  pose proof (swapchain_initialised_with_fifo (H := Recording.externals) 1 ci VK_NULL_HANDLE s)
    as Hc.
  cbv zeta in Hc. fold out in Hc. destruct out as [[ret handle] after] eqn:Hout.
  destruct Hc as (Hinits & Hhandle & Hworld & _).
  assert (Hret : ret = VK_SUCCESS).
  { apply (f_equal (λ o, o.1.1)) in Hout. simpl in Hout. rewrite <- Hout. reflexivity. }
  split; [split; [reflexivity | exact Hret]|].
  split; [exact Hinits|].
  split; [|exact (Hhandle eq_refl Hret)].
  destruct (Hworld eq_refl 10 (world s) eq_refl) as [_ Hok].
  destruct (Hok eq_refl) as [_ Hw]. simpl. rewrite Hw. reflexivity.
Defined.

(** X12.  When the layer creates the swapchain, the object it allocates is
    either handed to the application or destroyed, never both and never
    neither.  On [VK_SUCCESS] the handle returned is the object, and the
    world is the one in which [add_layer_swapchain] left it: it has been
    initialised and registered and [destroy_swapchain_object] has not been
    applied.  On any other result the caller's handle is left as it was and
    the world is the one left by the step that failed with
    [destroy_swapchain_object] applied to the object, once.  When the
    allocation itself fails the result is [VK_ERROR_OUT_OF_HOST_MEMORY] and
    the world is the one the allocation left.  The log records the same. *)
Theorem swapchain_object_returned_or_destroyed {World : Type} `{LayerExternals World}
    (device : VkDevice) (ci : VkSwapchainCreateInfoKHR) (pSwapchain : VkSwapchainKHR)
    (s : state) :
  should_layer_create_swapchain (world s) (surface ci) = true →
  let allocated := allocate_surface_swapchain (world s) (surface ci) in
  let '(ret, handle, after) := wsi_layer_vkCreateSwapchainKHR device ci pSwapchain s in
  ∃ added : list call,
    calls after = calls s ++ added
    ∧ match allocated.1 with
      | None =>
          ret = VK_ERROR_OUT_OF_HOST_MEMORY ∧ handle = pSwapchain
          ∧ world after = allocated.2
          ∧ init_calls added = [] ∧ add_layer_swapchain_calls added = []
          ∧ destroy_calls added = []
      | Some sc =>
          let initialised :=
            init allocated.2 sc device (with_present_mode VK_PRESENT_MODE_FIFO_KHR ci) in
          let registered := add_layer_swapchain initialised.2 sc in
          (ret = VK_SUCCESS →
           initialised.1 = VK_SUCCESS ∧ registered.1 = VK_SUCCESS
           ∧ handle = sc ∧ world after = registered.2
           ∧ destroy_calls added = []
           ∧ add_layer_swapchain_calls added = [(sc, VK_SUCCESS)])
          ∧ (ret ≠ VK_SUCCESS →
             handle = pSwapchain
             ∧ world after
               = destroy_swapchain_object
                   (if initialised.1 =? VK_SUCCESS then registered.2 else initialised.2) sc
             ∧ destroy_calls added = [sc])
      end.
Proof.
  intros Hlayer allocated. subst allocated.
  unfold wsi_layer_vkCreateSwapchainKHR, TRY, destroyed.
  rewrite Hlayer. simpl.
  destruct (allocate_surface_swapchain (world s) (surface ci)) as [[sc|] w]; simpl.
  - fold (with_present_mode VK_PRESENT_MODE_FIFO_KHR ci).
    destruct (init w sc device (with_present_mode VK_PRESENT_MODE_FIFO_KHR ci))
      as [r_init w1]. simpl.
    destruct (Z.eqb_spec r_init VK_SUCCESS) as [Hr|Hr]; simpl.
    + destruct (add_layer_swapchain w1 sc) as [r_add w2]. simpl.
      destruct (Z.eqb_spec r_add VK_SUCCESS) as [Ha|Ha]; simpl.
      * eexists. rewrite <- !app_assoc. split; [reflexivity|]. simpl.
        split; [|intros Hne; contradiction]. intros _. rewrite Ha. auto 10.
      * eexists. rewrite <- !app_assoc. split; [reflexivity|]. simpl.
        split; [intros Heq; contradiction|]. auto.
    + eexists. rewrite <- !app_assoc. split; [reflexivity|]. simpl.
      split; [intros Heq; contradiction|]. auto.
  - eexists. split; [reflexivity|]. simpl. auto 10.
Qed.

(** A swapchain object whose registration with the layer fails, in a world
    that remembers what is done to the objects: it is initialised,
    registered (in vain) and destroyed, once. *)
Lemma swapchain_object_returned_or_destroyed_witness :
  let ci := create_info VK_PRESENT_MODE_MAILBOX_KHR in
  let s : state (World := Recording.object_world) :=
    {| world := Recording.a_world VK_SUCCESS VK_ERROR_OUT_OF_HOST_MEMORY; calls := [] |} in
  let out := wsi_layer_vkCreateSwapchainKHR (H := Recording.externals) 1 ci 77 s in
  should_layer_create_swapchain (LayerExternals := Recording.externals)
    (world s) (surface ci) = true
  ∧ out.1.1 = VK_ERROR_OUT_OF_HOST_MEMORY
  ∧ out.1.2 = 77
  ∧ Recording.ow_destroyed (world out.2) = [10]
  ∧ destroy_calls (calls out.2) = [10].
Proof.
  intros ci s out.
  pose proof (swapchain_object_returned_or_destroyed
                (H := Recording.externals) 1 ci 77 s eq_refl) as Hc.
  cbv zeta in Hc. fold out in Hc. destruct out as [[ret handle] after] eqn:Hout.
  destruct Hc as (added & Hcalls & Hcase). simpl in Hcase.
  assert (Hret : ret = VK_ERROR_OUT_OF_HOST_MEMORY).
  { apply (f_equal (λ o, o.1.1)) in Hout. simpl in Hout. rewrite <- Hout. reflexivity. }
  destruct Hcase as [_ Hfail].
  destruct Hfail as (Hhandle & Hworld & Hdestroy); [rewrite Hret; discriminate|].
  split; [reflexivity|]. split; [exact Hret|]. split; [exact Hhandle|].
  split; [simpl; rewrite Hworld; reflexivity|].
  simpl. rewrite Hcalls. simpl. exact Hdestroy.
Defined.

(* ===================================================================== *)
(** * Batch binding *)
(* ===================================================================== *)

(** C2, on the batch of three bindings of the design document, each with a
    status structure and the maintenance extension enabled: the second entry
    targets an image that was never acquired.  The entrypoint returns at that
    entry with the error of [is_bind_allowed]: the first entry is bound and
    its status stored, the status of the second entry is not stored, and the
    third entry is not attempted at all (the log ends with the refused
    [is_bind_allowed]; nothing is bound for image 23; its status is not
    stored). *)
Theorem bind_batch_stops_at_unacquired_image :
  let '(ret, status, after) :=
    wsi_layer_vkBindImageMemory2 (H := externals) 1 3 three_binds ∅
      (start (a_world true VK_SUCCESS)) in
  ret = VK_ERROR_OUT_OF_HOST_MEMORY
  ∧ status !! 0%nat = Some VK_SUCCESS
  ∧ status !! 1%nat = None
  ∧ status !! 2%nat = None
  ∧ calls after
    = [ call_is_bind_allowed 10 0 VK_SUCCESS;
        call_bind_swapchain_image 10 (bind_of 10 0 21 0) VK_SUCCESS;
        call_is_bind_allowed 10 1 VK_ERROR_OUT_OF_HOST_MEMORY ]
  ∧ tw_bound (world after) = [21].
Proof. vm_compute. repeat split. Qed.

(** With the same three entries in another order, the unacquired image last,
    both other entries are bound. *)
Example bind_batch_unacquired_image_last :
  let '(ret, status, after) :=
    wsi_layer_vkBindImageMemory2 (H := externals) 1 3 three_binds_bad_last ∅
      (start (a_world true VK_SUCCESS)) in
  ret = VK_ERROR_OUT_OF_HOST_MEMORY
  ∧ status !! 0%nat = Some VK_SUCCESS
  ∧ status !! 2%nat = Some VK_SUCCESS
  ∧ status !! 1%nat = None
  ∧ tw_bound (world after) = [21; 23].
Proof. vm_compute. repeat split. Qed.

Lemma bind_attempts_app (l1 l2 : list call) :
  bind_attempts (l1 ++ l2) = bind_attempts l1 ++ bind_attempts l2.
Proof.
  induction l1 as [|c l1 IH]; simpl; [reflexivity|].
  destruct c; simpl; rewrite ?IH; reflexivity.
Qed.

Lemma for_loop_flow_split {R St : Type} (body : nat → St → flow R St) (a b : nat) :
  ∀ (from : nat) (s : St),
    for_loop_flow (a + b) from body s
    = match for_loop_flow a from body s with
      | Return r => Return r
      | Next s' => for_loop_flow b (from + a) body s'
      end.
Proof.
  induction a as [|a IH]; intros from s; simpl.
  - rewrite Nat.add_0_r. reflexivity.
  - destruct (body from s) as [r|s']; [reflexivity|].
    rewrite IH. replace (S from + a)%nat with (from + S a)%nat by lia. reflexivity.
Qed.

Section Bind.
Context {World : Type} `{LayerExternals World}.
Variables (device : VkDevice) (pBindInfos : list VkBindImageMemoryInfo).

(** X16.  The general form of the return at a refused entry.  When the loop
    reaches entry [i] and that entry targets an image of a swapchain of the
    layer on which [is_bind_allowed] answers an error, the entrypoint
    returns that error: the status memory is as the entries before [i] left
    it, and the last call is the refused [is_bind_allowed], whatever
    entries follow. *)
Lemma bind_batch_returns_at_refused_entry (bindInfoCount : Z)
    (status : gmap nat VkResult) (s : state) (i : nat) (li : bind_loop_state)
    (info : VkBindImageMemoryInfo) (sc : VkSwapchainKHR) (idx : Z) :
  let maintenance_6 := is_maintenance_6_enabled (world s) in
  (i < Z.to_nat bindInfoCount)%nat →
  for_loop_flow i 0 (bind_body device maintenance_6 pBindInfos)
    {| bl_endpoint_result := VK_SUCCESS; bl_status := status; bl_state := s |} = Next li →
  pBindInfos !! i = Some info →
  bind_sc_info_of (bind_pNext info) = Some (sc, idx) →
  sc ≠ VK_NULL_HANDLE →
  layer_owns_swapchain (world (bl_state li)) sc = true →
  is_bind_allowed (world (bl_state li)) sc idx ≠ VK_SUCCESS →
  wsi_layer_vkBindImageMemory2 device bindInfoCount pBindInfos status s
  = (is_bind_allowed (world (bl_state li)) sc idx,
     bl_status li,
     logged (world (bl_state li))
       (call_is_bind_allowed sc idx (is_bind_allowed (world (bl_state li)) sc idx))
       (bl_state li)).
Proof.
  intros m6 Hi Hreach Hinfo Hsc Hnull Howns Hrefused.
  assert (Hbody : bind_body device m6 pBindInfos i li
                  = Return {| bl_endpoint_result := is_bind_allowed (world (bl_state li)) sc idx;
                              bl_status := bl_status li;
                              bl_state :=
                                logged (world (bl_state li))
                                  (call_is_bind_allowed sc idx
                                     (is_bind_allowed (world (bl_state li)) sc idx))
                                  (bl_state li) |}).
  { unfold bind_body. rewrite Hinfo, Hsc.
    destruct (Z.eqb_spec sc VK_NULL_HANDLE) as [Heq|_]; [contradiction|].
    rewrite Howns. simpl. unfold TRY.
    destruct (Z.eqb_spec (is_bind_allowed (world (bl_state li)) sc idx) VK_SUCCESS)
      as [Heq|_]; [contradiction|].
    reflexivity. }
  unfold wsi_layer_vkBindImageMemory2. fold m6.
  replace (Z.to_nat bindInfoCount) with (i + S (Z.to_nat bindInfoCount - S i))%nat by lia.
  rewrite for_loop_flow_split, Hreach. simpl.
  rewrite Hbody. reflexivity.
Qed.

(** One round of the bind loop on an entry that is not refused: the
    binding itself is applied, by the swapchain or by the ICD, and the round
    keeps its result and its world. *)
Lemma bind_body_round (maintenance_6 : bool) (i : nat) (info : VkBindImageMemoryInfo)
    (l : bind_loop_state) :
  pBindInfos !! i = Some info →
  bind_refused (world (bl_state l)) info = false →
  ∃ s' : state,
    bind_body device maintenance_6 pBindInfos i l
    = Next (bind_record maintenance_6 info (bind_one device (world (bl_state l)) info).1 s' l)
    ∧ world s' = (bind_one device (world (bl_state l)) info).2
    ∧ bind_attempts (calls s')
      = bind_attempts (calls (bl_state l))
        ++ [(info, (bind_one device (world (bl_state l)) info).1)].
Proof.
  intros Hinfo Hallowed.
  unfold bind_body. rewrite Hinfo.
  unfold bind_refused, bind_one, bind_is_for_swapchain in *.
  assert (Hicd : ∃ s' : state,
            bind_through_icd device maintenance_6 info l
            = bind_record maintenance_6 info
                (disp_BindImageMemory2KHR (world (bl_state l)) device info).1 s' l
            ∧ world s' = (disp_BindImageMemory2KHR (world (bl_state l)) device info).2
            ∧ bind_attempts (calls s')
              = bind_attempts (calls (bl_state l))
                ++ [(info, (disp_BindImageMemory2KHR (world (bl_state l)) device info).1)]).
  { unfold bind_through_icd.
    destruct (disp_BindImageMemory2KHR (world (bl_state l)) device info) as [result w].
    eexists. split; [reflexivity|]. simpl. rewrite bind_attempts_app. auto. }
  destruct (bind_sc_info_of (bind_pNext info)) as [[sc idx]|].
  - destruct (sc =? VK_NULL_HANDLE); simpl in *.
    + destruct Hicd as (s' & -> & Hw & Hatt). eauto.
    + destruct (layer_owns_swapchain (world (bl_state l)) sc); simpl in *.
      * apply negb_false_iff in Hallowed. unfold TRY. rewrite Hallowed. simpl.
        destruct (bind_swapchain_image (world (bl_state l)) sc device info) as [result w].
        eexists. split; [reflexivity|]. simpl.
        rewrite !bind_attempts_app. simpl. rewrite app_nil_r. auto.
      * destruct Hicd as (s' & -> & Hw & Hatt). eauto.
  - destruct Hicd as (s' & -> & Hw & Hatt). eauto.
Qed.

Lemma bind_each_cons (info : VkBindImageMemoryInfo) (rest : list VkBindImageMemoryInfo)
    (w : World) :
  bind_each device (info :: rest) w
  = ((bind_one device w info).1 :: (bind_each device rest (bind_one device w info).2).1,
     (bind_each device rest (bind_one device w info).2).2).
Proof.
  simpl. destruct (bind_one device w info) as [r w1]. simpl.
  destruct (bind_each device rest w1) as [rs w2]. reflexivity.
Qed.

(** What the loop does when no entry is refused in the world the entries
    before it left: every entry is bound, in order; the status of each is
    stored when the maintenance extension is enabled and the entry carries
    a status structure; the result is the last failure. *)
Lemma bind_loop_run (maintenance_6 : bool) :
  ∀ (n from : nat) (l : bind_loop_state),
    (from + n ≤ length pBindInfos)%nat →
    (∀ (j : nat) (info : VkBindImageMemoryInfo),
       (j < n)%nat → pBindInfos !! (from + j)%nat = Some info →
       bind_refused
         (bind_each device (take j (drop from pBindInfos)) (world (bl_state l))).2 info
       = false) →
    let entries := take n (drop from pBindInfos) in
    let run := bind_each device entries (world (bl_state l)) in
    ∃ l' : bind_loop_state,
      for_loop_flow n from (bind_body device maintenance_6 pBindInfos) l = Next l'
      ∧ length run.1 = n
      ∧ world (bl_state l') = run.2
      ∧ bind_attempts (calls (bl_state l'))
        = bind_attempts (calls (bl_state l)) ++ zip entries run.1
      ∧ bl_endpoint_result l' = last_failure (bl_endpoint_result l) run.1
      ∧ bl_status l' = fold_left (record_status maintenance_6) (zip entries run.1) (bl_status l).
Proof.
  induction n as [|n IH]; intros from l Hlen Hallowed; cbv zeta.
  - exists l. simpl. rewrite app_nil_r. auto 10.
  - destruct (lookup_lt_is_Some_2 pBindInfos from) as [info Hinfo]; [lia|].
    assert (Hfirst : bind_refused (world (bl_state l)) info = false).
    { apply (Hallowed 0%nat info); [lia|]. rewrite Nat.add_0_r. exact Hinfo. }
    destruct (bind_body_round maintenance_6 from info l Hinfo Hfirst)
      as (s' & Hbody & Hworld & Hattempts).
    set (r := (bind_one device (world (bl_state l)) info).1) in *.
    destruct (IH (S from) (bind_record maintenance_6 info r s' l)) as
      (l' & Hloop & Hrs & Hw & Hatt & Hend & Hstat); [lia| |].
    { intros j info' Hj Hinfo'. simpl. rewrite Hworld.
      specialize (Hallowed (S j) info').
      rewrite (drop_S _ _ _ Hinfo), firstn_cons, bind_each_cons in Hallowed.
      cbn [fst snd] in Hallowed.
      apply Hallowed; [lia|]. rewrite <- Hinfo'. f_equal. lia. }
    simpl in Hrs, Hw, Hatt, Hend, Hstat. rewrite Hworld in Hrs, Hw, Hatt, Hend, Hstat.
    exists l'. simpl. rewrite Hbody.
    rewrite (drop_S _ _ _ Hinfo), firstn_cons, bind_each_cons. fold r.
    cbn [fst snd length zip zip_with fold_left].
    split; [exact Hloop|]. split; [f_equal; exact Hrs|]. split; [exact Hw|].
    split.
    { rewrite Hatt. rewrite Hattempts, <- app_assoc. reflexivity. }
    split.
    { rewrite Hend. unfold last_failure. simpl.
      destruct (r =? VK_SUCCESS); reflexivity. }
    rewrite Hstat. reflexivity.
Qed.

(** X15.  When no entry of the batch is refused (each entry that targets an
    image of a swapchain of the layer is allowed by [is_bind_allowed] in the
    world the entries before it left), the entrypoint binds every entry of
    the batch once, in order, by the swapchain or by the ICD, failures
    included, each binding in the world the one before left; it stores the
    result of each entry that carries a status structure when the
    maintenance extension is enabled; and it returns the last result that is
    not [VK_SUCCESS], or [VK_SUCCESS]. *)
Lemma bind_batch_complete_when_allowed (bindInfoCount : Z)
    (status : gmap nat VkResult) (s : state) :
  (∀ (i : nat) (info : VkBindImageMemoryInfo),
     pBindInfos !! i = Some info →
     bind_refused (bind_each device (take i pBindInfos) (world s)).2 info = false) →
  length pBindInfos = Z.to_nat bindInfoCount →
  let run := bind_each device pBindInfos (world s) in
  let '(ret, status', after) :=
    wsi_layer_vkBindImageMemory2 device bindInfoCount pBindInfos status s in
  length run.1 = Z.to_nat bindInfoCount
  ∧ world after = run.2
  ∧ bind_attempts (calls after) = bind_attempts (calls s) ++ zip pBindInfos run.1
  ∧ ret = last_failure VK_SUCCESS run.1
  ∧ status' = fold_left (record_status (is_maintenance_6_enabled (world s)))
                (zip pBindInfos run.1) status.
Proof.
  intros Hallowed Hlen run. subst run. unfold wsi_layer_vkBindImageMemory2.
  destruct (bind_loop_run (is_maintenance_6_enabled (world s))
              (Z.to_nat bindInfoCount) 0
              {| bl_endpoint_result := VK_SUCCESS; bl_status := status; bl_state := s |})
    as (l' & Hloop & Hrs & Hw & Hatt & Hend & Hstat); [simpl; lia| |].
  { intros j info _ Hinfo. simpl in *. rewrite drop_0. apply Hallowed. exact Hinfo. }
  rewrite Hloop. simpl in *.
  rewrite drop_0, <- Hlen, firstn_all in Hrs, Hw, Hatt, Hend, Hstat.
  split; [rewrite Hrs; exact Hlen|]. auto.
Qed.
End Bind.

(** A batch of three none of which is refused, on the layer of the design
    document's examples: the first and the third are bound by their
    swapchains, the second is the ICD's and fails; all three are attempted
    and the result is that of the second. *)
Lemma bind_batch_complete_when_allowed_witness :
  let infos := Recording.allowed_binds in
  let s := start (a_world true VK_SUCCESS) in
  let out := wsi_layer_vkBindImageMemory2 (H := externals) 1 3 infos ∅ s in
  ((∀ (i : nat) (info : VkBindImageMemoryInfo),
      infos !! i = Some info →
      bind_refused (H := externals)
        (bind_each (H := externals) 1 (take i infos) (world s)).2 info = false)
   ∧ length infos = Z.to_nat 3)
  ∧ tw_bound (world out.2) = [21; 23]
  ∧ out.1.1 = VK_ERROR_OUT_OF_DEVICE_MEMORY
  ∧ out.1.2 !! 0%nat = Some VK_SUCCESS
  ∧ out.1.2 !! 1%nat = Some VK_ERROR_OUT_OF_DEVICE_MEMORY
  ∧ out.1.2 !! 2%nat = Some VK_SUCCESS.
Proof.
  intros infos s out.
  assert (Hallowed : ∀ (i : nat) (info : VkBindImageMemoryInfo),
            infos !! i = Some info →
            bind_refused (H := externals)
              (bind_each (H := externals) 1 (take i infos) (world s)).2 info = false).
  { intros i info Hi. destruct i as [|[|[|i]]]; simpl in Hi; [| | |discriminate Hi];
      injection Hi as <-; reflexivity. }
  pose proof (bind_batch_complete_when_allowed (H := externals) 1 infos 3 ∅ s
                Hallowed eq_refl) as Hc.
  cbv zeta in Hc. fold out in Hc. destruct out as [[ret status'] after].
  destruct Hc as (_ & Hworld & _ & Hret & Hstatus).
  split; [split; [exact Hallowed | reflexivity]|]. simpl.
  rewrite Hworld, Hret, Hstatus.
  split; [reflexivity|]. split; [reflexivity|].
  split; [reflexivity|]. split; reflexivity.
Defined.


(* ===================================================================== *)
(** * The two-call idiom *)
(* ===================================================================== *)

(** X1.  The usual way to enumerate: a first call with a null array to learn
    the count, then a call with an array of that many elements.  The second
    call returns [VK_SUCCESS], leaves the count as it is, and fills the array
    with all the present modes (all the surface formats), in order. *)
Theorem two_call_enumeration
    (fill : surface_format_properties → VkSurfaceFormat2KHR → VkSurfaceFormat2KHR)
    (modes : list VkPresentModeKHR) (its : list surface_format_properties)
    (any_count : Z) (pm : list VkPresentModeKHR) (sf : list VkSurfaceFormatKHR) :
  Z.of_nat (length modes) < 2 ^ 32 →
  Z.of_nat (length its) < 2 ^ 32 →
  let n_modes := enum_count (get_surface_present_modes_common any_count None modes) in
  let n_formats :=
    enum_count (surface_properties_formats_helper fill its any_count
                  {| surface_formats := None; extended_surface_formats := None |}) in
  length pm = Z.to_nat n_modes →
  length sf = Z.to_nat n_formats →
  get_surface_present_modes_common n_modes (Some pm) modes
  = {| enum_result := VK_SUCCESS; enum_count := n_modes; enum_out := Some modes |}
  ∧ surface_properties_formats_helper fill its n_formats
      {| surface_formats := Some sf; extended_surface_formats := None |}
    = {| enum_result := VK_SUCCESS; enum_count := n_formats;
         enum_out := {| surface_formats := Some (m_surface_format <$> its);
                        extended_surface_formats := None |} |}.
Proof.
  intros Hmodes Hits n_modes n_formats Hpm Hsf.
  assert (En : n_modes = Z.of_nat (length modes)).
  { subst n_modes. simpl. apply wrap32_small. lia. }
  assert (Ef : n_formats = Z.of_nat (length its)).
  { subst n_formats. simpl. apply wrap32_small. lia. }
  rewrite En in *. rewrite Ef in *. clear En Ef n_modes n_formats.
  rewrite Nat2Z.id in Hpm, Hsf.
  split.
  - unfold get_surface_present_modes_common.
    rewrite wrap32_small by lia.
    rewrite gtb_false by lia. rewrite Z.min_id, Nat2Z.id.
    rewrite present_modes_written by lia.
    rewrite take_ge, drop_ge by lia. rewrite app_nil_r. reflexivity.
  - unfold surface_properties_formats_helper. simpl.
    rewrite wrap32_small by lia.
    rewrite gtb_false by lia. rewrite Z.min_id.
    rewrite formats_written_plain by lia. rewrite Nat2Z.id.
    rewrite overwrite_map by lia.
    rewrite take_ge, drop_ge by lia. rewrite app_nil_r. reflexivity.
Qed.

Lemma two_call_enumeration_witness :
  let modes := [VK_PRESENT_MODE_FIFO_KHR; VK_PRESENT_MODE_MAILBOX_KHR] in
  let its := X11.build_formats X11.support_formats in
  (Z.of_nat (length modes) < 2 ^ 32 ∧ Z.of_nat (length its) < 2 ^ 32)
  ∧ get_surface_present_modes_common 2 (Some [7; 7]) modes
    = {| enum_result := VK_SUCCESS; enum_count := 2; enum_out := Some modes |}
  ∧ surface_properties_formats_helper
      (fill_format_properties (WsiExternals := Examples.wsi_externals)) its 5
      {| surface_formats := Some (replicate 5 Examples.blank_format);
         extended_surface_formats := None |}
    = {| enum_result := VK_SUCCESS; enum_count := 5;
         enum_out := {| surface_formats := Some (m_surface_format <$> its);
                        extended_surface_formats := None |} |}.
Proof.
  intros modes its.
  assert (H1 : Z.of_nat (length modes) < 2 ^ 32) by (simpl; lia).
  assert (H2 : Z.of_nat (length its) < 2 ^ 32) by (simpl; lia).
  split; [split; assumption|].
  exact (two_call_enumeration
           (fill_format_properties (WsiExternals := Examples.wsi_externals))
           modes its 0 [7; 7] (replicate 5 Examples.blank_format) H1 H2 eq_refl eq_refl).
Defined.

(* ===================================================================== *)
(** * The format map of a Wayland surface *)
(* ===================================================================== *)

Section FormatMap.
Context `{WsiExternals}.
Implicit Types (m : gmap Z surface_format_properties) (l : list drm_format_pair).

Lemma map_add_result (phys_dev : VkPhysicalDevice) m (fmt : VkFormat) (d : drm_format_pair) :
  (Wayland.surface_format_properties_map_add phys_dev m fmt d).1
  ≠ VK_ERROR_FORMAT_NOT_SUPPORTED.
Proof.
  unfold Wayland.surface_format_properties_map_add.
  destruct (Wayland.surface_format_properties_add_modifier_support _ _ _ _) as [res props].
  destruct (Z.eqb_spec res VK_SUCCESS) as [->|Hne].
  - destruct (try_insert_allocates m fmt); simpl; discriminate.
  - destruct (Z.eqb_spec res VK_ERROR_FORMAT_NOT_SUPPORTED) as [->|Hne2]; simpl;
      [discriminate | exact Hne2].
Qed.

Lemma add_if_new_keeps (phys_dev : VkPhysicalDevice) m (fmt : VkFormat) (d : drm_format_pair)
    (k : Z) (v : surface_format_properties) :
  m !! k = Some v → (Wayland.add_if_new phys_dev fmt d m).2 !! k = Some v.
Proof.
  intros Hk. unfold Wayland.add_if_new.
  destruct (negb (fmt =? VK_FORMAT_UNDEFINED)); simpl; [|exact Hk].
  case_bool_decide as Hnew; simpl; [|exact Hk].
  unfold Wayland.surface_format_properties_map_add.
  destruct (Wayland.surface_format_properties_add_modifier_support _ _ _ _) as [res props].
  destruct (res =? VK_SUCCESS).
  - destruct (try_insert_allocates m fmt); simpl; [|exact Hk].
    rewrite lookup_insert_ne; [exact Hk|]. intros ->. unfold VkFormat in *. congruence.
  - destruct (res =? VK_ERROR_FORMAT_NOT_SUPPORTED); exact Hk.
Qed.

Lemma add_if_new_keys (phys_dev : VkPhysicalDevice) m (fmt : VkFormat) (d : drm_format_pair)
    (k : Z) :
  is_Some ((Wayland.add_if_new phys_dev fmt d m).2 !! k) →
  is_Some (m !! k) ∨ (k = fmt ∧ fmt ≠ VK_FORMAT_UNDEFINED).
Proof.
  unfold Wayland.add_if_new.
  destruct (Z.eqb_spec fmt VK_FORMAT_UNDEFINED) as [Hu|Hu]; simpl; [auto|].
  case_bool_decide as Hnew; simpl; [|auto].
  unfold Wayland.surface_format_properties_map_add.
  destruct (Wayland.surface_format_properties_add_modifier_support _ _ _ _) as [res props].
  destruct (res =? VK_SUCCESS).
  - destruct (try_insert_allocates m fmt); simpl; [|auto].
    destruct (decide (k = fmt)) as [->|Hne]; [auto|].
    rewrite lookup_insert_ne by congruence. auto.
  - destruct (res =? VK_ERROR_FORMAT_NOT_SUPPORTED); auto.
Qed.

Lemma add_if_new_result (phys_dev : VkPhysicalDevice) m (fmt : VkFormat) (d : drm_format_pair) :
  (Wayland.add_if_new phys_dev fmt d m).1 ≠ VK_ERROR_FORMAT_NOT_SUPPORTED.
Proof.
  unfold Wayland.add_if_new.
  destruct (negb (fmt =? VK_FORMAT_UNDEFINED) && bool_decide (m !! fmt = None)).
  - apply map_add_result.
  - simpl. discriminate.
Qed.

(** The initialisation of the format map keeps what is there and adds only
    defined formats of the list. *)
Lemma map_init_only_adds (phys_dev : VkPhysicalDevice) m l :
  let after := (Wayland.surface_format_properties_map_init phys_dev m l).2 in
  (∀ k v, m !! k = Some v → after !! k = Some v)
  ∧ (∀ k, is_Some (after !! k) → is_Some (m !! k) ∨ k ∈ defined_formats l).
Proof.
  revert m. induction l as [|d rest IH]; intros m; simpl.
  - split; [auto|]. intros k Hk. left. exact Hk.
  - unfold TRY.
    destruct (Wayland.add_if_new phys_dev (drm_to_vk_format (fourcc d)) d m)
      as [r1 m1] eqn:E1.
    destruct (Wayland.add_if_new phys_dev (drm_to_vk_srgb_format (fourcc d)) d m1)
      as [r2 m2] eqn:E2.
    assert (K1 : ∀ k v, m !! k = Some v → m1 !! k = Some v).
    { intros k v Hk. pose proof (add_if_new_keeps phys_dev m (drm_to_vk_format (fourcc d)) d k v Hk) as Hm.
      rewrite E1 in Hm. exact Hm. }
    assert (K2 : ∀ k v, m1 !! k = Some v → m2 !! k = Some v).
    { intros k v Hk. pose proof (add_if_new_keeps phys_dev m1 (drm_to_vk_srgb_format (fourcc d)) d k v Hk) as Hm.
      rewrite E2 in Hm. exact Hm. }
    assert (D1 : ∀ k, is_Some (m1 !! k) → is_Some (m !! k) ∨ k ∈ defined_formats (d :: rest)).
    { intros k Hk. pose proof (add_if_new_keys phys_dev m (drm_to_vk_format (fourcc d)) d k) as Hm.
      rewrite E1 in Hm. destruct (Hm Hk) as [?|[-> Hu]]; [auto|]. right.
      unfold defined_formats. apply list_elem_of_filter. split; [exact Hu|].
      simpl. left. }
    assert (D2 : ∀ k, is_Some (m2 !! k) → is_Some (m !! k) ∨ k ∈ defined_formats (d :: rest)).
    { intros k Hk. pose proof (add_if_new_keys phys_dev m1 (drm_to_vk_srgb_format (fourcc d)) d k) as Hm.
      rewrite E2 in Hm. destruct (Hm Hk) as [?|[-> Hu]]; [auto|]. right.
      unfold defined_formats. apply list_elem_of_filter. split; [exact Hu|].
      simpl. right. left. }
    destruct (r1 =? VK_SUCCESS); simpl; [|split; [exact K1 | exact D1]].
    destruct (r2 =? VK_SUCCESS); simpl; [|split; [auto | exact D2]].
    destruct (IH m2) as [IHk IHd]. split; [auto|].
    intros k Hk. destruct (IHd k Hk) as [Hin|Hin]; [exact (D2 k Hin)|].
    right. unfold defined_formats in *. apply list_elem_of_filter in Hin as [Hu Hin].
    apply list_elem_of_filter. split; [exact Hu|]. simpl.
    right. right. exact Hin.
Qed.

(** X2.  Initialising the format map from the list of a surface only ever
    adds: an entry the map already holds is still there, unchanged, whatever
    the result; and every key of the resulting map was either there before or
    is a defined Vulkan format of one of the DRM formats of the list. *)
Theorem format_map_init_only_adds (phys_dev : VkPhysicalDevice) m l :
  let after := (Wayland.surface_format_properties_map_init phys_dev m l).2 in
  (∀ k v, m !! k = Some v → after !! k = Some v)
  ∧ (∀ k, is_Some (after !! k) → is_Some (m !! k) ∨ k ∈ defined_formats l).
Proof. exact (map_init_only_adds phys_dev m l). Qed.

Lemma map_init_result (phys_dev : VkPhysicalDevice) m l :
  (Wayland.surface_format_properties_map_init phys_dev m l).1 ≠ VK_ERROR_FORMAT_NOT_SUPPORTED.
Proof.
  revert m. induction l as [|d rest IH]; intros m; simpl; [discriminate|].
  unfold TRY.
  pose proof (add_if_new_result phys_dev m (drm_to_vk_format (fourcc d)) d) as R1.
  destruct (Wayland.add_if_new phys_dev (drm_to_vk_format (fourcc d)) d m) as [r1 m1].
  pose proof (add_if_new_result phys_dev m1 (drm_to_vk_srgb_format (fourcc d)) d) as R2.
  destruct (Wayland.add_if_new phys_dev (drm_to_vk_srgb_format (fourcc d)) d m1) as [r2 m2].
  destruct (r1 =? VK_SUCCESS); simpl; [|exact R1].
  destruct (r2 =? VK_SUCCESS); simpl; [|exact R2].
  apply IH.
Qed.

(** One step of the initialisation on a device that answers every query
    with [VK_SUCCESS] or [VK_ERROR_FORMAT_NOT_SUPPORTED]: the step succeeds,
    and it adds the format exactly when the format is defined and the
    device supports it with the modifier. *)
Lemma add_if_new_skips (phys_dev : VkPhysicalDevice) m (fmt : VkFormat) (d : drm_format_pair) :
  (∀ pd p info, (check_device_support pd p info).1 = VK_SUCCESS
                ∨ (check_device_support pd p info).1 = VK_ERROR_FORMAT_NOT_SUPPORTED) →
  (∀ m' f, try_insert_allocates m' f = true) →
  (Wayland.add_if_new phys_dev fmt d m).1 = VK_SUCCESS
  ∧ ∀ k, is_Some ((Wayland.add_if_new phys_dev fmt d m).2 !! k)
         ↔ is_Some (m !! k)
           ∨ (k = fmt ∧ fmt ≠ VK_FORMAT_UNDEFINED
              ∧ (Wayland.surface_format_properties_add_modifier_support phys_dev
                   (make_surface_format_properties fmt) d false).1 = VK_SUCCESS).
Proof.
  intros Hsup Halloc.
  assert (Hres : (Wayland.surface_format_properties_add_modifier_support phys_dev
                    (make_surface_format_properties fmt) d false).1 = VK_SUCCESS
                 ∨ (Wayland.surface_format_properties_add_modifier_support phys_dev
                      (make_surface_format_properties fmt) d false).1
                   = VK_ERROR_FORMAT_NOT_SUPPORTED).
  { unfold Wayland.surface_format_properties_add_modifier_support. apply Hsup. }
  remember (Wayland.surface_format_properties_add_modifier_support phys_dev
              (make_surface_format_properties fmt) d false) as q eqn:Hq.
  unfold Wayland.add_if_new.
  destruct (Z.eqb_spec fmt VK_FORMAT_UNDEFINED) as [Hu|Hu]; simpl.
  { split; [reflexivity|]. intros k. split; [auto|]. intros [Hk|(_ & Hne & _)]; [exact Hk|].
    contradiction. }
  case_bool_decide as Hnew; simpl.
  - unfold Wayland.surface_format_properties_map_add. rewrite <- Hq.
    destruct q as [res props].
    simpl in Hres. destruct Hres as [->| ->]; simpl.
    + rewrite Halloc. simpl. split; [reflexivity|]. intros k.
      destruct (decide (k = fmt)) as [->|Hne].
      * rewrite lookup_insert_eq. split; [intros _; right; auto | eauto].
      * rewrite lookup_insert_ne by congruence.
        split; [auto|]. intros [Hk|(Heq & _)]; [exact Hk | contradiction].
    + split; [reflexivity|]. intros k. split; [auto|].
      intros [Hk|(_ & _ & Hs)]; [exact Hk | discriminate Hs].
  - split; [reflexivity|]. intros k. split; [auto|].
    intros [Hk|(-> & _ & _)]; [exact Hk|].
    destruct (m !! fmt) eqn:E; [eauto | contradiction].
Qed.

(** X3.  A format the device does not support is skipped, not reported.  The
    initialisation of the format map never returns
    [VK_ERROR_FORMAT_NOT_SUPPORTED]; and on a device that answers every
    query with [VK_SUCCESS] or [VK_ERROR_FORMAT_NOT_SUPPORTED], while the
    allocator does not fail, it goes through the whole list and returns
    [VK_SUCCESS], and the map then holds, besides what it held before,
    exactly the formats that the device supports with the modifier of a DRM
    format of the list that stands for them. *)
Theorem format_map_init_skips_unsupported (phys_dev : VkPhysicalDevice) m l :
  (Wayland.surface_format_properties_map_init phys_dev m l).1 ≠ VK_ERROR_FORMAT_NOT_SUPPORTED
  ∧ ((∀ pd p info, (check_device_support pd p info).1 = VK_SUCCESS
                   ∨ (check_device_support pd p info).1 = VK_ERROR_FORMAT_NOT_SUPPORTED) →
     (∀ m' f, try_insert_allocates m' f = true) →
     (Wayland.surface_format_properties_map_init phys_dev m l).1 = VK_SUCCESS
     ∧ ∀ k, is_Some ((Wayland.surface_format_properties_map_init phys_dev m l).2 !! k)
            ↔ is_Some (m !! k) ∨ ∃ d, d ∈ l ∧ supported_through phys_dev k d).
Proof.
  split; [apply map_init_result|].
  intros Hsup Halloc. revert m. induction l as [|d rest IH]; intros m; simpl.
  - split; [reflexivity|]. intros k. split; [auto|].
    intros [Hk|(d & Hd & _)]; [exact Hk | inversion Hd].
  - unfold TRY.
    destruct (add_if_new_skips phys_dev m (drm_to_vk_format (fourcc d)) d Hsup Halloc)
      as [R1 K1].
    destruct (Wayland.add_if_new phys_dev (drm_to_vk_format (fourcc d)) d m) as [r1 m1].
    destruct (add_if_new_skips phys_dev m1 (drm_to_vk_srgb_format (fourcc d)) d Hsup Halloc)
      as [R2 K2].
    destruct (Wayland.add_if_new phys_dev (drm_to_vk_srgb_format (fourcc d)) d m1) as [r2 m2].
    simpl in *. subst r1 r2. simpl.
    destruct (IH m2) as [IHr IHk]. split; [exact IHr|].
    intros k. rewrite IHk, K2, K1. unfold supported_through. split.
    + intros [[[Hk|(-> & Hu & Hs)]|(-> & Hu & Hs)]|(d' & Hd' & Hs)].
      * left. exact Hk.
      * right. exists d. split; [left|]. auto.
      * right. exists d. split; [left|]. auto.
      * right. exists d'. split; [right; exact Hd'|]. exact Hs.
    + intros [Hk|(d' & Hd' & Hu & Hfmt & Hs)]; [auto|].
      apply elem_of_cons in Hd' as [->|Hd'].
      * destruct Hfmt as [->| ->]; [left; left; right | left; right]; auto.
      * right. exists d'. auto.
Qed.

Lemma add_if_new_complete (phys_dev : VkPhysicalDevice) m (fmt : VkFormat) (d : drm_format_pair) :
  (∀ pd p info, (check_device_support pd p info).1 = VK_SUCCESS) →
  (∀ m' f, try_insert_allocates m' f = true) →
  (Wayland.add_if_new phys_dev fmt d m).1 = VK_SUCCESS
  ∧ (fmt ≠ VK_FORMAT_UNDEFINED → is_Some ((Wayland.add_if_new phys_dev fmt d m).2 !! fmt)).
Proof.
  intros Hsup Halloc. unfold Wayland.add_if_new.
  destruct (Z.eqb_spec fmt VK_FORMAT_UNDEFINED) as [Hu|Hu]; simpl; [split; [reflexivity|tauto]|].
  case_bool_decide as Hnew; simpl.
  - unfold Wayland.surface_format_properties_map_add,
      Wayland.surface_format_properties_add_modifier_support.
    pose proof (Hsup phys_dev (make_surface_format_properties fmt)) as Hs.
    match goal with
    | |- context [check_device_support ?a ?b ?c] =>
        specialize (Hs c); destruct (check_device_support a b c) as [res props]
    end.
    simpl in Hs. subst res. simpl. rewrite Halloc. simpl.
    split; [reflexivity|]. intros _. rewrite lookup_insert_eq. eauto.
  - split; [reflexivity|]. intros _.
    destruct (m !! fmt) eqn:E; [eauto | contradiction].
Qed.

(** With a device that supports every format and an allocator that does not
    fail, the initialisation reaches every defined format of the list. *)
Lemma map_init_complete (phys_dev : VkPhysicalDevice) m l :
  (∀ pd p info, (check_device_support pd p info).1 = VK_SUCCESS) →
  (∀ m' f, try_insert_allocates m' f = true) →
  (Wayland.surface_format_properties_map_init phys_dev m l).1 = VK_SUCCESS
  ∧ (∀ k, k ∈ defined_formats l →
          is_Some ((Wayland.surface_format_properties_map_init phys_dev m l).2 !! k)).
Proof.
  intros Hsup Halloc. revert m. induction l as [|d rest IH]; intros m; simpl.
  - split; [reflexivity|]. intros k Hk. unfold defined_formats in Hk. simpl in Hk.
    inversion Hk.
  - unfold TRY.
    destruct (add_if_new_complete phys_dev m (drm_to_vk_format (fourcc d)) d Hsup Halloc)
      as [R1 C1].
    destruct (Wayland.add_if_new phys_dev (drm_to_vk_format (fourcc d)) d m)
      as [r1 m1] eqn:E1.
    destruct (add_if_new_complete phys_dev m1 (drm_to_vk_srgb_format (fourcc d)) d Hsup Halloc)
      as [R2 C2].
    pose proof (add_if_new_keeps phys_dev m1 (drm_to_vk_srgb_format (fourcc d)) d) as K2.
    destruct (Wayland.add_if_new phys_dev (drm_to_vk_srgb_format (fourcc d)) d m1)
      as [r2 m2] eqn:E2.
    simpl in *. subst r1 r2. simpl.
    destruct (IH m2) as [IHr IHc]. split; [exact IHr|].
    pose proof (map_init_only_adds phys_dev m2 rest) as [Hkeep _]. simpl in Hkeep.
    intros k Hk. unfold defined_formats in Hk.
    apply list_elem_of_filter in Hk as [Hu Hk]. simpl in Hk.
    apply elem_of_cons in Hk as [->|Hk].
    { destruct (C1 Hu) as [v Hv]. eexists. apply Hkeep. apply K2. exact Hv. }
    apply elem_of_cons in Hk as [->|Hk].
    { destruct (C2 Hu) as [v Hv]. eexists. apply Hkeep. exact Hv. }
    apply IHc. unfold defined_formats. apply list_elem_of_filter. split; assumption.
Qed.

(** X4.  On a device that supports every format asked about, and while the
    allocator does not fail, the initialisation succeeds and the map then
    holds every defined Vulkan format of the DRM formats of the list. *)
Theorem format_map_init_complete (phys_dev : VkPhysicalDevice) m l :
  (∀ pd p info, (check_device_support pd p info).1 = VK_SUCCESS) →
  (∀ m' f, try_insert_allocates m' f = true) →
  (Wayland.surface_format_properties_map_init phys_dev m l).1 = VK_SUCCESS
  ∧ (∀ k, k ∈ defined_formats l →
          is_Some ((Wayland.surface_format_properties_map_init phys_dev m l).2 !! k)).
Proof. exact (map_init_complete phys_dev m l). Qed.

Lemma add_compression_if_present_dom (phys_dev : VkPhysicalDevice) m (fmt : VkFormat)
    (d : drm_format_pair) :
  dom (Wayland.add_compression_if_present phys_dev fmt d m).2 = dom m.
Proof.
  unfold Wayland.add_compression_if_present.
  destruct (negb (fmt =? VK_FORMAT_UNDEFINED)); simpl; [|reflexivity].
  destruct (m !! fmt) as [entry|] eqn:E; [|reflexivity].
  unfold Wayland.surface_format_properties_add_modifier_support.
  destruct (add_device_compression_support _ _ _) as [res entry'].
  simpl. apply dom_insert_lookup_L. eauto.
Qed.

(** Adding compression support leaves the set of keys as it is. *)
Lemma add_compression_dom (phys_dev : VkPhysicalDevice) m l :
  dom (Wayland.surface_format_properties_map_add_compression phys_dev m l).2 = dom m.
Proof.
  revert m. induction l as [|d rest IH]; intros m; simpl; [reflexivity|].
  unfold TRY.
  pose proof (add_compression_if_present_dom phys_dev m (drm_to_vk_format (fourcc d)) d) as D1.
  destruct (Wayland.add_compression_if_present phys_dev (drm_to_vk_format (fourcc d)) d m)
    as [r1 m1].
  pose proof (add_compression_if_present_dom phys_dev m1 (drm_to_vk_srgb_format (fourcc d)) d)
    as D2.
  destruct (Wayland.add_compression_if_present phys_dev (drm_to_vk_srgb_format (fourcc d)) d m1)
    as [r2 m2].
  simpl in *.
  destruct (r1 =? VK_SUCCESS); simpl; [|exact D1].
  destruct (r2 =? VK_SUCCESS); simpl; [|congruence].
  rewrite IH. congruence.
Qed.

(** X5.  Adding compression support changes entries of the format map in
    place: whatever its result, the map has the same formats as before. *)
Theorem add_compression_keeps_formats (phys_dev : VkPhysicalDevice) m l :
  dom (Wayland.surface_format_properties_map_add_compression phys_dev m l).2 = dom m.
Proof. exact (add_compression_dom phys_dev m l). Qed.

Lemma formats_helper_result (its : list surface_format_properties) (count : Z)
    (out : format_arrays) :
  let r := enum_result (surface_properties_formats_helper fill_format_properties its count out) in
  r = VK_SUCCESS ∨ r = VK_INCOMPLETE.
Proof.
  unfold surface_properties_formats_helper.
  destruct (surface_formats out), (extended_surface_formats out); simpl;
    try (destruct (_ >? _); auto); auto.
Qed.

(** X6.  A format query on a Wayland surface that returns an error (anything
    but [VK_SUCCESS] and [VK_INCOMPLETE]) has left the caller's count and
    arrays exactly as they were passed. *)
Theorem failed_format_query_writes_nothing (sp : Wayland.surface_properties)
    (physical_device : VkPhysicalDevice) (count : Z) (out : format_arrays) :
  let q := (Wayland.get_surface_formats sp physical_device count out).1 in
  enum_result q ≠ VK_SUCCESS → enum_result q ≠ VK_INCOMPLETE →
  enum_count q = count ∧ enum_out q = out.
Proof.
  unfold Wayland.get_surface_formats, TRY.
  assert (Hhelper : ∀ m,
            let q := surface_properties_formats_helper fill_format_properties
                       (Wayland.format_range m) count out in
            enum_result q ≠ VK_SUCCESS → enum_result q ≠ VK_INCOMPLETE →
            enum_count q = count ∧ enum_out q = out).
  { intros m q H1 H2. destruct (formats_helper_result (Wayland.format_range m) count out);
      contradiction. }
  destruct (size (Wayland.supported_formats sp) =? 0)%nat; [|apply Hhelper].
  destruct (Wayland.surface_format_properties_map_init _ _ _) as [r1 m1].
  destruct (r1 =? VK_SUCCESS); simpl; [|auto].
  destruct (has_image_compression_support physical_device); [|apply Hhelper].
  destruct (Wayland.surface_format_properties_map_add_compression _ _ _) as [r2 m2].
  destruct (r2 =? VK_SUCCESS); simpl; [apply Hhelper | auto].
Qed.

(** X7.  A format query that failed part-way is not tried again.  Once a
    query, whatever it returned, has left a format in the map, every later
    query answers from the stored formats alone, with [VK_SUCCESS] or
    [VK_INCOMPLETE], and leaves the map as it is: the formats the failed
    initialisation did not reach, and compression support, are never added. *)
Theorem failed_format_query_not_retried (sp : Wayland.surface_properties)
    (physical_device : VkPhysicalDevice) (count0 : Z) (out0 : format_arrays)
    (count : Z) (out : format_arrays) :
  let q0 := Wayland.get_surface_formats sp physical_device count0 out0 in
  Wayland.supported_formats q0.2 ≠ ∅ →
  let q1 := Wayland.get_surface_formats q0.2 physical_device count out in
  q1.1 = surface_properties_formats_helper fill_format_properties
           (Wayland.format_range (Wayland.supported_formats q0.2)) count out
  ∧ (enum_result q1.1 = VK_SUCCESS ∨ enum_result q1.1 = VK_INCOMPLETE)
  ∧ q1.2 = q0.2.
Proof.
  intros q0 Hne q1. subst q1.
  rewrite (wayland_formats_memoized q0.2) by exact Hne. simpl.
  split; [reflexivity|]. split; [apply formats_helper_result | reflexivity].
Qed.

End FormatMap.

Lemma format_map_init_complete_witness :
  (∀ pd p info, (check_device_support (WsiExternals := Examples.wsi_externals) pd p info).1
                = VK_SUCCESS)
  ∧ (∀ m' f, try_insert_allocates (WsiExternals := Examples.wsi_externals) m' f = true)
  ∧ (Wayland.surface_format_properties_map_init (H := Examples.wsi_externals) 1 ∅
       [ {| fourcc := Examples.DRM_FORMAT_XRGB8888; modifier := 0 |} ]).1 = VK_SUCCESS
  ∧ is_Some ((Wayland.surface_format_properties_map_init (H := Examples.wsi_externals) 1 ∅
                [ {| fourcc := Examples.DRM_FORMAT_XRGB8888; modifier := 0 |} ]).2
             !! VK_FORMAT_B8G8R8A8_SRGB).
Proof.
  assert (H1 : ∀ pd p info,
            (check_device_support (WsiExternals := Examples.wsi_externals) pd p info).1
            = VK_SUCCESS) by reflexivity.
  assert (H2 : ∀ m' f, try_insert_allocates (WsiExternals := Examples.wsi_externals) m' f = true)
    by reflexivity.
  destruct (format_map_init_complete (H := Examples.wsi_externals) 1 ∅
              [ {| fourcc := Examples.DRM_FORMAT_XRGB8888; modifier := 0 |} ] H1 H2)
    as [Hres Hkeys].
  split; [exact H1|]. split; [exact H2|]. split; [exact Hres|].
  apply Hkeys. unfold defined_formats. apply list_elem_of_filter.
  split; [discriminate|]. simpl. right. left.
Defined.

(** A device that loses itself at the second format: the first query fails,
    and leaves one format stored. *)
(** A device that does not support sRGB BGRA, asked about the three
    formats of two DRM formats: the unsupported one is left out and the one
    after it is reached. *)
Lemma format_map_init_skips_unsupported_witness :
  let out :=
    Wayland.surface_format_properties_map_init (H := Recording.picky_externals) 1 ∅
      MoreExamples.two_formats in
  ((∀ pd p info,
      (check_device_support (WsiExternals := Recording.picky_externals) pd p info).1
      = VK_SUCCESS
      ∨ (check_device_support (WsiExternals := Recording.picky_externals) pd p info).1
        = VK_ERROR_FORMAT_NOT_SUPPORTED)
   ∧ (∀ m' f, try_insert_allocates (WsiExternals := Recording.picky_externals) m' f = true))
  ∧ out.1 = VK_SUCCESS
  ∧ is_Some (out.2 !! VK_FORMAT_B8G8R8A8_UNORM)
  ∧ out.2 !! VK_FORMAT_B8G8R8A8_SRGB = None
  ∧ is_Some (out.2 !! VK_FORMAT_R5G6B5_UNORM_PACK16).
Proof.
  intros out.
  assert (H1 : ∀ pd p info,
            (check_device_support (WsiExternals := Recording.picky_externals) pd p info).1
            = VK_SUCCESS
            ∨ (check_device_support (WsiExternals := Recording.picky_externals) pd p info).1
              = VK_ERROR_FORMAT_NOT_SUPPORTED).
  { intros pd p info. simpl.
    destruct (ifi_format info =? VK_FORMAT_B8G8R8A8_SRGB); simpl; auto. }
  assert (H2 : ∀ m' f,
            try_insert_allocates (WsiExternals := Recording.picky_externals) m' f = true)
    by reflexivity.
  destruct (format_map_init_skips_unsupported (H := Recording.picky_externals) 1 ∅
              MoreExamples.two_formats) as [_ Hc].
  destruct (Hc H1 H2) as [Hr Hk]. fold out in Hr, Hk.
  split; [split; assumption|]. split; [exact Hr|].
  split; [|split].
  - apply Hk. right. eexists. split; [left|].
    split; [discriminate|]. split; [left; reflexivity | reflexivity].
  - destruct (out.2 !! VK_FORMAT_B8G8R8A8_SRGB) as [v|] eqn:E; [|reflexivity].
    assert (Hs : is_Some (out.2 !! VK_FORMAT_B8G8R8A8_SRGB)) by (rewrite E; eauto).
    apply Hk in Hs as [Hold|(d & _ & _ & _ & Hs)].
    + rewrite lookup_empty in Hold. destruct Hold as [? Hold]. discriminate Hold.
    + discriminate Hs.
  - apply Hk. right. eexists. split; [right; left|].
    split; [discriminate|]. split; [left; reflexivity | reflexivity].
Defined.

Lemma failed_format_query_writes_nothing_witness :
  let out := {| surface_formats := Some (replicate 3 Examples.blank_format);
                extended_surface_formats := None |} in
  let q := (Wayland.get_surface_formats (H := MoreExamples.flaky_externals)
              MoreExamples.wayland_props 1 3 out).1 in
  (enum_result q ≠ VK_SUCCESS ∧ enum_result q ≠ VK_INCOMPLETE)
  ∧ enum_result q = VK_ERROR_DEVICE_LOST
  ∧ enum_count q = 3 ∧ enum_out q = out.
Proof.
  intros out q.
  assert (H1 : enum_result q ≠ VK_SUCCESS) by (vm_compute; discriminate).
  assert (H2 : enum_result q ≠ VK_INCOMPLETE) by (vm_compute; discriminate).
  split; [split; assumption|]. split; [vm_compute; reflexivity|].
  exact (failed_format_query_writes_nothing (H := MoreExamples.flaky_externals)
           MoreExamples.wayland_props 1 3 out H1 H2).
Defined.

Lemma failed_format_query_not_retried_witness :
  let none := {| surface_formats := None; extended_surface_formats := None |} in
  let q0 := Wayland.get_surface_formats (H := MoreExamples.flaky_externals)
              MoreExamples.wayland_props 1 0 none in
  let q1 := Wayland.get_surface_formats (H := MoreExamples.flaky_externals) q0.2 1 0 none in
  (Wayland.supported_formats q0.2 ≠ ∅ ∧ enum_result q0.1 = VK_ERROR_DEVICE_LOST)
  ∧ (enum_result q1.1 = VK_SUCCESS ∨ enum_result q1.1 = VK_INCOMPLETE)
  ∧ enum_count q1.1 = 1
  ∧ q1.2 = q0.2.
Proof.
  intros none q0 q1.
  assert (Hne : Wayland.supported_formats q0.2 ≠ ∅).
  { intros Hempty. apply (f_equal size) in Hempty. vm_compute in Hempty. discriminate. }
  destruct (failed_format_query_not_retried (H := MoreExamples.flaky_externals)
              MoreExamples.wayland_props 1 0 none 0 none Hne) as (_ & Hres & Hsame).
  split; [split; [exact Hne | vm_compute; reflexivity]|].
  split; [exact Hres|]. split; [vm_compute; reflexivity | exact Hsame].
Defined.

(* ===================================================================== *)
(** * Presentation support *)
(* ===================================================================== *)

Lemma check_required_protocols_dmabuf (data : Wayland.required_properties)
    (name : Z) (interface : string) (version : Z) :
  Wayland.dmabuf (Wayland.check_required_protocols data name interface version) = true
  ↔ Wayland.dmabuf data = true ∨ is_dmabuf_with_modifiers (name, interface, version).
Proof.
  unfold Wayland.check_required_protocols, is_dmabuf_with_modifiers. simpl.
  destruct (String.eqb_spec interface Wayland.zwp_linux_dmabuf_v1_interface_name) as [Hi|Hi];
    simpl.
  - destruct (Z.geb_spec version Wayland.ZWP_LINUX_DMABUF_V1_MODIFIER_SINCE_VERSION)
      as [Hv|Hv]; simpl.
    + split; [intros _; right; split; [exact Hi | lia] | reflexivity].
    + subst interface. simpl. split; [auto|]. intros [Hd|[_ Hv']]; [exact Hd | lia].
  - destruct (String.eqb interface
                Wayland.zwp_linux_explicit_synchronization_v1_interface_name); simpl;
      (split; [auto | intros [Hd|[Hi' _]]; [exact Hd | contradiction]]).
Qed.

Lemma registry_announces_dmabuf (globals : list (Z * string * Z)) :
  ∀ data : Wayland.required_properties,
    Wayland.dmabuf
      (fold_left (λ data '(name, interface, version),
                    Wayland.check_required_protocols data name interface version)
                 globals data) = true
    ↔ Wayland.dmabuf data = true ∨ Exists is_dmabuf_with_modifiers globals.
Proof.
  induction globals as [|[[name interface] version] rest IH]; intros data; simpl.
  - rewrite Exists_nil. tauto.
  - rewrite IH, check_required_protocols_dmabuf, Exists_cons. tauto.
Qed.

(** X8.  Presentation support on Wayland is [VK_TRUE] exactly when the device
    has fence-descriptor synchronisation, every libwayland call of the probe
    succeeds, and the registry announces a linux-dmabuf global of version 3 or
    above; otherwise it is [VK_FALSE].  Explicit synchronisation is not asked
    of the compositor: whether it is announced makes no difference. *)
Theorem wayland_presentation_support_iff `{WsiExternals}
    (physical_device : VkPhysicalDevice) (queue_index : Z) (display : Wayland.wl_display) :
  let answer :=
    Wayland.GetPhysicalDeviceWaylandPresentationSupportKHR physical_device queue_index display in
  (answer = VK_TRUE
   ↔ sync_fd_fence_sync_is_supported physical_device = true
     ∧ Wayland.create_queue_ok display = true
     ∧ Wayland.make_proxy_ok display = true
     ∧ Wayland.get_registry_ok display = true
     ∧ 0 ≤ Wayland.add_listener_res display
     ∧ 0 ≤ Wayland.roundtrip_res display
     ∧ Exists is_dmabuf_with_modifiers (Wayland.globals display))
  ∧ (answer = VK_TRUE ∨ answer = VK_FALSE).
Proof.
  intros answer. subst answer.
  unfold Wayland.GetPhysicalDeviceWaylandPresentationSupportKHR, Wayland.check_wl_protocols.
  pose proof (registry_announces_dmabuf (Wayland.globals display)
                {| Wayland.dmabuf := false; Wayland.explicit_sync := false |}) as Hreg.
  simpl in Hreg.
  destruct (sync_fd_fence_sync_is_supported physical_device); simpl;
    [|split; [split; [discriminate | intros (? & _); discriminate] | auto]].
  destruct (Wayland.create_queue_ok display); simpl;
    [|split; [split; [discriminate | intros (_ & ? & _); discriminate] | auto]].
  destruct (Wayland.make_proxy_ok display); simpl;
    [|split; [split; [discriminate | intros (_ & _ & ? & _); discriminate] | auto]].
  destruct (Wayland.get_registry_ok display); simpl;
    [|split; [split; [discriminate | intros (_ & _ & _ & ? & _); discriminate] | auto]].
  destruct (Z.ltb_spec (Wayland.add_listener_res display) 0); simpl;
    [split; [split; [discriminate | intros (_ & _ & _ & _ & ? & _); lia] | auto]|].
  destruct (Z.ltb_spec (Wayland.roundtrip_res display) 0); simpl;
    [split; [split; [discriminate | intros (_ & _ & _ & _ & _ & ? & _); lia] | auto]|].
  destruct (Wayland.dmabuf (fold_left _ _ _)) eqn:Hd; simpl.
  - split; [|auto]. split; [|reflexivity]. intros _.
    repeat (split; [reflexivity || assumption|]).
    destruct (proj1 Hreg eq_refl) as [?|?]; [discriminate | assumption].
  - split; [|auto]. split; [discriminate|].
    intros (_ & _ & _ & _ & _ & _ & Hex).
    pose proof (proj2 Hreg (or_intror Hex)). discriminate.
Qed.

Lemma head_filter_app {A : Type} (P : A → Prop) `{∀ x, Decision (P x)} (l1 l2 : list A) :
  head (filter P (l1 ++ l2))
  = match head (filter P l1) with
    | Some x => Some x
    | None => head (filter P l2)
    end.
Proof. rewrite filter_app. destruct (filter P l1); reflexivity. Qed.

Lemma visuals_find_first (vs : list X11.xcb_visualtype_t) (id : Z) :
  X11.visuals_find vs id = head (filter (λ v, X11.visual_id v = id) vs).
Proof.
  induction vs as [|v rest IH]; simpl; [reflexivity|].
  destruct (Z.eqb_spec (X11.visual_id v) id) as [Hid|Hid].
  - rewrite filter_cons_True by exact Hid. reflexivity.
  - rewrite filter_cons_False by exact Hid. exact IH.
Qed.

Lemma screen_get_visualtype_first (ds : list X11.xcb_depth_t) (id : Z) :
  fst <$> X11.screen_get_visualtype_depths ds id
  = head (filter (λ v, X11.visual_id v = id) (ds ≫= X11.visuals)).
Proof.
  induction ds as [|d rest IH]; simpl; [reflexivity|].
  rewrite head_filter_app, <- visuals_find_first.
  destruct (X11.visuals_find (X11.visuals d) id); [reflexivity | exact IH].
Qed.

(** A compositor whose linux-dmabuf is of version 2 is refused, also on a
    device with fence-descriptor synchronisation. *)
Example old_dmabuf_is_refused :
  sync_fd_fence_sync_is_supported (WsiExternals := Examples.wsi_externals) 1 = true
  ∧ Wayland.GetPhysicalDeviceWaylandPresentationSupportKHR (H := Examples.wsi_externals)
      1 0 MoreExamples.old_display = VK_FALSE.
Proof. split; vm_compute; reflexivity. Qed.

(** X9.  The visual the X11 backend judges is the first visual of the
    connection, screen by screen and depth by depth, that carries the
    requested id; presentation support is [VK_TRUE] exactly when the device
    has fence-descriptor synchronisation and that visual exists and is
    true-colour or direct-colour. *)
Theorem xcb_presentation_support_iff `{WsiExternals}
    (physicalDevice : VkPhysicalDevice) (queueFamilyIndex : Z)
    (connection : X11.xcb_connection_t) (visual : Z) :
  X11.connection_get_visualtype connection visual
  = head (filter (λ v, X11.visual_id v = visual) (all_visuals connection))
  ∧ (X11.GetPhysicalDeviceXcbPresentationSupportKHR physicalDevice queueFamilyIndex
       connection visual = VK_TRUE
     ↔ sync_fd_fence_sync_is_supported physicalDevice = true
       ∧ ∃ v, head (filter (λ v, X11.visual_id v = visual) (all_visuals connection)) = Some v
              ∧ (X11._class v = X11.XCB_VISUAL_CLASS_TRUE_COLOR
                 ∨ X11._class v = X11.XCB_VISUAL_CLASS_DIRECT_COLOR)).
Proof.
  assert (Hfirst : X11.connection_get_visualtype connection visual
                   = head (filter (λ v, X11.visual_id v = visual) (all_visuals connection))).
  { unfold X11.connection_get_visualtype, all_visuals.
    induction (X11.roots connection) as [|screen rest IH]; simpl; [reflexivity|].
    rewrite head_filter_app.
    unfold X11.screen_get_visualtype.
    rewrite <- screen_get_visualtype_first.
    destruct (X11.screen_get_visualtype_depths (X11.allowed_depths screen) visual)
      as [[v dp]|]; simpl; [reflexivity | exact IH]. }
  split; [exact Hfirst|].
  unfold X11.GetPhysicalDeviceXcbPresentationSupportKHR. rewrite Hfirst.
  destruct (sync_fd_fence_sync_is_supported physicalDevice); simpl;
    [|split; [discriminate | intros [? _]; discriminate]].
  destruct (head _) as [v|]; simpl.
  - destruct (Z.eqb_spec (X11._class v) X11.XCB_VISUAL_CLASS_TRUE_COLOR) as [Ht|Ht]; simpl.
    { split; [intros _; split; [reflexivity|]; exists v; auto | reflexivity]. }
    destruct (Z.eqb_spec (X11._class v) X11.XCB_VISUAL_CLASS_DIRECT_COLOR) as [Hd|Hd]; simpl.
    { split; [intros _; split; [reflexivity|]; exists v; auto | reflexivity]. }
    split; [discriminate|].
    intros [_ (v' & Hv & [?|?])]; injection Hv as <-; contradiction.
  - split; [discriminate|]. intros [_ (v' & Hv & _)]. discriminate.
Qed.



(* ===================================================================== *)
(** * Surface capabilities *)
(* ===================================================================== *)

Lemma check_present_mode_query_result (surface_info : list chain_struct)
    (modes : list VkPresentModeKHR) :
  check_surface_present_mode_query_is_supported surface_info modes = VK_SUCCESS
  ∨ check_surface_present_mode_query_is_supported surface_info modes
    = VK_ERROR_OUT_OF_HOST_MEMORY.
Proof.
  unfold check_surface_present_mode_query_is_supported.
  destruct (find_extension _ _) as [[]|]; auto.
  destruct (std_find_mode _ _); auto.
Qed.

(** X11.  The extended capability query of either backend succeeds exactly
    when the present-mode check does, and fails with no other code than
    [VK_ERROR_OUT_OF_HOST_MEMORY].  When it succeeds and the caller chained a
    scaling-capabilities structure, the scaled-extent bounds it reports are
    the image-extent bounds of the same answer; Wayland reports one-to-one
    scaling with minimum gravity, X11 no scaling and no gravity at all. *)
Theorem capabilities2_scaling `{WsiExternals}
    (wsp : Wayland.surface_properties) (xsp : X11.surface_properties)
    (physical_device : VkPhysicalDevice) (info : list chain_struct)
    (caps : VkSurfaceCapabilities2KHR) :
  let w := Wayland.get_surface_capabilities2 wsp physical_device info caps in
  let x := X11.get_surface_capabilities2 xsp physical_device info caps in
  (w.1 = check_surface_present_mode_query_is_supported info (Wayland.m_supported_modes wsp)
   ∧ (w.1 = VK_SUCCESS ∨ w.1 = VK_ERROR_OUT_OF_HOST_MEMORY)
   ∧ (w.1 = VK_SUCCESS → ∀ sc, scalingCapabilities w.2 = Some sc →
        minScaledImageExtent sc = minImageExtent (surfaceCapabilities w.2)
        ∧ maxScaledImageExtent sc = maxImageExtent (surfaceCapabilities w.2)
        ∧ supportedPresentScaling sc = VK_PRESENT_SCALING_ONE_TO_ONE_BIT_EXT
        ∧ supportedPresentGravityX sc = VK_PRESENT_GRAVITY_MIN_BIT_EXT
        ∧ supportedPresentGravityY sc = VK_PRESENT_GRAVITY_MIN_BIT_EXT))
  ∧ (x.1 = check_surface_present_mode_query_is_supported info (X11.m_supported_modes xsp)
     ∧ (x.1 = VK_SUCCESS ∨ x.1 = VK_ERROR_OUT_OF_HOST_MEMORY)
     ∧ (x.1 = VK_SUCCESS → ∀ sc, scalingCapabilities x.2 = Some sc →
          minScaledImageExtent sc = minImageExtent (surfaceCapabilities x.2)
          ∧ maxScaledImageExtent sc = maxImageExtent (surfaceCapabilities x.2)
          ∧ supportedPresentScaling sc = 0
          ∧ supportedPresentGravityX sc = 0
          ∧ supportedPresentGravityY sc = 0)).
Proof.
  intros w x. subst w x.
  unfold Wayland.get_surface_capabilities2, X11.get_surface_capabilities2, TRY.
  split.
  - destruct (check_present_mode_query_result info (Wayland.m_supported_modes wsp)) as [E|E];
      rewrite E; simpl.
    + split; [reflexivity|]. split; [auto|]. intros _ sc Hsc.
      apply fmap_Some in Hsc as (sc0 & _ & ->). simpl. auto.
    + split; [reflexivity|]. split; [auto|]. discriminate.
  - destruct (check_present_mode_query_result info (X11.m_supported_modes xsp)) as [E|E];
      rewrite E; simpl.
    + split; [reflexivity|]. split; [auto|]. intros _ sc Hsc.
      apply fmap_Some in Hsc as (sc0 & _ & ->). simpl. auto.
    + split; [reflexivity|]. split; [auto|]. discriminate.
Qed.

(* ===================================================================== *)
(** * Batch binding: what is stored and where *)
(* ===================================================================== *)

Section BindStatus.
Context {World : Type} `{LayerExternals World}.
Variables (device : VkDevice) (pBindInfos : list VkBindImageMemoryInfo).
Variables (maintenance_6 : bool) (p : nat).
Hypothesis not_written :
  maintenance_6 = false
  ∨ ∀ info, info ∈ pBindInfos → bind_status_of (bind_pNext info) ≠ Some p.

Lemma bind_record_frame (info : VkBindImageMemoryInfo) (result : VkResult)
    (s : state (World := World)) (l : bind_loop_state (World := World)) :
  info ∈ pBindInfos →
  bl_status (bind_record maintenance_6 info result s l) !! p = bl_status l !! p.
Proof.
  intros Hin. unfold bind_record. simpl.
  destruct not_written as [->|Hno]; [reflexivity|].
  destruct maintenance_6; [|reflexivity].
  specialize (Hno info Hin).
  destruct (bind_status_of (bind_pNext info)) as [p'|]; [|reflexivity].
  apply lookup_insert_ne. congruence.
Qed.

Lemma bind_body_frame (i : nat) (l : bind_loop_state) :
  match bind_body device maintenance_6 pBindInfos i l with
  | Return l' | Next l' => bl_status l' !! p = bl_status l !! p
  end.
Proof.
  unfold bind_body.
  destruct (pBindInfos !! i) as [info|] eqn:Hinfo; [|reflexivity].
  assert (Hin : info ∈ pBindInfos) by (eapply list_elem_of_lookup_2; exact Hinfo).
  assert (Hicd : bl_status (bind_through_icd device maintenance_6 info l) !! p
                 = bl_status l !! p).
  { unfold bind_through_icd. destruct (disp_BindImageMemory2KHR _ _ _) as [result w].
    apply bind_record_frame. exact Hin. }
  destruct (bind_sc_info_of (bind_pNext info)) as [[sc idx]|]; [|exact Hicd].
  destruct ((sc =? VK_NULL_HANDLE) || negb (layer_owns_swapchain (world (bl_state l)) sc));
    [exact Hicd|].
  unfold TRY. destruct (is_bind_allowed _ _ _ =? VK_SUCCESS); [|reflexivity].
  simpl. destruct (bind_swapchain_image _ _ _ _) as [result w].
  apply bind_record_frame. exact Hin.
Qed.

Lemma bind_loop_frame (n : nat) :
  ∀ (from : nat) (l : bind_loop_state),
    match for_loop_flow n from (bind_body device maintenance_6 pBindInfos) l with
    | Return l' | Next l' => bl_status l' !! p = bl_status l !! p
    end.
Proof.
  induction n as [|n IH]; intros from l; simpl; [reflexivity|].
  pose proof (bind_body_frame from l) as Hstep.
  destruct (bind_body device maintenance_6 pBindInfos from l) as [l1|l1]; [exact Hstep|].
  specialize (IH (S from) l1).
  destruct (for_loop_flow n (S from) _ l1); congruence.
Qed.
End BindStatus.

(** X14.  A batch bind stores results only where the status structures of its
    entries point, and only when the maintenance extension is enabled: a
    location [p] that no entry's [VkBindMemoryStatusKHR] points to holds
    after the call what it held before, and with the extension disabled
    every location does, whatever the entries and however the call ends. *)
Theorem bind_status_written_only_through_status_structures
    {World : Type} `{LayerExternals World}
    (device : VkDevice) (bindInfoCount : Z) (pBindInfos : list VkBindImageMemoryInfo)
    (status : gmap nat VkResult) (s : state) (p : nat) :
  is_maintenance_6_enabled (world s) = false
  ∨ (∀ info, info ∈ pBindInfos → bind_status_of (bind_pNext info) ≠ Some p) →
  (wsi_layer_vkBindImageMemory2 device bindInfoCount pBindInfos status s).1.2 !! p
  = status !! p.
Proof.
  intros Hnot. unfold wsi_layer_vkBindImageMemory2. simpl.
  pose proof (bind_loop_frame device pBindInfos (is_maintenance_6_enabled (world s)) p Hnot
                (Z.to_nat bindInfoCount) 0
                {| bl_endpoint_result := VK_SUCCESS; bl_status := status; bl_state := s |})
    as Hloop.
  destruct (for_loop_flow _ _ _ _); exact Hloop.
Qed.

Lemma bind_status_written_only_through_status_structures_witness :
  let s := start (a_world true VK_SUCCESS) in
  (∀ info, info ∈ three_binds → bind_status_of (bind_pNext info) ≠ Some 5%nat)
  ∧ (wsi_layer_vkBindImageMemory2 (H := externals) 1 3 three_binds {[ 5%nat := 7 ]} s).1.2
    !! 5%nat = Some 7.
Proof.
  intros s.
  assert (Hno : ∀ info, info ∈ three_binds → bind_status_of (bind_pNext info) ≠ Some 5%nat).
  { intros info Hin. unfold three_binds in Hin.
    repeat (apply elem_of_cons in Hin as [->|Hin]; [discriminate|]). inversion Hin. }
  split; [exact Hno|].
  rewrite (bind_status_written_only_through_status_structures (H := externals)
             1 3 three_binds {[ 5%nat := 7 ]} s 5 (or_intror Hno)).
  reflexivity.
Defined.

Example bind_batch_returns_last_failure :
  (wsi_layer_vkBindImageMemory2 (H := MoreExamples.failing_init_externals)
     1 2 [bind_of 10 0 21 0; MoreExamples.plain_bind] ∅ (start (a_world true VK_SUCCESS))).1.1
  = VK_ERROR_DEVICE_LOST.
Proof. reflexivity. Qed.

Lemma bind_batch_returns_at_refused_entry_witness :
  let s := start (a_world true VK_SUCCESS) in
  ((1 < Z.to_nat 3)%nat
   ∧ three_binds !! 1%nat = Some (bind_of 10 1 22 1)
   ∧ is_bind_allowed (LayerExternals := externals) (a_world true VK_SUCCESS) 10 1
     ≠ VK_SUCCESS)
  ∧ (wsi_layer_vkBindImageMemory2 (H := externals) 1 3 three_binds ∅ s).1.1
    = VK_ERROR_OUT_OF_HOST_MEMORY.
Proof.
  intros s.
  pose (li := match for_loop_flow 1 0
                      (bind_body (H := externals) 1
                         (is_maintenance_6_enabled (LayerExternals := externals) (world s))
                         three_binds)
                      {| bl_endpoint_result := VK_SUCCESS; bl_status := ∅; bl_state := s |}
              with
              | Return l | Next l => l
              end).
  assert (Hrefused : is_bind_allowed (LayerExternals := externals)
                       (world (bl_state li)) 10 1 ≠ VK_SUCCESS) by (vm_compute; discriminate).
  split; [split; [simpl; lia | split; [reflexivity | vm_compute; discriminate]]|].
  rewrite (bind_batch_returns_at_refused_entry (H := externals) 1 three_binds 3 ∅ s 1 li
             (bind_of 10 1 22 1) 10 1);
    [reflexivity | simpl; lia | reflexivity | reflexivity | reflexivity | discriminate
     | reflexivity | exact Hrefused].
Defined.

(* ===================================================================== *)
(** * Present rectangles and device groups *)
(* ===================================================================== *)

Import Entrypoints.

(** X17.  For a surface the layer handles, the present rectangles are the
    single rectangle at the origin with the current extent that the backend
    of the surface reports, for an X11 surface the size of its window.  The
    call never fails: with a null array it returns [VK_SUCCESS] and a count of
    1; with an array and a count of 0 it returns [VK_INCOMPLETE] and writes
    nothing; otherwise it returns [VK_SUCCESS], sets the count to 1 and
    writes the first element of the array, and no other. *)
Theorem present_rectangles `{WsiExternals} `{InstanceExternals}
    (physicalDevice : VkPhysicalDevice) (surf : VkSurfaceKHR) (pRectCount : Z)
    (rects : list VkRect2D) :
  should_layer_handle_surface physicalDevice surf = true →
  let reported :=
    currentExtent
      (get_surface_capabilities (get_surface_properties surf) physicalDevice
         zero_surface_capabilities).2 in
  wsi_layer_vkGetPhysicalDevicePresentRectanglesKHR physicalDevice surf pRectCount None
  = (VK_SUCCESS, 1, None)
  ∧ (pRectCount = 0 →
     wsi_layer_vkGetPhysicalDevicePresentRectanglesKHR physicalDevice surf pRectCount
       (Some rects)
     = (VK_INCOMPLETE, 0, Some rects))
  ∧ (pRectCount ≠ 0 →
     wsi_layer_vkGetPhysicalDevicePresentRectanglesKHR physicalDevice surf pRectCount
       (Some rects)
     = (VK_SUCCESS, 1,
        Some (match rects with
              | [] => []
              | _ :: others =>
                  {| offset := {| x := 0; y := 0 |}; extent := reported |} :: others
              end)))
  ∧ (∀ sp, get_surface_properties surf = x11_surface_properties sp →
           reported = {| width := X11.surface_width (X11.specific_surface sp);
                         height := X11.surface_height (X11.specific_surface sp) |}).
Proof.
  intros Hhandle reported.
  unfold wsi_layer_vkGetPhysicalDevicePresentRectanglesKHR. rewrite Hhandle. cbn [negb].
  split; [reflexivity|]. split; [intros ->; reflexivity|]. split.
  - intros Hcount.
    destruct (Z.eqb_spec 0 pRectCount) as [Heq|_]; [congruence|].
    subst reported.
    destruct (get_surface_properties surf) as [sp|sp]; simpl; destruct rects; reflexivity.
  - intros sp Hsp. subst reported. rewrite Hsp. reflexivity.
Qed.

Lemma present_rectangles_witness :
  (should_layer_handle_surface (InstanceExternals := MoreExamples.instance_externals) 1 100
   = true
   ∧ 2 ≠ 0)
  ∧ wsi_layer_vkGetPhysicalDevicePresentRectanglesKHR
      (H := Examples.wsi_externals) (H0 := MoreExamples.instance_externals)
      1 100 2 (Some [MoreExamples.a_rect 9; MoreExamples.a_rect 9])
    = (VK_SUCCESS, 1,
       Some [ {| offset := {| x := 0; y := 0 |};
                 extent := {| width := 640; height := 480 |} |};
              MoreExamples.a_rect 9 ]).
Proof.
  assert (Hcount : 2 ≠ 0) by discriminate.
  split; [split; [reflexivity | exact Hcount]|].
  destruct (present_rectangles (H := Examples.wsi_externals)
              (H0 := MoreExamples.instance_externals)
              1 100 2 [MoreExamples.a_rect 9; MoreExamples.a_rect 9] eq_refl)
    as (_ & _ & Hwrite & _).
  exact (Hwrite Hcount).
Defined.

(** X18.  Whatever the caller's structure held, the device-group present
    capabilities say that the first device of the group presents from itself
    and no other device presents at all: the mask is 1 followed by zeros, all
    [VK_MAX_DEVICE_GROUP_SIZE_KHR] entries of it written, and the only mode
    is the local one. *)
Theorem device_group_present_mask (device : VkDevice)
    (caps : VkDeviceGroupPresentCapabilitiesKHR) :
  length (presentMask caps) = VK_MAX_DEVICE_GROUP_SIZE_KHR →
  wsi_layer_vkGetDeviceGroupPresentCapabilitiesKHR device caps
  = (VK_SUCCESS,
     {| presentMask := 1 :: replicate (VK_MAX_DEVICE_GROUP_SIZE_KHR - 1) 0;
        modes := VK_DEVICE_GROUP_PRESENT_MODE_LOCAL_BIT_KHR |}).
Proof.
  intros Hlen. unfold wsi_layer_vkGetDeviceGroupPresentCapabilitiesKHR.
  destruct (presentMask caps) as [|m0 rest] eqn:Hmask; [discriminate Hlen|].
  simpl in Hlen. injection Hlen as Hrest.
  change (<[0%nat:=1]> (m0 :: rest)) with ([1] ++ rest).
  pose proof (for_loop_fill (λ _ : nat, 0) (VK_MAX_DEVICE_GROUP_SIZE_KHR - 1) [1] rest) as Hfill.
  simpl length in Hfill. rewrite Hfill by (simpl; lia).
  rewrite drop_ge by (simpl; lia).
  rewrite (const_fmap (λ _ : nat, 0) _ 0) by reflexivity.
  rewrite length_seq, app_nil_r. reflexivity.
Qed.

Lemma device_group_present_mask_witness :
  length (presentMask {| presentMask := replicate 32 7; modes := 9 |})
  = VK_MAX_DEVICE_GROUP_SIZE_KHR
  ∧ wsi_layer_vkGetDeviceGroupPresentCapabilitiesKHR 1
      {| presentMask := replicate 32 7; modes := 9 |}
    = (VK_SUCCESS, {| presentMask := 1 :: replicate 31 0; modes := 1 |}).
Proof.
  split; [reflexivity|].
  exact (device_group_present_mask 1 {| presentMask := replicate 32 7; modes := 9 |} eq_refl).
Defined.

(** X19.  For a swapchain of the layer the two acquire entrypoints are the
    same operation: [vkAcquireNextImage2KHR] on an info structure does what
    [vkAcquireNextImageKHR] does on its swapchain, timeout, semaphore and
    fence, and its device mask plays no part. *)
Theorem acquire_entrypoints_agree {World : Type} `{LayerExternals World}
    `{SwapchainExternals World}
    (w : World) (pAcquireInfo : VkAcquireNextImageInfoKHR) (pImageIndex : Z) :
  layer_owns_swapchain w (acq_swapchain pAcquireInfo) = true →
  wsi_layer_vkAcquireNextImage2KHR w pAcquireInfo pImageIndex
  = wsi_layer_vkAcquireNextImageKHR w (acq_swapchain pAcquireInfo) (acq_timeout pAcquireInfo)
      (acq_semaphore pAcquireInfo) (acq_fence pAcquireInfo) pImageIndex
  ∧ ∀ mask,
      wsi_layer_vkAcquireNextImage2KHR w
        {| acq_swapchain := acq_swapchain pAcquireInfo; acq_timeout := acq_timeout pAcquireInfo;
           acq_semaphore := acq_semaphore pAcquireInfo; acq_fence := acq_fence pAcquireInfo;
           acq_deviceMask := mask |} pImageIndex
      = wsi_layer_vkAcquireNextImage2KHR w pAcquireInfo pImageIndex.
Proof.
  intros Howns.
  unfold wsi_layer_vkAcquireNextImage2KHR, wsi_layer_vkAcquireNextImageKHR. simpl.
  rewrite Howns. simpl. auto.
Qed.

Lemma acquire_entrypoints_agree_witness :
  let info := {| acq_swapchain := 10; acq_timeout := 5; acq_semaphore := 3; acq_fence := 0;
                 acq_deviceMask := 1 |} in
  layer_owns_swapchain (LayerExternals := externals) (a_world true VK_SUCCESS) 10 = true
  ∧ wsi_layer_vkAcquireNextImage2KHR (H := externals) (H0 := MoreExamples.swapchain_externals)
      (a_world true VK_SUCCESS) info 0
    = wsi_layer_vkAcquireNextImageKHR (H := externals) (H0 := MoreExamples.swapchain_externals)
        (a_world true VK_SUCCESS) 10 5 3 0 0.
Proof.
  intros info. split; [reflexivity|].
  exact (proj1 (acquire_entrypoints_agree (H := externals)
                  (H0 := MoreExamples.swapchain_externals)
                  (a_world true VK_SUCCESS) info 0 eq_refl)).
Defined.
(* ===================================================================== *)
(** * The first format query of a Wayland surface *)
(* ===================================================================== *)

Section FirstFormatQuery.
Context `{WsiExternals}.

Lemma format_range_length (m : gmap Z surface_format_properties) :
  length (Wayland.format_range m) = size m.
Proof. unfold Wayland.format_range. rewrite length_fmap. apply length_map_to_list. Qed.

Lemma add_compression_succeeds (phys_dev : VkPhysicalDevice)
    (l : list drm_format_pair) :
  (∀ pd p info, (add_device_compression_support pd p info).1 = VK_SUCCESS) →
  ∀ m : gmap Z surface_format_properties,
    (Wayland.surface_format_properties_map_add_compression phys_dev m l).1 = VK_SUCCESS.
Proof.
  intros Hsup. induction l as [|d rest IH]; intros m; simpl; [reflexivity|].
  assert (Hstep : ∀ fmt (m0 : gmap Z surface_format_properties),
            (Wayland.add_compression_if_present phys_dev fmt d m0).1 = VK_SUCCESS).
  { intros fmt m0. unfold Wayland.add_compression_if_present.
    destruct (negb (fmt =? VK_FORMAT_UNDEFINED)); [|reflexivity].
    destruct (m0 !! fmt) as [entry|]; [|reflexivity].
    unfold Wayland.surface_format_properties_add_modifier_support.
    match goal with
    | |- context [add_device_compression_support ?a ?b ?c] =>
        pose proof (Hsup a b c) as Hs; destruct (add_device_compression_support a b c)
    end.
    exact Hs. }
  unfold TRY.
  pose proof (Hstep (drm_to_vk_format (fourcc d)) m) as H1.
  destruct (Wayland.add_compression_if_present phys_dev (drm_to_vk_format (fourcc d)) d m)
    as [r1 m1].
  pose proof (Hstep (drm_to_vk_srgb_format (fourcc d)) m1) as H2.
  destruct (Wayland.add_compression_if_present phys_dev (drm_to_vk_srgb_format (fourcc d)) d m1)
    as [r2 m2].
  simpl in *. subst r1 r2. simpl. apply IH.
Qed.

(** X21.  The first format query of a Wayland surface, on a device that
    supports every format asked about (and, where it has image compression,
    every compression query) and while the allocator does not fail: it
    succeeds, the map then holds exactly the defined Vulkan formats of the
    DRM formats the surface advertises, and the count reported with null
    arrays is the number of these formats, each counted once however many
    DRM formats and modifiers stand for it. *)
Theorem first_format_query_counts_each_format_once (sp : Wayland.surface_properties)
    (physical_device : VkPhysicalDevice) (any_count : Z) :
  Wayland.supported_formats sp = ∅ →
  (∀ pd p info, (check_device_support pd p info).1 = VK_SUCCESS) →
  (∀ pd p info, (add_device_compression_support pd p info).1 = VK_SUCCESS) →
  (∀ m f, try_insert_allocates m f = true) →
  let advertised : gset Z := list_to_set (defined_formats (Wayland.specific_surface sp)) in
  Z.of_nat (size advertised) < 2 ^ 32 →
  let q := Wayland.get_surface_formats sp physical_device any_count
             {| surface_formats := None; extended_surface_formats := None |} in
  enum_result q.1 = VK_SUCCESS
  ∧ enum_count q.1 = Z.of_nat (size advertised)
  ∧ dom (Wayland.supported_formats q.2) = advertised.
Proof.
  intros Hempty Hsup Hcomp Halloc advertised Hsize q.
  pose proof (map_init_complete physical_device ∅ (Wayland.specific_surface sp)
                Hsup Halloc) as [Hr1 Hkeys].
  pose proof (map_init_only_adds physical_device ∅ (Wayland.specific_surface sp))
    as [_ Honly].
  pose proof (add_compression_succeeds physical_device (Wayland.specific_surface sp) Hcomp)
    as Hr2.
  pose proof (add_compression_dom physical_device) as Hdom2.
  assert (Hfinish : ∀ m : gmap Z surface_format_properties,
            dom m = advertised →
            let e := surface_properties_formats_helper fill_format_properties
                       (Wayland.format_range m) any_count
                       {| surface_formats := None; extended_surface_formats := None |} in
            enum_result e = VK_SUCCESS ∧ enum_count e = Z.of_nat (size advertised)).
  { intros m Hm e. subst e. unfold surface_properties_formats_helper. simpl.
    split; [reflexivity|].
    rewrite format_range_length, <- Hm, size_dom.
    apply wrap32_small. rewrite <- (size_dom (D := gset Z)), Hm. lia. }
  subst q. unfold Wayland.get_surface_formats, TRY. rewrite Hempty.
  change (size (∅ : gmap Z surface_format_properties) =? 0)%nat with true. cbv iota.
  destruct (Wayland.surface_format_properties_map_init physical_device ∅
              (Wayland.specific_surface sp)) as [r1 m1].
  simpl in Hr1, Hkeys, Honly. subst r1. simpl.
  assert (Hm1 : dom m1 = advertised).
  { apply set_eq. intros k. subst advertised.
    rewrite elem_of_dom, elem_of_list_to_set. split.
    - intros Hk. destruct (Honly k Hk) as [Hin|Hin]; [|exact Hin].
      rewrite lookup_empty in Hin. destruct Hin as [? Hin]. discriminate.
    - apply Hkeys. }
  destruct (has_image_compression_support physical_device).
  - specialize (Hr2 m1). specialize (Hdom2 m1 (Wayland.specific_surface sp)).
    destruct (Wayland.surface_format_properties_map_add_compression physical_device m1
                (Wayland.specific_surface sp)) as [r2 m2].
    simpl in Hr2, Hdom2. subst r2. simpl.
    assert (Hm2 : dom m2 = advertised) by congruence.
    destruct (Hfinish m2 Hm2) as [E1 E2]. auto.
  - simpl. destruct (Hfinish m1 Hm1) as [E1 E2]. auto.
Qed.
End FirstFormatQuery.

(** A surface that advertises one DRM format under two modifiers: two Vulkan
    formats, each counted once. *)
Lemma first_format_query_counts_each_format_once_witness :
  let sp := Wayland.make_surface_properties 4
              [ {| fourcc := Examples.DRM_FORMAT_XRGB8888; modifier := 0 |};
                {| fourcc := Examples.DRM_FORMAT_XRGB8888; modifier := 1 |} ] in
  let q := Wayland.get_surface_formats (H := Examples.wsi_externals) sp 1 0
             {| surface_formats := None; extended_surface_formats := None |} in
  (Wayland.supported_formats sp = ∅
   ∧ Z.of_nat (size (list_to_set (defined_formats (H := Examples.wsi_externals)
                                    (Wayland.specific_surface sp)) : gset Z)) < 2 ^ 32)
  ∧ enum_result q.1 = VK_SUCCESS
  ∧ enum_count q.1 = 2.
Proof.
  intros sp q.
  assert (Hsize : Z.of_nat (size (list_to_set (defined_formats (H := Examples.wsi_externals)
                                                 (Wayland.specific_surface sp)) : gset Z))
                  = 2) by (vm_compute; reflexivity).
  destruct (first_format_query_counts_each_format_once (H := Examples.wsi_externals)
              sp 1 0 eq_refl ltac:(reflexivity) ltac:(reflexivity) ltac:(reflexivity)
              ltac:(rewrite Hsize; lia))
    as (Hres & Hcount & _).
  split; [split; [reflexivity | rewrite Hsize; lia]|].
  split; [exact Hres|]. fold q in Hcount. rewrite Hcount. exact Hsize.
Defined.
